(** * FinanceApp: the route and statistics layer of [server/routes.ts]
      and [server/storage.ts], embedded and verified.

    Conventions of the embedding.
    - A JavaScript [number] is a binary64 number.  The finite ones are
      rationals, and the model holds them as such ([Q]); what the code
      computes with [+], [-], [*] and [/] is the exact result rounded to
      the nearest binary64 number, ties to the even one ([Js.number]), as
      the language has it, subnormal numbers included.  A result whose
      magnitude reaches 2^1024 is an infinity in the code and is not
      modelled.  Where the code can meet something that is not a finite
      number, the model says so: [parseInt] and [parseFloat] of a request
      return an [option], and the object that accumulates the expenses of
      a report holds a [Js.value].
    - The decimal columns of the store hold rationals.  A number written
      to a column is held as it is (the decimal text that carries it reads
      back as the same binary64 number, and the columns are taken to keep
      every digit of it), the arithmetic inside the store is exact, and
      [parseFloat] of a column is the binary64 number nearest to it.
    - The keys of the store are integers of a fixed width.  A number that
      a request supplies for a key and that does not fit is refused by the
      store with an error ([key] and [statementOn]).
    - A [Date] is its [getTime ()] value: milliseconds since the epoch, in
      one time zone (the server, the store and UTC are not distinguished).
      The Invalid Date, which [new Date] makes of a text that is no date,
      has no time value; writing it to the store throws.
    - [ORDER BY] says nothing of rows that agree on the column.  The model
      returns them in the order of the relation; what is proved of the
      order of a listing is that it is sorted, and more only for rows that
      do not agree on the column.
    - A promise that rejects is a [Throw]; the store is passed explicitly,
      and a handler returns its response together with the store it leaves
      when it writes. *)

From Stdlib Require Import ZArith QArith Qround Qpower List String Ascii Bool.
From Stdlib Require Import Lia Lqa Permutation Sorted.
Import ListNotations.

Set Implicit Arguments.

Local Open Scope string_scope.
Local Open Scope Z_scope.

(* ================================================================= *)
(** ** The JavaScript built-ins the code relies on *)

Module Js.

(** *** binary64 *)

(** The whole number [e] with [2^e <= x < 2^(e+1)], for a positive [x]. *)
Definition ilog2 (x : Q) : Z :=
  let e := Z.log2 (Qnum x) - Z.log2 (Zpos (Qden x)) in
  if Qle_bool (2 ^ e) x then e else e - 1.

(** The whole number nearest to [x], the even one of two that are equally
    near. *)
Definition nearestEven (x : Q) : Z :=
  let f := Qfloor x in
  match (x - inject_Z f ?= 1 # 2)%Q with
  | Lt => f
  | Gt => f + 1
  | Eq => if Z.even f then f else f + 1
  end.

(** The exponent of the last binary place of the binary64 numbers around a
    positive [x]: 53 significant bits, and no place below 2^-1074. *)
Definition exponent (x : Q) : Z := Z.max (ilog2 x - 52) (-1074).

(** The binary64 number nearest to a positive [x]. *)
Definition nearest (x : Q) : Q :=
  (inject_Z (nearestEven (x / 2 ^ exponent x)) * 2 ^ exponent x)%Q.

(** The binary64 number nearest to [x], in lowest terms: what a literal,
    [parseFloat] of a decimal text, or an operation with the exact result
    [x] gives. *)
Definition number (x : Q) : Q :=
  let x := Qred x in
  match Qnum x with
  | Z0 => 0%Q
  | Zpos _ => Qred (nearest x)
  | Zneg _ => Qred (- nearest (- x))
  end.

(** [a + b], [a - b], [a * b] and [a / b] on numbers ([b] not 0 in the
    last). *)
Definition plus (a b : Q) : Q := number (a + b).
Definition minus (a b : Q) : Q := number (a - b).
Definition times (a b : Q) : Q := number (a * b).
Definition over (a b : Q) : Q := number (a / b).

(** [Math.round]: the nearest integer, halves rounded towards +infinity. *)
Definition Math_round (x : Q) : Q := inject_Z (Qfloor (x + (1 # 2))%Q).

Definition Math_floor (x : Q) : Q := inject_Z (Qfloor x).

Definition Math_max (x y : Q) : Q := if Qle_bool x y then y else x.

(** [x < y] on numbers. *)
Definition lt (x y : Q) : bool := negb (Qle_bool y x).

(** A value where the code expects a number but may meet something else:
    a finite number, or anything that is not one ([NaN], an infinity, a
    string, a function). *)
Inductive value : Type :=
| Num (n : Q)
| Other.

(** [v || 0] for a property that may be absent. *)
Definition orZero (v : option value) : value :=
  match v with
  | Some v => v
  | None => Num 0
  end.

(** [a + b]: the sum of two numbers; with anything else, a string or
    [NaN]. *)
Definition add (a b : value) : value :=
  match a, b with
  | Num x, Num y => Num (plus x y)
  | _, _ => Other
  end.

(** [a - b] and [a * b]: [NaN] unless both are numbers. *)
Definition sub (a b : value) : value :=
  match a, b with
  | Num x, Num y => Num (minus x y)
  | _, _ => Other
  end.

Definition mul (a b : value) : value :=
  match a, b with
  | Num x, Num y => Num (times x y)
  | _, _ => Other
  end.

(** [a / b]: not finite when the divisor is zero. *)
Definition div (a b : value) : value :=
  match a, b with
  | Num x, Num y => if Qeq_bool y 0 then Other else Num (over x y)
  | _, _ => Other
  end.

(** [s.includes (sub)]. *)
Fixpoint includes (s sub : string) : bool :=
  String.prefix sub s
  || match s with
     | EmptyString => false
     | String _ rest => includes rest sub
     end.

(** [xs.reduce ((acc, x) => f acc x, init)]. *)
Definition reduce {A B : Type} (f : B -> A -> B) (init : B) (xs : list A) : B :=
  fold_left f xs init.

(** [Math.round (v)], which is [NaN] or infinite when [v] is. *)
Definition round (v : value) : value :=
  match v with
  | Num x => Num (Math_round x)
  | Other => Other
  end.

(** A comparator's verdict that [a] need not follow [b]: a number that is
    not positive, or [NaN], which the engine reads as 0. *)
Definition notAfter (v : value) : bool :=
  match v with
  | Num x => Qle_bool x 0%Q
  | Other => true
  end.

(** [xs.sort (cmp)]: [a] stays before [b] when [cmp a b <= 0].  The
    engine's sort is stable; an insertion sort that puts an element in
    front of the first one it does not have to follow is the same
    function on every comparator that is a total preorder, as a
    comparator of numbers is.  On a comparator that returns [NaN] for some
    pairs the engine's sort can differ; nothing below is stated of such
    a sort but that it permutes. *)
Section Sort.
Context {A : Type} (cmp : A -> A -> value).

Fixpoint insert (x : A) (l : list A) : list A :=
  match l with
  | [] => [x]
  | y :: l' => if notAfter (cmp x y) then x :: l else y :: insert x l'
  end.

Definition sort (l : list A) : list A := fold_right insert [] l.
End Sort.

(** [xs.slice (0, n)]. *)
Definition slice0 {A : Type} (n : nat) (xs : list A) : list A := firstn n xs.

(** The double quote, for messages that contain one. *)
Definition dquote : string := String (ascii_of_nat 34) EmptyString.

(** Calendar fields of an instant (proleptic Gregorian calendar). *)
Definition msPerDay : Z := 1000 * 60 * 60 * 24.

Definition dayNumber (t : Z) : Z := t / msPerDay.

Definition civil (days : Z) : Z * Z * Z :=
  let z := days + 719468 in
  let era := z / 146097 in
  let doe := z - era * 146097 in
  let yoe := (doe - doe / 1460 + doe / 36524 - doe / 146096) / 365 in
  let doy := doe - (365 * yoe + yoe / 4 - yoe / 100) in
  let mp := (5 * doy + 2) / 153 in
  let d := doy - (153 * mp + 2) / 5 + 1 in
  let m := if mp <? 10 then mp + 3 else mp - 9 in
  let y := yoe + era * 400 + (if m <=? 2 then 1 else 0) in
  (y, m, d).

(** [d.getFullYear ()] and [d.getMonth ()] (January is 0). *)
Definition getFullYear (t : Z) : Z := fst (fst (civil (dayNumber t))).
Definition getMonth (t : Z) : Z := snd (fst (civil (dayNumber t))) - 1.

End Js.

(* ================================================================= *)
(** ** Errors and results *)

(** What a [catch] clause can see: a validation error of the schema
    library (with the messages of its issues, never empty), or a plain
    [Error] with its message. *)
Inductive exn : Type :=
| ZodError (first : string) (others : list string)
| Error (message : string).

Inductive result (A : Type) : Type :=
| Ok (a : A)
| Throw (e : exn).
Arguments Ok {A} a.
Arguments Throw {A} e.

Definition bind {A B : Type} (r : result A) (k : A -> result B) : result B :=
  match r with
  | Ok a => k a
  | Throw e => Throw e
  end.

Notation "'let*' x ':=' r 'in' k" := (bind r (fun x => k))
  (at level 10, x name, r at level 100, k at level 200).

(** [error instanceof Error && error.message.includes (sub)].  A
    [ZodError] is an [Error] too; its message is the serialised issue list,
    which the model does not spell out, so the test is modelled as failing
    on it. *)
Definition messageIncludes (e : exn) (sub : string) : bool :=
  match e with
  | Error m => Js.includes m sub
  | ZodError _ _ => false
  end.

Definition errors (first : string) (others : list string) : list string :=
  first :: others.

(* ================================================================= *)
(** ** The rows of the store *)

(** Modelled from the spec: the row types of [@shared/schema], which is
    imported by both source files but is not among them.  The fields are
    those of the spec's data model; a decimal column is a [Q], a nullable
    column an [option], a timestamp an instant. *)
Inductive TransactionType : Type := income | expense.

Definition TransactionType_eqb (a b : TransactionType) : bool :=
  match a, b with
  | income, income | expense, expense => true
  | _, _ => false
  end.

Module User.
Record t : Type := {
  id : Z;
  email : string;
  password : string;
  firstName : string;
  lastName : string;
  createdAt : Z;
  updatedAt : Z
}.
End User.

Module Transaction.
Record t : Type := {
  id : Z;
  userId : Z;
  type : TransactionType;
  amount : Q;
  category : string;
  description : option string;
  date : Z;
  ecoImpact : option Q;
  createdAt : Z
}.
End Transaction.

Module Category.
Record t : Type := {
  id : Z;
  userId : Z;
  name : string;
  type : TransactionType
}.
End Category.

Module Goal.
Record t : Type := {
  id : Z;
  userId : Z;
  name : string;
  description : option string;
  targetAmount : Q;
  currentSaved : Q;
  targetDate : option Z;
  completed : bool;
  createdAt : Z;
  updatedAt : Z
}.
End Goal.

(** What [storage.createTransaction] receives.  The date is a [Date]
    object, which is the Invalid Date ([None]) when it was made from a text
    that is no date. *)
Module InsertTransaction.
Record t : Type := {
  userId : Z;
  type : TransactionType;
  amount : Q;
  category : string;
  description : option string;
  date : option Z;
  ecoImpact : Q
}.
End InsertTransaction.

(* ================================================================= *)
(** ** The store *)

Inductive relation : Type := Users | Transactions | Categories | Goals.

(** The relational store behind [db]: the rows of the four relations, the
    sequence that numbers new transactions, the numbers that fit the
    integer type of the keys (the columns are declared in [@shared/schema],
    which is not among the sources), and, for a relation the store cannot
    serve, the message of the error its statements raise. *)
Record Db : Type := {
  users : list User.t;
  transactions : list Transaction.t;
  categories : list Category.t;
  goals : list Goal.t;
  transactions_id_seq : Z;
  key : Z -> bool;
  failure : relation -> option string
}.

(** A statement on relation [r] that would yield [a]. *)
Definition statement {A : Type} (db : Db) (r : relation) (a : A) : result A :=
  match failure db r with
  | Some message => Throw (Error message)
  | None => Ok a
  end.

(** A statement on relation [r] that would yield [a] and that compares the
    key of the relation with the number [id], which a request supplied:
    the store raises an error when the number does not fit the type of the
    key.  No handler passes the text of that error on.  The id of the
    caller, which a statement compares with the owner of a row, comes from
    a token that the server signed for a row of the users, and fits. *)
Definition statementOn {A : Type} (db : Db) (r : relation) (id : Z) (a : A)
  : result A :=
  match statement db r a with
  | Ok a => if key db id then Ok a else Throw (Error "integer out of range")
  | Throw e => Throw e
  end.

(** [.orderBy (desc (column))].  Rows that agree on the column come in the
    order of the relation here; the store may return them in any order. *)
Definition orderBy_desc {A : Type} (column : A -> Z) (rows : list A) : list A :=
  Js.sort (fun a b => Js.Num (inject_Z (column b - column a))) rows.

(** The message of the store for a relation that was never created
    (a PostgreSQL server with Russian messages). *)
Definition goals_missing : string :=
  "отношение " ++ Js.dquote ++ "goals" ++ Js.dquote ++ " не существует".

Definition with_goals (db : Db) (rows : list Goal.t) : Db :=
  {| users := users db; transactions := transactions db;
     categories := categories db; goals := rows;
     transactions_id_seq := transactions_id_seq db; key := key db;
     failure := failure db |}.

Definition with_transactions (db : Db) (rows : list Transaction.t) (seq : Z) : Db :=
  {| users := users db; transactions := rows;
     categories := categories db; goals := goals db;
     transactions_id_seq := seq; key := key db; failure := failure db |}.

(* ================================================================= *)
(** ** [server/storage.ts]: class [DatabaseStorage] *)

(** A plain object [{}] used as a map from labels: its own properties, in
    the order of their creation, over the properties it inherits. *)
Module Obj.

Definition t (V : Type) : Type := list (string * V).

Fixpoint decimal (s : string) (acc : Z) : option Z :=
  match s with
  | EmptyString => Some acc
  | String c rest =>
      let n := Z.of_nat (nat_of_ascii c) in
      if (48 <=? n) && (n <=? 57) then decimal rest (10 * acc + (n - 48))
      else None
  end.

(** The number of a key that is an array index: the key is the decimal
    text, without a leading zero, of an integer below 2^32 - 1. *)
Definition arrayIndex (k : string) : option Z :=
  match k with
  | EmptyString => None
  | String c rest =>
      if String.eqb k "0" then Some 0
      else if Ascii.eqb c "0" then None
      else
        match decimal k 0 with
        | Some n => if n <? 4294967295 then Some n else None
        | None => None
        end
  end.

Definition isIndex (k : string) : bool :=
  match arrayIndex k with
  | Some _ => true
  | None => false
  end.

Definition indexOrZero (k : string) : Z :=
  match arrayIndex k with
  | Some n => n
  | None => 0
  end.

Section Own.
Context {V : Type}.

Fixpoint own (o : t V) (k : string) : option V :=
  match o with
  | [] => None
  | (k', v) :: o' => if String.eqb k' k then Some v else own o' k
  end.

Fixpoint setOwn (o : t V) (k : string) (v : V) : t V :=
  match o with
  | [] => [(k, v)]
  | (k', v') :: o' =>
      if String.eqb k' k then (k', v) :: o' else (k', v') :: setOwn o' k v
  end.

(** [Object.entries (o)]: the keys that are array indices, in ascending
    order, then the other keys in the order of their creation. *)
Definition entries (o : t V) : list (string * V) :=
  (Js.sort
     (fun a b => Js.Num (inject_Z (indexOrZero (fst a) - indexOrZero (fst b))))
     (filter (fun e => isIndex (fst e)) o)
   ++ filter (fun e => negb (isIndex (fst e))) o)%list.

End Own.

(** The names that every object inherits from [Object.prototype]. *)
Definition inherited : list string :=
  [ "constructor"; "hasOwnProperty"; "isPrototypeOf"; "propertyIsEnumerable";
    "toLocaleString"; "toString"; "valueOf"; "__proto__";
    "__defineGetter__"; "__defineSetter__"; "__lookupGetter__";
    "__lookupSetter__" ].

(** [o[k]]: the own property, else the inherited one, which is a function
    or an object, else [undefined]. *)
Definition get (o : t Js.value) (k : string) : option Js.value :=
  match own o k with
  | Some v => Some v
  | None => if existsb (String.eqb k) inherited then Some Js.Other else None
  end.

(** [o[k] = v] for a number or a string [v]: it makes or updates an own
    property, except that the inherited setter of [__proto__] ignores it. *)
Definition set (o : t Js.value) (k : string) (v : Js.value) : t Js.value :=
  if String.eqb k "__proto__" then o else setOwn o k v.

End Obj.

(** An element of [topCategories]; [amount] and [percentage] are numbers
    only as far as the accumulator held numbers. *)
Record TopCategory : Type := {
  tc_category : string;
  tc_amount : Js.value;
  tc_percentage : Js.value
}.

Record EcoMetrics : Type := {
  totalCo2 : Q;
  rating : string;
  recommendations : list string
}.

Record MonthlyReport : Type := {
  month : Z;
  year : Z;
  totalIncome : Q;
  totalExpenses : Q;
  topCategories : list TopCategory;
  ecoMetrics : EcoMetrics
}.

Record DashboardStats : Type := {
  totalBalance : Q;
  monthlyIncome : Q;
  monthlyExpenses : Q;
  ds_ecoRating : string;
  co2Reduction : Q;
  ds_totalTransactions : Z
}.

Record UserStats : Type := {
  us_totalTransactions : Z;
  accountAge : Q;
  us_ecoRating : string
}.

Module Storage.

Definition getUserGoals (db : Db) (userId : Z) : result (list Goal.t) :=
  match
    statement db Goals
      (orderBy_desc Goal.createdAt
         (filter (fun g => Goal.userId g =? userId) (goals db)))
  with
  | Ok rows => Ok rows
  | Throw error =>
      if messageIncludes error goals_missing then Ok []
      else Throw (Error "Не удалось загрузить цели")
  end.

Definition getGoal (db : Db) (id : Z) : result (option Goal.t) :=
  statementOn db Goals id (find (fun g => Goal.id g =? id) (goals db)).

Definition deleteGoal (db : Db) (id : Z) : result unit * Db :=
  match statementOn db Goals id tt with
  | Ok _ =>
      (Ok tt, with_goals db (filter (fun g => negb (Goal.id g =? id)) (goals db)))
  | Throw e => (Throw e, db)
  end.

(** [SET "currentSaved" = "currentSaved" + amount, "updatedAt" = now]. *)
Definition addSaved (now : Z) (amount : Q) (g : Goal.t) : Goal.t :=
  {| Goal.id := Goal.id g; Goal.userId := Goal.userId g;
     Goal.name := Goal.name g; Goal.description := Goal.description g;
     Goal.targetAmount := Goal.targetAmount g;
     Goal.currentSaved := (Goal.currentSaved g + amount)%Q;
     Goal.targetDate := Goal.targetDate g;
     Goal.completed := Goal.completed g;
     Goal.createdAt := Goal.createdAt g; Goal.updatedAt := now |}.

(** [goalId] is [None] for [NaN], which the store refuses as a key, as it
    refuses a number that does not fit the type of the key; the result is
    the updated row, or [undefined] when no row has the key. *)
Definition updateGoalProgress (now : Z) (db : Db) (goalId : option Z) (amount : Q)
  : result (option Goal.t) * Db :=
  let refused := (Throw (Error "Не удалось обновить прогресс цели"), db) in
  match goalId with
  | Some id =>
      match statementOn db Goals id tt with
      | Ok _ =>
          let rows :=
            map (fun g => if Goal.id g =? id then addSaved now amount g else g)
                (goals db) in
          (Ok (find (fun g => Goal.id g =? id) rows), with_goals db rows)
      | Throw _ => refused
      end
  | None => refused
  end.

(** [today.toISOString ().split ('T')[0]] and the two [::date] casts
    compare calendar days. *)
Definition getActiveGoals (now : Z) (db : Db) (userId : Z) : result (list Goal.t) :=
  let today := now in
  let todayString := Js.dayNumber today in
  match
    statement db Goals
      (orderBy_desc Goal.createdAt
         (filter
            (fun g =>
               (Goal.userId g =? userId)
               && Js.lt (Goal.currentSaved g) (Goal.targetAmount g)
               && match Goal.targetDate g with
                  | None => true
                  | Some targetDate => todayString <=? Js.dayNumber targetDate
                  end)
            (goals db)))
  with
  | Ok rows => Ok rows
  | Throw _ => Throw (Error "Не удалось загрузить активные цели")
  end.

Definition getUserByEmail (db : Db) (email : string) : result (option User.t) :=
  statement db Users (find (fun u => String.eqb (User.email u) email) (users db)).

Definition getUserTransactions (db : Db) (userId : Z) : result (list Transaction.t) :=
  statement db Transactions
    (orderBy_desc Transaction.createdAt
       (filter (fun t => Transaction.userId t =? userId) (transactions db))).

(** The row gets the next number of the sequence and the time of the
    insertion.  The values of the insertion are written out before the
    statement reaches the store, and writing out the Invalid Date throws a
    [RangeError]: nothing is stored then. *)
Definition createTransaction (now : Z) (db : Db) (insertTransaction : InsertTransaction.t)
  : result Transaction.t * Db :=
  match InsertTransaction.date insertTransaction with
  | None => (Throw (Error "Invalid time value"), db)
  | Some date =>
      let transaction :=
        {| Transaction.id := transactions_id_seq db;
           Transaction.userId := InsertTransaction.userId insertTransaction;
           Transaction.type := InsertTransaction.type insertTransaction;
           Transaction.amount := InsertTransaction.amount insertTransaction;
           Transaction.category := InsertTransaction.category insertTransaction;
           Transaction.description :=
             InsertTransaction.description insertTransaction;
           Transaction.date := date;
           Transaction.ecoImpact :=
             Some (InsertTransaction.ecoImpact insertTransaction);
           Transaction.createdAt := now |} in
      match statement db Transactions transaction with
      | Ok row =>
          (Ok row,
           with_transactions db (transactions db ++ [row])
             (transactions_id_seq db + 1))
      | Throw e => (Throw e, db)
      end
  end.

Definition getTransaction (db : Db) (id : Z) : result (option Transaction.t) :=
  statementOn db Transactions id
    (find (fun t => Transaction.id t =? id) (transactions db)).

Definition deleteTransaction (db : Db) (id : Z) : result unit * Db :=
  match statementOn db Transactions id tt with
  | Ok _ =>
      (Ok tt,
       with_transactions db
         (filter (fun t => negb (Transaction.id t =? id)) (transactions db))
         (transactions_id_seq db))
  | Throw e => (Throw e, db)
  end.

(** [EXTRACT (MONTH FROM column)] and [EXTRACT (YEAR FROM column)]. *)
Definition EXTRACT_MONTH (t : Z) : Z := Js.getMonth t + 1.
Definition EXTRACT_YEAR (t : Z) : Z := Js.getFullYear t.

Local Open Scope Q_scope.

(** The chain of comparisons that [getUserStats], [getDashboardStats] and
    [getMonthlyReport] each spell out, letter for letter the same. *)
Definition ecoRating (totalCo2 : Q) : string :=
  let ecoRating := "N/A" in
  if Js.lt totalCo2 50 then "A+"
  else if Js.lt totalCo2 100 then "A"
  else if Js.lt totalCo2 200 then "B+"
  else if Js.lt totalCo2 300 then "B"
  else if Js.lt totalCo2 500 then "C+"
  else "C".

(** [parseFloat (t.ecoImpact || '0')] *)
Definition ecoImpactOrZero (t : Transaction.t) : Q :=
  match Transaction.ecoImpact t with
  | Some e => Js.number e
  | None => 0
  end.

(** [parseFloat (t.amount)] *)
Definition amountOf (t : Transaction.t) : Q := Js.number (Transaction.amount t).

(** The age of the account is the floor of a quotient of two whole
    numbers of milliseconds.  Within the range of [Date], a hundred million
    days, the rounding of the quotient to binary64 does not reach the next
    whole number, so the floor is that of the exact quotient, which is what
    the model takes. *)
Definition getUserStats (now : Z) (db : Db) (userId : Z) : result UserStats :=
  let* userTransactions :=
    statement db Transactions
      (filter (fun t => Transaction.userId t =? userId)%Z (transactions db)) in
  let* userRecord :=
    statement db Users (filter (fun u => User.id u =? userId)%Z (users db)) in
  let user := hd_error userRecord in
  let accountAge :=
    match user with
    | Some user =>
        Js.Math_floor (inject_Z (now - User.createdAt user)%Z / inject_Z Js.msPerDay)
    | None => 0
    end in
  let totalCo2 :=
    Js.reduce (fun sum t => Js.plus sum (ecoImpactOrZero t)) 0 userTransactions in
  Ok {| us_totalTransactions := Z.of_nat (List.length userTransactions);
        accountAge := accountAge;
        us_ecoRating := ecoRating totalCo2 |}.

Definition getDashboardStats (now : Z) (db : Db) (userId : Z) : result DashboardStats :=
  let currentDate := now in
  let currentMonth := (Js.getMonth currentDate + 1)%Z in
  let currentYear := Js.getFullYear currentDate in
  let* monthlyTransactions :=
    statement db Transactions
      (filter
         (fun t =>
            (Transaction.userId t =? userId)
            && (EXTRACT_MONTH (Transaction.date t) =? currentMonth)
            && (EXTRACT_YEAR (Transaction.date t) =? currentYear))%Z
         (transactions db)) in
  let income :=
    Js.reduce (fun sum t => Js.plus sum (amountOf t)) 0
      (filter (fun t => TransactionType_eqb (Transaction.type t) income)
         monthlyTransactions) in
  let expenses :=
    Js.reduce (fun sum t => Js.plus sum (amountOf t)) 0
      (filter (fun t => TransactionType_eqb (Transaction.type t) expense)
         monthlyTransactions) in
  let totalCo2 :=
    Js.reduce (fun sum t => Js.plus sum (ecoImpactOrZero t)) 0 monthlyTransactions in
  Ok {| totalBalance := Js.minus income expenses;
        monthlyIncome := income;
        monthlyExpenses := expenses;
        ds_ecoRating := ecoRating totalCo2;
        co2Reduction :=
          Js.Math_max 0
            (Js.Math_round (Js.times (Js.over (Js.minus 500 totalCo2) 500) 100));
        ds_totalTransactions := Z.of_nat (List.length monthlyTransactions) |}.

Definition ecoRecommendations : list string :=
  [ "Выбирайте местные продукты для снижения углеродного следа";
    "Используйте общественный транспорт или велосипед";
    "Покупайте товары с экомаркировкой";
    "Сократите потребление мяса на 1-2 дня в неделю";
    "Выбирайте цифровые чеки вместо бумажных" ].

(** The comparator of [topCategories]: [(a, b) => b.amount - a.amount]. *)
Definition byAmountDesc (a b : TopCategory) : Js.value :=
  Js.sub (tc_amount b) (tc_amount a).

(** The reducer of [expensesByCategory]:
    [acc[t.category] = (acc[t.category] || 0) + parseFloat (t.amount)]. *)
Definition addExpense (acc : Obj.t Js.value) (t : Transaction.t) : Obj.t Js.value :=
  Obj.set acc (Transaction.category t)
    (Js.add (Js.orZero (Obj.get acc (Transaction.category t)))
       (Js.Num (amountOf t))).

(** The mapper of [topCategories], for total expenses [expenses]:
    [percentage: Math.round ((amount / expenses) * 100)]. *)
Definition toTopCategory (expenses : Q) (entry : string * Js.value) : TopCategory :=
  let '(category, amount) := entry in
  {| tc_category := category;
     tc_amount := amount;
     tc_percentage :=
       Js.round (Js.mul (Js.div amount (Js.Num expenses)) (Js.Num 100)) |}.

Definition getMonthlyReport (db : Db) (userId month year : Z) : result MonthlyReport :=
  let* monthlyTransactions :=
    statement db Transactions
      (filter
         (fun t =>
            (Transaction.userId t =? userId)
            && (EXTRACT_MONTH (Transaction.date t) =? month)
            && (EXTRACT_YEAR (Transaction.date t) =? year))%Z
         (transactions db)) in
  let income :=
    Js.reduce (fun sum t => Js.plus sum (amountOf t)) 0
      (filter (fun t => TransactionType_eqb (Transaction.type t) income)
         monthlyTransactions) in
  let expenses :=
    Js.reduce (fun sum t => Js.plus sum (amountOf t)) 0
      (filter (fun t => TransactionType_eqb (Transaction.type t) expense)
         monthlyTransactions) in
  let expensesByCategory :=
    Js.reduce addExpense []
      (filter (fun t => TransactionType_eqb (Transaction.type t) expense)
         monthlyTransactions) in
  let topCategories :=
    Js.slice0 6
      (Js.sort byAmountDesc
         (map (toTopCategory expenses) (Obj.entries expensesByCategory))) in
  let totalCo2 :=
    Js.reduce (fun sum t => Js.plus sum (ecoImpactOrZero t)) 0 monthlyTransactions in
  Ok {| month := month;
        year := year;
        totalIncome := income;
        totalExpenses := expenses;
        topCategories := topCategories;
        ecoMetrics :=
          {| totalCo2 := totalCo2;
             rating := ecoRating totalCo2;
             recommendations := ecoRecommendations |} |}.

End Storage.

(* ================================================================= *)
(** ** [server/routes.ts]: requests and responses *)

(** The payload of a verified token, which [authenticateToken] stores in
    [req.user]. *)
Module JwtPayload.
Record t : Type := { userId : Z; email : string }.
End JwtPayload.

Module LoginBody.
Record t : Type := { email : string; password : string }.
End LoginBody.

(** [req.body.amount] as it arrives, and after the handler's coercion. *)
Inductive JsAmount : Type :=
| AmountString (s : string)
| AmountNumber (n : Q)
| AmountNaN
| AmountUndefined.

(** [req.body.goalId] when the key is there: a string or an integer. *)
Inductive JsId : Type :=
| IdString (s : string)
| IdNumber (n : Z).

(** The body of [POST /api/transactions]. *)
Module TransactionBody.
Record t : Type := {
  type : string;
  amount : JsAmount;
  category : string;
  description : option string;
  date : string;
  goalId : option JsId
}.

Definition with_amount (body : t) (a : JsAmount) : t :=
  {| type := type body; amount := a; category := category body;
     description := description body; date := date body;
     goalId := goalId body |}.
End TransactionBody.

(** Modelled from the spec: what [insertTransactionSchema.parse] returns.
    The schema is declared in [@shared/schema], not in the sources; the
    spec has it accept a numeric amount and a type that is income or
    expense. *)
Module ValidatedTransaction.
Record t : Type := {
  type : TransactionType;
  amount : Q;
  category : string;
  description : option string;
  date : string
}.
End ValidatedTransaction.

Record PublicUser : Type := {
  pu_id : Z;
  pu_email : string;
  pu_firstName : string;
  pu_lastName : string
}.

Inductive Json : Type :=
| JMessage (message : string)
| JValidation (message : string) (errors : list string)
| JFailure (message : string) (error : string)
| JSession (token : string) (user : PublicUser)
| JTransaction (transaction : Transaction.t)
| JTransactions (rows : list Transaction.t)
| JGoals (rows : list Goal.t)
| JDashboardStats (stats : DashboardStats)
| NoBody.

Record Response : Type := { status : Z; body : Json }.

(** [res.json (b)], [res.status (code).json (b)], [res.status (code).send ()]. *)
Definition json (b : Json) : Response := {| status := 200; body := b |}.
Definition status_json (code : Z) (b : Json) : Response := {| status := code; body := b |}.
Definition status_send (code : Z) : Response := {| status := code; body := NoBody |}.

(** Whether [req.body.goalId] counts as true: not absent, not the empty
    string, not 0. *)
Definition truthy (goalId : option JsId) : bool :=
  match goalId with
  | Some (IdString s) => negb (String.eqb s "")
  | Some (IdNumber n) => negb (n =? 0)
  | None => false
  end.

(* ================================================================= *)
(** ** [server/routes.ts]: the handlers *)

Section Routes.

(** The collaborators that are not in the sources: built-ins of the
    language, the schemas of [@shared/schema], the password and token
    primitives, the mailer of [./email] and the environment.
    [Date_parse s] is the time value of [new Date (s)], which is [None]
    for the Invalid Date that a text that is no date gives. *)
Variable parseInt : string -> option Z.
Variable parseFloat : string -> option Q.
Variable Date_parse : string -> option Z.
Variable loginSchema_parse : LoginBody.t -> result LoginBody.t.
Variable insertTransactionSchema_parse :
  TransactionBody.t -> result ValidatedTransaction.t.
Variable bcrypt_compare : string -> string -> bool.
Variable jwt_sign : JwtPayload.t -> string.
Variable randomBytes_hex : string.
Variable FRONTEND_URL : option string.
Variable sendPasswordResetEmail : string -> string -> string -> result bool.

(** [POST /api/auth/login] *)
Definition post_auth_login (body : LoginBody.t) (db : Db) : Response :=
  let catch (error : exn) :=
    match error with
    | ZodError first _ => status_json 400 (JMessage first)
    | Error _ => status_json 500 (JMessage "Ошибка сервера")
    end in
  match loginSchema_parse body with
  | Throw error => catch error
  | Ok validatedData =>
      match Storage.getUserByEmail db (LoginBody.email validatedData) with
      | Throw error => catch error
      | Ok None => status_json 401 (JMessage "Неверный email или пароль")
      | Ok (Some user) =>
          let isValidPassword :=
            bcrypt_compare (LoginBody.password validatedData) (User.password user) in
          if negb isValidPassword then
            status_json 401 (JMessage "Неверный email или пароль")
          else
            let token :=
              jwt_sign {| JwtPayload.userId := User.id user;
                          JwtPayload.email := User.email user |} in
            json (JSession token
                    {| pu_id := User.id user; pu_email := User.email user;
                       pu_firstName := User.firstName user;
                       pu_lastName := User.lastName user |})
      end
  end.

(** [process.env.FRONTEND_URL || 'http://localhost:3000'] *)
Definition frontendUrl : string :=
  match FRONTEND_URL with
  | Some url => if String.eqb url "" then "http://localhost:3000" else url
  | None => "http://localhost:3000"
  end.

(** [POST /api/auth/forgot-password] *)
Definition post_auth_forgot_password (email : string) (db : Db) : Response :=
  let catch (error : exn) := status_json 500 (JMessage "Ошибка сервера") in
  match Storage.getUserByEmail db email with
  | Throw error => catch error
  | Ok None => status_json 404 (JMessage "Пользователь с таким email не найден")
  | Ok (Some user) =>
      let resetToken := randomBytes_hex in
      match sendPasswordResetEmail email resetToken frontendUrl with
      | Throw error => catch error
      | Ok emailSent =>
          if emailSent then
            json (JMessage "Инструкции по восстановлению пароля отправлены на ваш email")
          else
            json (JMessage "Инструкции по восстановлению пароля отправлены на ваш email")
      end
  end.

(** [GET /api/transactions] *)
Definition get_transactions (user : JwtPayload.t) (db : Db) : Response :=
  match Storage.getUserTransactions db (JwtPayload.userId user) with
  | Ok transactions => json (JTransactions transactions)
  | Throw _ => status_json 500 (JMessage "Ошибка сервера")
  end.

(** The [switch] on the category in [POST /api/transactions]. *)
Definition ecoImpactOf (category : string) (amountNumber : Q) : Q :=
  if String.eqb category "transport" then Js.times amountNumber (Js.number (2 # 10))
  else if String.eqb category "food" then Js.times amountNumber (Js.number (15 # 100))
  else if String.eqb category "shopping" then Js.times amountNumber (Js.number (1 # 10))
  else if String.eqb category "utilities" then
    Js.times amountNumber (Js.number (25 # 100))
  else Js.times amountNumber (Js.number (5 # 100)).

(** [typeof amount === 'string' ? parseFloat (amount) : amount] *)
Definition coerceAmount (amount : JsAmount) : JsAmount :=
  match amount with
  | AmountString s =>
      match parseFloat s with
      | Some n => AmountNumber n
      | None => AmountNaN
      end
  | a => a
  end.

(** [parseInt (req.body.goalId)]: a number is read through its decimal
    text, which gives the number back. *)
Definition parseInt_goalId (goalId : option JsId) : option Z :=
  match goalId with
  | Some (IdString s) => parseInt s
  | Some (IdNumber n) => Some n
  | None => None
  end.

(** [POST /api/transactions].  The validated amount is a number, so the
    second coercion of the handler leaves it as it is. *)
Definition post_transactions (now : Z) (user : JwtPayload.t)
    (body : TransactionBody.t) (db : Db) : Response * Db :=
  let catch (error : exn) :=
    match error with
    | ZodError first others =>
        status_json 400 (JValidation "Ошибка валидации" (errors first others))
    | Error message =>
        status_json 500 (JFailure "Ошибка создания транзакции" message)
    end in
  let amount := coerceAmount (TransactionBody.amount body) in
  match insertTransactionSchema_parse (TransactionBody.with_amount body amount) with
  | Throw error => (catch error, db)
  | Ok validatedData =>
      let amountNumber := ValidatedTransaction.amount validatedData in
      let ecoImpact :=
        ecoImpactOf (ValidatedTransaction.category validatedData) amountNumber in
      match
        Storage.createTransaction now db
          {| InsertTransaction.userId := JwtPayload.userId user;
             InsertTransaction.type := ValidatedTransaction.type validatedData;
             InsertTransaction.amount := amountNumber;
             InsertTransaction.category := ValidatedTransaction.category validatedData;
             InsertTransaction.description :=
               ValidatedTransaction.description validatedData;
             InsertTransaction.date :=
               Date_parse (ValidatedTransaction.date validatedData);
             InsertTransaction.ecoImpact := ecoImpact |}
      with
      | (Throw error, db1) => (catch error, db1)
      | (Ok transaction, db1) =>
          if truthy (TransactionBody.goalId body)
             && TransactionType_eqb (ValidatedTransaction.type validatedData) income
          then
            match
              Storage.updateGoalProgress now db1
                (parseInt_goalId (TransactionBody.goalId body)) amountNumber
            with
            | (Throw error, db2) => (catch error, db2)
            | (Ok _, db2) => (json (JTransaction transaction), db2)
            end
          else (json (JTransaction transaction), db1)
      end
  end.

(** [DELETE /api/transactions/:id] *)
Definition delete_transactions_id (user : JwtPayload.t) (id : string) (db : Db)
  : Response * Db :=
  let catch (error : exn) := status_json 500 (JMessage "Ошибка сервера") in
  match parseInt id with
  | None => (status_json 400 (JMessage "Неверный ID транзакции"), db)
  | Some transactionId =>
      match Storage.getTransaction db transactionId with
      | Throw error => (catch error, db)
      | Ok None => (status_json 404 (JMessage "Транзакция не найдена"), db)
      | Ok (Some transaction) =>
          if negb (Transaction.userId transaction =? JwtPayload.userId user) then
            (status_json 403 (JMessage "Доступ запрещен"), db)
          else
            match Storage.deleteTransaction db transactionId with
            | (Throw error, db1) => (catch error, db1)
            | (Ok _, db1) => (status_send 204, db1)
            end
      end
  end.

(** [GET /api/dashboard/stats] *)
Definition get_dashboard_stats (now : Z) (user : JwtPayload.t) (db : Db) : Response :=
  match Storage.getDashboardStats now db (JwtPayload.userId user) with
  | Ok stats => json (JDashboardStats stats)
  | Throw _ => status_json 500 (JMessage "Ошибка сервера")
  end.

(** [GET /api/goals] *)
Definition get_goals (user : JwtPayload.t) (db : Db) : Response :=
  match Storage.getUserGoals db (JwtPayload.userId user) with
  | Ok userGoals => json (JGoals userGoals)
  | Throw error =>
      if messageIncludes error "Не удалось загрузить цели" then json (JGoals [])
      else status_json 500 (JMessage "Ошибка сервера")
  end.

(** [DELETE /api/goals/:id] *)
Definition delete_goals_id (user : JwtPayload.t) (id : string) (db : Db)
  : Response * Db :=
  let catch (error : exn) := status_json 500 (JMessage "Ошибка удаления цели") in
  match parseInt id with
  | None => (status_json 400 (JMessage "Неверный ID цели"), db)
  | Some goalId =>
      match Storage.getGoal db goalId with
      | Throw error => (catch error, db)
      | Ok None => (status_json 404 (JMessage "Цель не найдена"), db)
      | Ok (Some goal) =>
          if negb (Goal.userId goal =? JwtPayload.userId user) then
            (status_json 403 (JMessage "Доступ запрещен"), db)
          else
            match Storage.deleteGoal db goalId with
            | (Throw error, db1) => (catch error, db1)
            | (Ok _, db1) => (status_send 204, db1)
            end
      end
  end.

(** [GET /api/goals/active] *)
Definition get_goals_active (now : Z) (user : JwtPayload.t) (db : Db) : Response :=
  match Storage.getActiveGoals now db (JwtPayload.userId user) with
  | Ok activeGoals => json (JGoals activeGoals)
  | Throw _ => status_json 500 (JMessage "Ошибка сервера")
  end.

End Routes.

(* ================================================================= *)
(** ** The vocabulary of the specification *)

Module Spec.

Local Open Scope Q_scope.

(** The fixed multiplier of a category label. *)
Definition factors : list (string * Q) :=
  [ ("transport", 1 # 5); ("food", 3 # 20); ("shopping", 1 # 10);
    ("utilities", 1 # 4) ].

Definition factor (category : string) : Q :=
  match find (fun entry => String.eqb category (fst entry)) factors with
  | Some entry => snd entry
  | None => 1 # 20
  end.

(** The letter grades, best first: a larger rank is a better grade. *)
Definition gradeRank (grade : string) : nat :=
  match grade with
  | "A+" => 5%nat
  | "A" => 4%nat
  | "B+" => 3%nat
  | "B" => 2%nat
  | "C+" => 1%nat
  | _ => 0%nat
  end%string.

(** The sum of a list of numbers, exact. *)
Definition sum (xs : list Q) : Q := fold_right Qplus 0 xs.

(** The sum of a list of numbers as a program in binary64 forms it: each
    is read as the binary64 number nearest to it, and they are added one
    after the other, from 0, each sum rounded. *)
Definition addedTo (init : Q) (xs : list Q) : Q :=
  fold_left (fun sum x => Js.plus sum (Js.number x)) xs init.

Definition added (xs : list Q) : Q := addedTo 0 xs.

(** [max (0, round (x))]: the whole number nearest to [x], the upper one of
    two that are equally near, and 0 when that is negative. *)
Definition roundedOrZero (x : Q) : Q := inject_Z (Z.max 0 (Qfloor (x + (1 # 2)))).

(** A goal is active for a user on a day: it is the user's, it is not yet
    reached, and its target date, if it has one, is not before that day. *)
Definition active (userId today : Z) (g : Goal.t) : Prop :=
  Goal.userId g = userId
  /\ Goal.currentSaved g < Goal.targetAmount g
  /\ (forall targetDate : Z,
        Goal.targetDate g = Some targetDate ->
        ~ (Js.dayNumber targetDate < today)%Z).

(** Newest first. *)
Definition newestFirst (rows : list Goal.t) : Prop :=
  StronglySorted (fun a b => (Goal.createdAt b <= Goal.createdAt a)%Z) rows.

(** A transaction of a user in a month (January is 0) of a year. *)
Definition ofMonth (userId year month0 : Z) (t : Transaction.t) : Prop :=
  Transaction.userId t = userId
  /\ Js.getFullYear (Transaction.date t) = year
  /\ Js.getMonth (Transaction.date t) = month0.

(** What the rows spend on one category label. *)
Definition spentOn (category : string) (rows : list Transaction.t) : Q :=
  added (map Transaction.amount
         (filter (fun t => String.eqb (Transaction.category t) category) rows)).

(** A label that names nothing an object inherits. *)
Definition ordinary (label : string) : Prop := ~ In label Obj.inherited.

(** A category of a report with its numbers. *)
Record Share : Type := {
  share_category : string;
  share_amount : Q;
  share_percentage : Q
}.

(** The element of [topCategories] that carries these numbers. *)
Definition asTopCategory (s : Share) : TopCategory :=
  {| tc_category := share_category s;
     tc_amount := Js.Num (share_amount s);
     tc_percentage := Js.Num (share_percentage s) |}.

(** Largest amount first. *)
Definition largestFirst (shares : list Share) : Prop :=
  StronglySorted (fun a b => share_amount b <= share_amount a) shares.

(** The accumulator read as a map to numbers, which it is as long as the
    labels are ordinary: the reducer, the mapper, the comparator and the
    list they produce. *)
Definition ownOrZero (acc : Obj.t Q) (k : string) : Q :=
  match Obj.own acc k with
  | Some v => v
  | None => 0
  end.

Definition addExpense (acc : Obj.t Q) (t : Transaction.t) : Obj.t Q :=
  Obj.setOwn acc (Transaction.category t)
    (Js.plus (ownOrZero acc (Transaction.category t))
       (Js.number (Transaction.amount t))).

Definition toShare (expenses : Q) (entry : string * Q) : Share :=
  {| share_category := fst entry;
     share_amount := snd entry;
     share_percentage :=
       Js.Math_round (Js.times (Js.over (snd entry) expenses) 100) |}.

Definition byAmountDesc (a b : Share) : Js.value :=
  Js.Num (Js.minus (share_amount b) (share_amount a)).

Definition shares (expenses : Q) (spent : list Transaction.t) : list Share :=
  Js.slice0 6
    (Js.sort byAmountDesc
       (map (toShare expenses) (Obj.entries (fold_left addExpense spent [])))).

Definition numbers (acc : Obj.t Q) : Obj.t Js.value :=
  map (fun entry => (fst entry, Js.Num (snd entry))) acc.

(** The amounts of the rows of one type. *)
Definition amounts (type : TransactionType) (rows : list Transaction.t) : list Q :=
  map Transaction.amount
    (filter (fun t => TransactionType_eqb (Transaction.type t) type) rows).

(** The eco impacts of the rows as the store holds them, 0 for a row
    without one. *)
Definition ecoImpacts (rows : list Transaction.t) : list Q :=
  map (fun t => match Transaction.ecoImpact t with
                | Some e => e
                | None => 0
                end) rows.

(** Whole numbers, none negative, that add up to at most 2^53: a program
    in binary64 adds them without rounding. *)
Definition whole (xs : list Q) : Prop :=
  Forall (fun x => exists k : Z, (0 <= k)%Z /\ x == inject_Z k) xs
  /\ sum xs <= inject_Z (2 ^ 53).

(** The one answer of a password reset that went through. *)
Definition passwordResetSent : Json :=
  JMessage "Инструкции по восстановлению пароля отправлены на ваш email".

End Spec.

(* ================================================================= *)
(** ** Concrete collaborators and stores, for closed instances *)

Module Sample.

(** [parseInt] on an optional minus sign followed by decimal digits; it
    stops at the first other character and is [NaN] without a digit. *)
Fixpoint digits (s : string) (acc : option Z) : option Z :=
  match s with
  | EmptyString => acc
  | String c rest =>
      let n := Z.of_nat (nat_of_ascii c) in
      if (48 <=? n) && (n <=? 57) then
        digits rest
          (Some (10 * match acc with Some a => a | None => 0 end + (n - 48)))
      else acc
  end.

Definition parseInt (s : string) : option Z :=
  match s with
  | String "-" rest => option_map Z.opp (digits rest None)
  | _ => digits s None
  end.

Definition parseFloat (s : string) : option Q := option_map inject_Z (parseInt s).

(** The one date text of the samples; every other text is no date. *)
Definition Date_parse (s : string) : option Z :=
  if String.eqb s "2025-03-15" then Some 1741996800000 else None.

(** A login schema that wants an at sign in the address and a password. *)
Definition loginSchema_parse (body : LoginBody.t) : result LoginBody.t :=
  if negb (Js.includes (LoginBody.email body) "@") then
    Throw (ZodError "Invalid email" [])
  else if String.eqb (LoginBody.password body) "" then
    Throw (ZodError "Password is required" [])
  else Ok body.

(** A transaction schema that wants a positive number and a known type. *)
Definition insertTransactionSchema_parse (body : TransactionBody.t)
  : result ValidatedTransaction.t :=
  match TransactionBody.amount body with
  | AmountNumber n =>
      if Js.lt 0 n then
        let validated (type : TransactionType) :=
          Ok {| ValidatedTransaction.type := type;
                ValidatedTransaction.amount := n;
                ValidatedTransaction.category := TransactionBody.category body;
                ValidatedTransaction.description := TransactionBody.description body;
                ValidatedTransaction.date := TransactionBody.date body |} in
        if String.eqb (TransactionBody.type body) "income" then validated income
        else if String.eqb (TransactionBody.type body) "expense" then validated expense
        else Throw (ZodError "Invalid enum value" [])
      else Throw (ZodError "Number must be greater than 0" [])
  | _ => Throw (ZodError "Expected number" [])
  end.

Definition bcrypt_compare (password hash : string) : bool :=
  String.eqb ("hash:" ++ password) hash.

Definition jwt_sign (payload : JwtPayload.t) : string :=
  "token-for-" ++ JwtPayload.email payload.

Definition sendPasswordResetEmail (delivered : bool) (email token url : string)
  : result bool := Ok delivered.

(** Noon of 15 March 2025. *)
Definition now : Z := 1742040000000.

Definition alice : User.t :=
  {| User.id := 1; User.email := "alice@example.com";
     User.password := "hash:wonderland";
     User.firstName := "Alice"; User.lastName := "Liddell";
     User.createdAt := 1736499600000; User.updatedAt := 1736499600000 |}.

Definition bob : User.t :=
  {| User.id := 2; User.email := "bob@example.com";
     User.password := "hash:builder";
     User.firstName := "Bob"; User.lastName := "Mason";
     User.createdAt := 1737363600000; User.updatedAt := 1737363600000 |}.

Definition asAlice : JwtPayload.t :=
  {| JwtPayload.userId := 1; JwtPayload.email := "alice@example.com" |}.

Definition asBob : JwtPayload.t :=
  {| JwtPayload.userId := 2; JwtPayload.email := "bob@example.com" |}.

Definition healthy (r : relation) : option string := None.

(** Keys of 32 bits. *)
Definition int4 (n : Z) : bool := (-2147483648 <=? n) && (n <=? 2147483647).

Definition transaction (id userId : Z) (type : TransactionType) (amount : Q)
    (category : string) (date : Z) : Transaction.t :=
  {| Transaction.id := id; Transaction.userId := userId;
     Transaction.type := type; Transaction.amount := amount;
     Transaction.category := category; Transaction.description := None;
     Transaction.date := date;
     Transaction.ecoImpact := Some (ecoImpactOf category amount);
     Transaction.createdAt := date |}.

Definition goal (id userId : Z) (name : string) (targetAmount currentSaved : Q)
    (targetDate : option Z) (createdAt : Z) : Goal.t :=
  {| Goal.id := id; Goal.userId := userId; Goal.name := name;
     Goal.description := None; Goal.targetAmount := targetAmount;
     Goal.currentSaved := currentSaved; Goal.targetDate := targetDate;
     Goal.completed := false; Goal.createdAt := createdAt;
     Goal.updatedAt := createdAt |}.

Definition store (transactions : list Transaction.t) (goals : list Goal.t) : Db :=
  {| users := [alice; bob]; transactions := transactions; categories := [];
     goals := goals;
     transactions_id_seq := 1 + Z.of_nat (List.length transactions);
     key := int4;
     failure := healthy |}.

(** The same store when the statements on [broken] raise [message]. *)
Definition failing (db : Db) (broken : relation) (message : string) : Db :=
  {| users := users db; transactions := transactions db;
     categories := categories db; goals := goals db;
     transactions_id_seq := transactions_id_seq db;
     key := key db;
     failure := fun r =>
       match r, broken with
       | Users, Users | Transactions, Transactions
       | Categories, Categories | Goals, Goals => Some message
       | _, _ => failure db r
       end |}.

(** Three expenses of Alice in March 2025: 3, 3 and 2. *)
Definition eighths : list Transaction.t :=
  [ transaction 1 1 expense 3 "food" 1740906000000;
    transaction 2 1 expense 3 "transport" 1741597200000;
    transaction 3 1 expense 2 "shopping" 1741597200000 ].

(** Seven expenses of Alice in March 2025, one label each, 200 in all,
    stored in no order of amount. *)
Definition sevenths : list Transaction.t :=
  [ transaction 1 1 expense 27 "shopping" 1740906000000;
    transaction 2 1 expense 2 "gifts" 1740906000000;
    transaction 3 1 expense 43 "food" 1741597200000;
    transaction 4 1 expense 31 "utilities" 1741597200000;
    transaction 5 1 expense 23 "books" 1741597200000;
    transaction 6 1 expense 39 "transport" 1741597200000;
    transaction 7 1 expense 35 "travel" 1741597200000 ].

(** Two incomes of Alice in March 2025: 0.1 and 0.2. *)
Definition tenths : list Transaction.t :=
  [ transaction 1 1 income (1 # 10) "salary" 1740906000000;
    transaction 2 1 income (2 # 10) "salary" 1741597200000 ].

(** One expense of Alice in March 2025: 1710 for utilities, with an eco
    impact of 427.5. *)
Definition heating : list Transaction.t :=
  [ transaction 1 1 expense 1710 "utilities" 1741597200000 ].

(** One expense of Alice in March 2025 under a label that names a
    property every object inherits. *)
Definition inheritedLabel : list Transaction.t :=
  [ transaction 1 1 expense 10 "constructor" 1741597200000 ].

(** Alice's lunch and Bob's pay, both of 10 March 2025. *)
Definition lunch : Transaction.t := transaction 1 1 expense 40 "food" 1741597200000.
Definition pay : Transaction.t := transaction 2 2 income 100 "salary" 1741597200000.

(** Goals of Alice and one of Bob; today is 15 March 2025. *)
Definition bike : Goal.t := goal 1 1 "Bike" 500 100 None 1736499600000.
Definition trip : Goal.t := goal 2 1 "Trip" 1000 1000 None 1737363600000.
Definition laptop : Goal.t :=
  goal 3 1 "Laptop" 900 200 (Some 1741996740000) 1738746000000.
Definition course : Goal.t :=
  goal 4 1 "Course" 300 0 (Some 1741996800000) 1738746000000.
Definition drill : Goal.t := goal 5 2 "Drill" 80 5 None 1740906000000.
Definition camera : Goal.t :=
  goal 6 1 "Camera" 600 10 (Some 1751241600000) 1740906000000.

Definition someGoals : list Goal.t := [bike; trip; laptop; course; drill; camera].

(** Transactions of Alice in March 2025, in February 2025 and in March
    2024, and one of Bob. *)
Definition march : list Transaction.t :=
  [ transaction 1 1 income 100 "salary" 1741597200000;
    transaction 2 1 expense 40 "food" 1740906000000;
    transaction 3 1 expense 70 "transport" 1740787140000;
    transaction 4 1 expense 25 "shopping" 1710504000000;
    transaction 5 2 income 900 "salary" 1741597200000 ].

(** The message of the store for a relation that was never created. *)
Definition transactions_missing : string :=
  "отношение " ++ Js.dquote ++ "transactions" ++ Js.dquote ++ " не существует".

Definition salary (goalId : option JsId) : TransactionBody.t :=
  {| TransactionBody.type := "income"; TransactionBody.amount := AmountString "50";
     TransactionBody.category := "salary"; TransactionBody.description := None;
     TransactionBody.date := "2025-03-15"; TransactionBody.goalId := goalId |}.

Definition purchase (category : string) (amount : JsAmount) : TransactionBody.t :=
  {| TransactionBody.type := "expense"; TransactionBody.amount := amount;
     TransactionBody.category := category; TransactionBody.description := None;
     TransactionBody.date := "2025-03-15"; TransactionBody.goalId := None |}.

End Sample.

(* ================================================================= *)
(** ** [server/storage.ts]: users, categories and the other goal methods *)

Definition with_users (db : Db) (rows : list User.t) : Db :=
  {| users := rows; transactions := transactions db;
     categories := categories db; goals := goals db;
     transactions_id_seq := transactions_id_seq db; key := key db;
     failure := failure db |}.

Definition with_categories (db : Db) (rows : list Category.t) : Db :=
  {| users := users db; transactions := transactions db;
     categories := rows; goals := goals db;
     transactions_id_seq := transactions_id_seq db; key := key db;
     failure := failure db |}.

Module InsertUser.
Record t : Type := {
  email : string;
  password : string;
  firstName : string;
  lastName : string
}.
End InsertUser.

(** [Partial<InsertUser>]: [None] is a key that is absent or undefined,
    which the query builder leaves out of the [SET] list. *)
Module PartialUser.
Record t : Type := {
  email : option string;
  password : option string;
  firstName : option string;
  lastName : option string
}.
End PartialUser.

(** What [storage.createGoal] receives.  The target date is absent or a
    [Date] object, which is the Invalid Date ([Some None]) when it was made
    from a text that is no date. *)
Module InsertGoal.
Record t : Type := {
  userId : Z;
  name : string;
  description : option string;
  targetAmount : Q;
  targetDate : option (option Z)
}.
End InsertGoal.

(** [Partial<InsertGoal>], with the [completed] key that the route passes
    along. *)
Module PartialGoal.
Record t : Type := {
  name : option string;
  description : option string;
  targetAmount : option Q;
  targetDate : option (option Z);
  completed : option bool
}.
End PartialGoal.

Module InsertCategory.
Record t : Type := {
  userId : Z;
  name : string;
  type : TransactionType
}.
End InsertCategory.

(** Modelled from the spec: the values of the columns that the insertion of
    a goal leaves to the store, and the uniqueness of a user's email.  The
    table definitions are in [@shared/schema], which is not among the
    sources; the spec has a goal start not completed with nothing saved,
    and the email of a user unique. *)
Definition goals_currentSaved_default : Q := 0.
Definition goals_completed_default : bool := false.
Definition users_email_unique : string :=
  "duplicate key value violates unique constraint".

(** [update], or [column] when the key is absent. *)
Definition orElse {A : Type} (update : option A) (column : A) : A :=
  match update with
  | Some a => a
  | None => column
  end.

Module DatabaseStorage.

Section Sequences.

(** The number that the sequence of a relation hands out next in a store.
    The sequences of users, categories and goals are not among the fields
    of [Db]. *)
Variable nextval : relation -> Db -> Z.

(** [targetDate: insertGoal.targetDate || null]: the Invalid Date is an
    object and stays; writing it out for the insertion throws inside the
    [try]. *)
Definition createGoal (now : Z) (db : Db) (insertGoal : InsertGoal.t)
  : result Goal.t * Db :=
  let refused := (Throw (Error "Не удалось создать цель"), db) in
  match InsertGoal.targetDate insertGoal with
  | Some None => refused
  | targetDate =>
      let goal :=
        {| Goal.id := nextval Goals db;
           Goal.userId := InsertGoal.userId insertGoal;
           Goal.name := InsertGoal.name insertGoal;
           Goal.description := InsertGoal.description insertGoal;
           Goal.targetAmount := InsertGoal.targetAmount insertGoal;
           Goal.currentSaved := goals_currentSaved_default;
           Goal.targetDate :=
             match targetDate with
             | Some date => date
             | None => None
             end;
           Goal.completed := goals_completed_default;
           Goal.createdAt := now;
           Goal.updatedAt := now |} in
      match statement db Goals goal with
      | Ok goal => (Ok goal, with_goals db (goals db ++ [goal]))
      | Throw _ => refused
      end
  end.

Definition createUser (now : Z) (db : Db) (insertUser : InsertUser.t)
  : result User.t * Db :=
  let user :=
    {| User.id := nextval Users db;
       User.email := InsertUser.email insertUser;
       User.password := InsertUser.password insertUser;
       User.firstName := InsertUser.firstName insertUser;
       User.lastName := InsertUser.lastName insertUser;
       User.createdAt := now;
       User.updatedAt := now |} in
  match statement db Users user with
  | Ok user =>
      if existsb (fun u => String.eqb (User.email u) (User.email user)) (users db)
      then (Throw (Error users_email_unique), db)
      else (Ok user, with_users db (users db ++ [user]))
  | Throw e => (Throw e, db)
  end.

Definition createCategory (db : Db) (insertCategory : InsertCategory.t)
  : result Category.t * Db :=
  let category :=
    {| Category.id := nextval Categories db;
       Category.userId := InsertCategory.userId insertCategory;
       Category.name := InsertCategory.name insertCategory;
       Category.type := InsertCategory.type insertCategory |} in
  match statement db Categories category with
  | Ok category => (Ok category, with_categories db (categories db ++ [category]))
  | Throw e => (Throw e, db)
  end.

End Sequences.

(** [SET ...updateData, "updatedAt" = now] on a goal. *)
Definition setGoal (now : Z) (updateData : PartialGoal.t) (g : Goal.t) : Goal.t :=
  {| Goal.id := Goal.id g;
     Goal.userId := Goal.userId g;
     Goal.name := orElse (PartialGoal.name updateData) (Goal.name g);
     Goal.description :=
       match PartialGoal.description updateData with
       | Some d => Some d
       | None => Goal.description g
       end;
     Goal.targetAmount :=
       orElse (PartialGoal.targetAmount updateData) (Goal.targetAmount g);
     Goal.currentSaved := Goal.currentSaved g;
     Goal.targetDate :=
       match PartialGoal.targetDate updateData with
       | Some date => date
       | None => Goal.targetDate g
       end;
     Goal.completed := orElse (PartialGoal.completed updateData) (Goal.completed g);
     Goal.createdAt := Goal.createdAt g;
     Goal.updatedAt := now |}.

(** The updated row, or [undefined] when no row has the id.  Writing out
    the Invalid Date for the update throws. *)
Definition updateGoal (now : Z) (db : Db) (id : Z) (updateData : PartialGoal.t)
  : result (option Goal.t) * Db :=
  match PartialGoal.targetDate updateData with
  | Some None => (Throw (Error "Invalid time value"), db)
  | _ =>
      match statementOn db Goals id tt with
      | Ok _ =>
          let rows :=
            map (fun g => if Goal.id g =? id then setGoal now updateData g else g)
                (goals db) in
          (Ok (find (fun g => Goal.id g =? id) rows), with_goals db rows)
      | Throw e => (Throw e, db)
      end
  end.

Definition getUser (db : Db) (id : Z) : result (option User.t) :=
  statement db Users (find (fun u => User.id u =? id) (users db)).

(** [SET ...updateData, "updatedAt" = now] on a user. *)
Definition setUser (now : Z) (updateData : PartialUser.t) (u : User.t) : User.t :=
  {| User.id := User.id u;
     User.email := orElse (PartialUser.email updateData) (User.email u);
     User.password := orElse (PartialUser.password updateData) (User.password u);
     User.firstName := orElse (PartialUser.firstName updateData) (User.firstName u);
     User.lastName := orElse (PartialUser.lastName updateData) (User.lastName u);
     User.createdAt := User.createdAt u;
     User.updatedAt := now |}.

(** Whether the update would give the row of [userId] an email that another
    row has. *)
Definition emailTaken (db : Db) (userId : Z) (updateData : PartialUser.t) : bool :=
  match PartialUser.email updateData with
  | Some email =>
      existsb (fun u => User.id u =? userId) (users db)
      && existsb
           (fun u => negb (User.id u =? userId) && String.eqb (User.email u) email)
           (users db)
  | None => false
  end.

(** The updated row, or [undefined] when no row has the id. *)
Definition updateUser (now : Z) (db : Db) (userId : Z) (updateData : PartialUser.t)
  : result (option User.t) * Db :=
  match statement db Users tt with
  | Ok _ =>
      if emailTaken db userId updateData
      then (Throw (Error users_email_unique), db)
      else
        let rows :=
          map (fun u => if User.id u =? userId then setUser now updateData u else u)
              (users db) in
        (Ok (find (fun u => User.id u =? userId) rows), with_users db rows)
  | Throw e => (Throw e, db)
  end.

Definition getUserCategories (db : Db) (userId : Z) (type : option TransactionType)
  : result (list Category.t) :=
  match type with
  | Some type =>
      statement db Categories
        (filter
           (fun c =>
              (Category.userId c =? userId)
              && TransactionType_eqb (Category.type c) type)
           (categories db))
  | None =>
      statement db Categories
        (filter (fun c => Category.userId c =? userId) (categories db))
  end.

Definition getCategory (db : Db) (id : Z) : result (option Category.t) :=
  statementOn db Categories id (find (fun c => Category.id c =? id) (categories db)).

Definition deleteCategory (db : Db) (id : Z) : result unit * Db :=
  match statementOn db Categories id tt with
  | Ok _ =>
      (Ok tt,
       with_categories db
         (filter (fun c => negb (Category.id c =? id)) (categories db)))
  | Throw e => (Throw e, db)
  end.

End DatabaseStorage.

(* ================================================================= *)
(** ** [server/routes.ts]: the middleware and the other handlers *)

(** A value of a request body: [undefined] for an absent key, or a scalar
    of the JSON text ([NaN] can only come from a coercion of the handler).
    Arrays and objects as values of a key are not modelled. *)
Inductive JsValue : Type :=
| VUndefined
| VNull
| VBool (b : bool)
| VNumber (n : Q)
| VNaN
| VString (s : string).

(** Whether a value counts as true in a condition. *)
Definition isTruthy (v : JsValue) : bool :=
  match v with
  | VUndefined | VNull | VNaN => false
  | VBool b => b
  | VNumber n => negb (Qeq_bool n 0)
  | VString s => negb (String.eqb s "")
  end.

(** [header.split (' ')]: the pieces between single spaces. *)
Fixpoint split_space (s : string) : list string :=
  match s with
  | EmptyString => [EmptyString]
  | String c rest =>
      if Ascii.eqb c " " then EmptyString :: split_space rest
      else
        match split_space rest with
        | piece :: pieces => String c piece :: pieces
        | [] => [String c EmptyString]
        end
  end.

(** The body of [POST /api/goals] and of [PATCH /api/goals/:id]: the keys
    the schemas of the two handlers name.  Both schemas strip every other
    key. *)
Module GoalBody.
Record t : Type := {
  name : JsValue;
  description : JsValue;
  targetAmount : JsValue;
  targetDate : JsValue;
  completed : JsValue
}.
End GoalBody.

(** What the schema of [POST /api/goals] returns. *)
Module ValidatedGoal.
Record t : Type := {
  name : string;
  description : option string;
  targetAmount : Q;
  targetDate : option string
}.
End ValidatedGoal.

(** What the schema of [PATCH /api/goals/:id] returns. *)
Module ValidatedGoalUpdate.
Record t : Type := {
  name : option string;
  description : option string;
  targetAmount : option Q;
  targetDate : option string;
  completed : option bool
}.
End ValidatedGoalUpdate.

Module CategoryBody.
Record t : Type := { name : string; type : string }.
End CategoryBody.

(** What [insertCategorySchema.parse] returns. *)
Module ValidatedCategory.
Record t : Type := { name : string; type : TransactionType }.
End ValidatedCategory.

Module PasswordBody.
Record t : Type := { currentPassword : string; newPassword : string }.
End PasswordBody.

(** The keys that [PATCH /api/user/profile] reads from the body, each a
    text or absent.  The handler validates nothing; values that are not
    texts are not modelled. *)
Module ProfileBody.
Record t : Type := {
  firstName : option string;
  lastName : option string;
  email : option string
}.
End ProfileBody.

(** What a handler sends when it is not one of the bodies of [Json]: a
    goal, a category, a report, the public fields of a user or the
    statistics of one. *)
Inductive Body : Type :=
| Plain (j : Json)
| OfGoal (goal : Goal.t)
| OfCategory (category : Category.t)
| OfReport (report : MonthlyReport)
| OfUser (user : PublicUser)
| OfStats (stats : UserStats).

Record Reply : Type := { code : Z; content : Body }.

Definition reply (code : Z) (j : Json) : Reply :=
  {| code := code; content := Plain j |}.

(** The checks of the schema library that the two goal schemas are built
    from.  A check returns the value it accepts or the message of its
    issue; [issueText key v] is the library's message for an issue at [key]
    on the value [v] where the schema words none. *)
Section Zod.

Variable issueText : string -> JsValue -> string.

(** [z.string ().min (1, message)] *)
Definition zStringMin1 (key : string) (message : option string) (v : JsValue)
  : string + string :=
  match v with
  | VString s =>
      if String.eqb s "" then inl (orElse message (issueText key v))
      else inr s
  | _ => inl (issueText key v)
  end.

(** [z.string ()] *)
Definition zString (key : string) (v : JsValue) : string + string :=
  match v with
  | VString s => inr s
  | _ => inl (issueText key v)
  end.

(** [z.number ().min (1, message)] *)
Definition zNumberMin1 (key : string) (message : option string) (v : JsValue)
  : string + Q :=
  match v with
  | VNumber n =>
      if Js.lt n 1 then inl (orElse message (issueText key v)) else inr n
  | _ => inl (issueText key v)
  end.

(** [z.boolean ()] *)
Definition zBoolean (key : string) (v : JsValue) : string + bool :=
  match v with
  | VBool b => inr b
  | _ => inl (issueText key v)
  end.

(** [check.optional ()] *)
Definition zOptional {A : Type} (check : JsValue -> string + A) (v : JsValue)
  : string + option A :=
  match v with
  | VUndefined => inr None
  | _ =>
      match check v with
      | inl issue => inl issue
      | inr a => inr (Some a)
      end
  end.

Definition issueOf {A : Type} (checked : string + A) : list string :=
  match checked with
  | inl issue => [issue]
  | inr _ => []
  end.

(** The error of a parse with these issues, in the order of the keys. *)
Definition zodError (issues : list string) : exn :=
  match issues with
  | first :: others => ZodError first others
  | [] => Error "no issue"
  end.

(** The schema of [POST /api/goals], applied to the body in which
    [targetAmount] is [parseFloat (req.body.targetAmount)]. *)
Definition postGoalSchema_parse (body : GoalBody.t) : result ValidatedGoal.t :=
  let name :=
    zStringMin1 "name" (Some "Название цели обязательно") (GoalBody.name body) in
  let description := zOptional (zString "description") (GoalBody.description body) in
  let targetAmount :=
    zNumberMin1 "targetAmount" (Some "Целевая сумма должна быть больше 0")
      (GoalBody.targetAmount body) in
  let targetDate := zOptional (zString "targetDate") (GoalBody.targetDate body) in
  match name, description, targetAmount, targetDate with
  | inr name, inr description, inr targetAmount, inr targetDate =>
      Ok {| ValidatedGoal.name := name;
            ValidatedGoal.description := description;
            ValidatedGoal.targetAmount := targetAmount;
            ValidatedGoal.targetDate := targetDate |}
  | _, _, _, _ =>
      Throw (zodError (issueOf name ++ issueOf description
                       ++ issueOf targetAmount ++ issueOf targetDate))
  end.

(** The schema of [PATCH /api/goals/:id], applied to the body in which
    [targetAmount] is the number read or [undefined]. *)
Definition patchGoalSchema_parse (body : GoalBody.t)
  : result ValidatedGoalUpdate.t :=
  let name := zOptional (zStringMin1 "name" None) (GoalBody.name body) in
  let description := zOptional (zString "description") (GoalBody.description body) in
  let targetAmount :=
    zOptional (zNumberMin1 "targetAmount" None) (GoalBody.targetAmount body) in
  let targetDate := zOptional (zString "targetDate") (GoalBody.targetDate body) in
  let completed := zOptional (zBoolean "completed") (GoalBody.completed body) in
  match name, description, targetAmount, targetDate, completed with
  | inr name, inr description, inr targetAmount, inr targetDate, inr completed =>
      Ok {| ValidatedGoalUpdate.name := name;
            ValidatedGoalUpdate.description := description;
            ValidatedGoalUpdate.targetAmount := targetAmount;
            ValidatedGoalUpdate.targetDate := targetDate;
            ValidatedGoalUpdate.completed := completed |}
  | _, _, _, _, _ =>
      Throw (zodError (issueOf name ++ issueOf description
                       ++ issueOf targetAmount ++ issueOf targetDate
                       ++ issueOf completed))
  end.

End Zod.

Section MoreRoutes.

(** The collaborators, as for the handlers above, with the sequences of
    the store, the hashing of a password, the verification of a token and
    the schemas of users and categories. *)
Variable parseInt : string -> option Z.
Variable parseFloat : string -> option Q.
Variable Date_parse : string -> option Z.
Variable nextval : relation -> Db -> Z.
Variable issueText : string -> JsValue -> string.
Variable insertUserSchema_parse : InsertUser.t -> result InsertUser.t.
Variable insertCategorySchema_parse : CategoryBody.t -> result ValidatedCategory.t.
Variable bcrypt_hash : string -> string.
Variable bcrypt_compare : string -> string -> bool.
Variable jwt_sign : JwtPayload.t -> string.
Variable jwt_verify : string -> option JwtPayload.t.

(** [authenticateToken]: the response it sends itself, or the payload it
    puts in [req.user] before it calls [next ()]. *)
Definition authenticateToken (authorization : option string)
  : Response + JwtPayload.t :=
  let token :=
    match authorization with
    | Some authHeader =>
        if String.eqb authHeader "" then None
        else nth_error (split_space authHeader) 1
    | None => None
    end in
  match token with
  | Some token =>
      if String.eqb token "" then
        inl (status_json 401 (JMessage "Токен доступа отсутствует"))
      else
        match jwt_verify token with
        | Some user => inr user
        | None => inl (status_json 403 (JMessage "Недействительный токен"))
        end
  | None => inl (status_json 401 (JMessage "Токен доступа отсутствует"))
  end.

(** [POST /api/auth/register] *)
Definition post_auth_register (now : Z) (body : InsertUser.t) (db : Db)
  : Response * Db :=
  let catch (error : exn) :=
    match error with
    | ZodError first _ => status_json 400 (JMessage first)
    | Error _ => status_json 500 (JMessage "Ошибка сервера")
    end in
  match insertUserSchema_parse body with
  | Throw error => (catch error, db)
  | Ok validatedData =>
      match Storage.getUserByEmail db (InsertUser.email validatedData) with
      | Throw error => (catch error, db)
      | Ok (Some existingUser) =>
          (status_json 400 (JMessage "Пользователь с таким email уже существует"), db)
      | Ok None =>
          let hashedPassword := bcrypt_hash (InsertUser.password validatedData) in
          match
            DatabaseStorage.createUser nextval now db
              {| InsertUser.email := InsertUser.email validatedData;
                 InsertUser.password := hashedPassword;
                 InsertUser.firstName := InsertUser.firstName validatedData;
                 InsertUser.lastName := InsertUser.lastName validatedData |}
          with
          | (Throw error, db1) => (catch error, db1)
          | (Ok user, db1) =>
              let token :=
                jwt_sign {| JwtPayload.userId := User.id user;
                            JwtPayload.email := User.email user |} in
              (json (JSession token
                       {| pu_id := User.id user; pu_email := User.email user;
                          pu_firstName := User.firstName user;
                          pu_lastName := User.lastName user |}),
               db1)
          end
      end
  end.

(** [GET /api/user/profile] *)
Definition get_user_profile (user : JwtPayload.t) (db : Db) : Reply :=
  match DatabaseStorage.getUser db (JwtPayload.userId user) with
  | Throw _ => reply 500 (JMessage "Ошибка сервера")
  | Ok None => reply 404 (JMessage "Пользователь не найден")
  | Ok (Some user) =>
      {| code := 200;
         content :=
           OfUser {| pu_id := User.id user; pu_email := User.email user;
                     pu_firstName := User.firstName user;
                     pu_lastName := User.lastName user |} |}
  end.

(** [PATCH /api/user/profile].  When no row has the id of the caller,
    [updatedUser] is [undefined] and reading its [id] throws. *)
Definition patch_user_profile (now : Z) (user : JwtPayload.t)
    (body : ProfileBody.t) (db : Db) : Reply * Db :=
  let catch := reply 500 (JMessage "Ошибка обновления профиля") in
  match
    DatabaseStorage.updateUser now db (JwtPayload.userId user)
      {| PartialUser.email := ProfileBody.email body;
         PartialUser.password := None;
         PartialUser.firstName := ProfileBody.firstName body;
         PartialUser.lastName := ProfileBody.lastName body |}
  with
  | (Throw _, db1) => (catch, db1)
  | (Ok None, db1) => (catch, db1)
  | (Ok (Some updatedUser), db1) =>
      ({| code := 200;
          content :=
            OfUser {| pu_id := User.id updatedUser;
                      pu_email := User.email updatedUser;
                      pu_firstName := User.firstName updatedUser;
                      pu_lastName := User.lastName updatedUser |} |},
       db1)
  end.

(** [GET /api/user/stats] *)
Definition get_user_stats (now : Z) (user : JwtPayload.t) (db : Db) : Reply :=
  match Storage.getUserStats now db (JwtPayload.userId user) with
  | Ok stats => {| code := 200; content := OfStats stats |}
  | Throw _ => reply 500 (JMessage "Ошибка получения статистики")
  end.

(** [PATCH /api/user/password] *)
Definition patch_user_password (now : Z) (user : JwtPayload.t)
    (body : PasswordBody.t) (db : Db) : Response * Db :=
  let catch (error : exn) := status_json 500 (JMessage "Ошибка изменения пароля") in
  match DatabaseStorage.getUser db (JwtPayload.userId user) with
  | Throw error => (catch error, db)
  | Ok None => (status_json 404 (JMessage "Пользователь не найден"), db)
  | Ok (Some row) =>
      let isValidPassword :=
        bcrypt_compare (PasswordBody.currentPassword body) (User.password row) in
      if negb isValidPassword then
        (status_json 400 (JMessage "Неверный текущий пароль"), db)
      else
        let hashedNewPassword := bcrypt_hash (PasswordBody.newPassword body) in
        match
          DatabaseStorage.updateUser now db (JwtPayload.userId user)
            {| PartialUser.email := None;
               PartialUser.password := Some hashedNewPassword;
               PartialUser.firstName := None;
               PartialUser.lastName := None |}
        with
        | (Throw error, db1) => (catch error, db1)
        | (Ok _, db1) => (json (JMessage "Пароль успешно изменен"), db1)
        end
  end.

(** [POST /api/categories] *)
Definition post_categories (user : JwtPayload.t) (body : CategoryBody.t) (db : Db)
  : Reply * Db :=
  let catch (error : exn) :=
    match error with
    | ZodError first _ => reply 400 (JMessage first)
    | Error _ => reply 500 (JMessage "Ошибка сервера")
    end in
  match insertCategorySchema_parse body with
  | Throw error => (catch error, db)
  | Ok validatedData =>
      match
        DatabaseStorage.createCategory nextval db
          {| InsertCategory.userId := JwtPayload.userId user;
             InsertCategory.name := ValidatedCategory.name validatedData;
             InsertCategory.type := ValidatedCategory.type validatedData |}
      with
      | (Throw error, db1) => (catch error, db1)
      | (Ok category, db1) => ({| code := 200; content := OfCategory category |}, db1)
      end
  end.

(** [DELETE /api/categories/:id] *)
Definition delete_categories_id (user : JwtPayload.t) (id : string) (db : Db)
  : Response * Db :=
  let catch (error : exn) := status_json 500 (JMessage "Ошибка сервера") in
  match parseInt id with
  | None => (status_json 400 (JMessage "Неверный ID категории"), db)
  | Some categoryId =>
      match DatabaseStorage.getCategory db categoryId with
      | Throw error => (catch error, db)
      | Ok None => (status_json 404 (JMessage "Категория не найдена"), db)
      | Ok (Some category) =>
          if negb (Category.userId category =? JwtPayload.userId user) then
            (status_json 403 (JMessage "Доступ запрещен"), db)
          else
            match DatabaseStorage.deleteCategory db categoryId with
            | (Throw error, db1) => (catch error, db1)
            | (Ok _, db1) => (status_send 204, db1)
            end
      end
  end.

(** [parseInt (q) || fallback]: [NaN] and 0 give way to the fallback. *)
Definition parseInt_or (q : option string) (fallback : Z) : Z :=
  match q with
  | Some text =>
      match parseInt text with
      | Some n => if n =? 0 then fallback else n
      | None => fallback
      end
  | None => fallback
  end.

(** [GET /api/reports/monthly] *)
Definition get_reports_monthly (now : Z) (user : JwtPayload.t)
    (month year : option string) (db : Db) : Reply :=
  match
    Storage.getMonthlyReport db (JwtPayload.userId user)
      (parseInt_or month (Js.getMonth now + 1))
      (parseInt_or year (Js.getFullYear now))
  with
  | Ok monthlyData => {| code := 200; content := OfReport monthlyData |}
  | Throw _ => reply 500 (JMessage "Ошибка сервера")
  end.

(** [parseFloat (v)] for a value of the body. *)
Definition parseFloat_value (v : JsValue) : JsValue :=
  match v with
  | VNumber n => VNumber n
  | VString s =>
      match parseFloat s with
      | Some n => VNumber n
      | None => VNaN
      end
  | _ => VNaN
  end.

(** [s ? new Date (s) : undefined] *)
Definition dateOrUndefined (targetDate : option string) : option (option Z) :=
  match targetDate with
  | Some s => if String.eqb s "" then None else Some (Date_parse s)
  | None => None
  end.

(** [POST /api/goals] *)
Definition post_goals (now : Z) (user : JwtPayload.t) (body : GoalBody.t) (db : Db)
  : Reply * Db :=
  let catch (error : exn) :=
    match error with
    | ZodError first others =>
        reply 400 (JValidation "Ошибка валидации" (errors first others))
    | Error _ => reply 500 (JMessage "Ошибка создания цели")
    end in
  match
    postGoalSchema_parse issueText
      {| GoalBody.name := GoalBody.name body;
         GoalBody.description := GoalBody.description body;
         GoalBody.targetAmount := parseFloat_value (GoalBody.targetAmount body);
         GoalBody.targetDate := GoalBody.targetDate body;
         GoalBody.completed := GoalBody.completed body |}
  with
  | Throw error => (catch error, db)
  | Ok validatedData =>
      match
        DatabaseStorage.createGoal nextval now db
          {| InsertGoal.userId := JwtPayload.userId user;
             InsertGoal.name := ValidatedGoal.name validatedData;
             InsertGoal.description := ValidatedGoal.description validatedData;
             InsertGoal.targetAmount := ValidatedGoal.targetAmount validatedData;
             InsertGoal.targetDate :=
               dateOrUndefined (ValidatedGoal.targetDate validatedData) |}
      with
      | (Throw error, db1) => (catch error, db1)
      | (Ok goal, db1) => ({| code := 201; content := OfGoal goal |}, db1)
      end
  end.

(** [PATCH /api/goals/:id] *)
Definition patch_goals_id (now : Z) (user : JwtPayload.t) (id : string)
    (body : GoalBody.t) (db : Db) : Reply * Db :=
  let catch (error : exn) :=
    match error with
    | ZodError first _ => reply 400 (JMessage first)
    | Error _ => reply 500 (JMessage "Ошибка обновления цели")
    end in
  match parseInt id with
  | None => (reply 400 (JMessage "Неверный ID цели"), db)
  | Some goalId =>
      match
        patchGoalSchema_parse issueText
          {| GoalBody.name := GoalBody.name body;
             GoalBody.description := GoalBody.description body;
             GoalBody.targetAmount :=
               if isTruthy (GoalBody.targetAmount body)
               then parseFloat_value (GoalBody.targetAmount body)
               else VUndefined;
             GoalBody.targetDate := GoalBody.targetDate body;
             GoalBody.completed := GoalBody.completed body |}
      with
      | Throw error => (catch error, db)
      | Ok validatedData =>
          match Storage.getGoal db goalId with
          | Throw error => (catch error, db)
          | Ok None => (reply 404 (JMessage "Цель не найдена"), db)
          | Ok (Some goal) =>
              if negb (Goal.userId goal =? JwtPayload.userId user) then
                (reply 403 (JMessage "Доступ запрещен"), db)
              else
                match
                  DatabaseStorage.updateGoal now db goalId
                    {| PartialGoal.name := ValidatedGoalUpdate.name validatedData;
                       PartialGoal.description :=
                         ValidatedGoalUpdate.description validatedData;
                       PartialGoal.targetAmount :=
                         ValidatedGoalUpdate.targetAmount validatedData;
                       PartialGoal.targetDate :=
                         dateOrUndefined
                           (ValidatedGoalUpdate.targetDate validatedData);
                       PartialGoal.completed :=
                         ValidatedGoalUpdate.completed validatedData |}
                with
                | (Throw error, db1) => (catch error, db1)
                | (Ok (Some updatedGoal), db1) =>
                    ({| code := 200; content := OfGoal updatedGoal |}, db1)
                | (Ok None, db1) => (reply 200 NoBody, db1)
                end
          end
      end
  end.

End MoreRoutes.

(* ================================================================= *)
(** ** The vocabulary of the further properties *)

Module Terms.

(** A text without a space. *)
Definition spaceless (s : string) : Prop := ~ In " "%char (list_ascii_of_string s).

(** The transactions of a store are well numbered: no two rows share an
    id, and the sequence is past every id. *)
Definition wellNumbered (db : Db) : Prop :=
  NoDup (map Transaction.id (transactions db))
  /\ (forall t : Transaction.t,
        In t (transactions db) -> Transaction.id t < transactions_id_seq db).

(** A query parameter that [parseInt (q) || fallback] replaces. *)
Definition defaulted (parseInt : string -> option Z) (q : option string) : Prop :=
  match q with
  | Some text => parseInt text = None \/ parseInt text = Some 0
  | None => True
  end.

End Terms.

(* ================================================================= *)
(** ** More concrete collaborators *)

Module Sample2.

Definition nextval (r : relation) (db : Db) : Z :=
  1 + match r with
      | Users => fold_right Z.max 0 (map User.id (users db))
      | Transactions => fold_right Z.max 0 (map Transaction.id (transactions db))
      | Categories => fold_right Z.max 0 (map Category.id (categories db))
      | Goals => fold_right Z.max 0 (map Goal.id (goals db))
      end.

Definition issueText (key : string) (v : JsValue) : string :=
  match v with
  | VUndefined => "Required"
  | _ => "Invalid " ++ key
  end.

Definition insertUserSchema_parse (body : InsertUser.t) : result InsertUser.t :=
  if negb (Js.includes (InsertUser.email body) "@") then
    Throw (ZodError "Invalid email" [])
  else if Nat.ltb (String.length (InsertUser.password body)) 6 then
    Throw (ZodError "Password is too short" [])
  else Ok body.

Definition insertCategorySchema_parse (body : CategoryBody.t)
  : result ValidatedCategory.t :=
  let validated (type : TransactionType) :=
    Ok {| ValidatedCategory.name := CategoryBody.name body;
          ValidatedCategory.type := type |} in
  if String.eqb (CategoryBody.type body) "income" then validated income
  else if String.eqb (CategoryBody.type body) "expense" then validated expense
  else Throw (ZodError "Invalid enum value" []).

Definition bcrypt_hash (password : string) : string := "hash:" ++ password.

Definition jwt_verify (token : string) : option JwtPayload.t :=
  if String.eqb token "token-for-alice@example.com" then Some Sample.asAlice
  else if String.eqb token "token-for-bob@example.com" then Some Sample.asBob
  else None.

Definition carol : InsertUser.t :=
  {| InsertUser.email := "carol@example.com"; InsertUser.password := "looking-glass";
     InsertUser.firstName := "Carol"; InsertUser.lastName := "Reed" |}.

Definition groceries : Category.t :=
  {| Category.id := 1; Category.userId := 1; Category.name := "Groceries";
     Category.type := expense |}.
Definition wages : Category.t :=
  {| Category.id := 2; Category.userId := 1; Category.name := "Wages";
     Category.type := income |}.
Definition tools : Category.t :=
  {| Category.id := 3; Category.userId := 2; Category.name := "Tools";
     Category.type := expense |}.

Definition tent : GoalBody.t :=
  {| GoalBody.name := VString "Tent"; GoalBody.description := VUndefined;
     GoalBody.targetAmount := VString "120"; GoalBody.targetDate := VUndefined;
     GoalBody.completed := VUndefined |}.

Definition markCompleted : GoalBody.t :=
  {| GoalBody.name := VUndefined; GoalBody.description := VUndefined;
     GoalBody.targetAmount := VUndefined; GoalBody.targetDate := VUndefined;
     GoalBody.completed := VBool true |}.

End Sample2.

(* ================================================================= *)
(** ** Numbers and comparisons *)

Lemma lt_reflect (x y : Q) : reflect (x < y)%Q (Js.lt x y).
Proof.
  unfold Js.lt. destruct (Qle_bool y x) eqn:E; simpl; constructor.
  - apply Qle_bool_iff in E. now apply Qle_not_lt.
  - apply Qnot_le_lt. intro H. apply Qle_bool_iff in H. congruence.
Qed.

Lemma lt_compat (x x' y : Q) : (x == x')%Q -> Js.lt x y = Js.lt x' y.
Proof.
  intro H. destruct (lt_reflect x y), (lt_reflect x' y); trivial; lra.
Qed.

(* ================================================================= *)
(** ** binary64: rounding is monotone, and binary64 numbers are its fixed
       points *)

Section Binary64.

Local Open Scope Q_scope.
Unset Implicit Arguments.

Lemma pow2_pos (e : Z) : 0 < 2 ^ e.
Proof. apply Qpower_0_lt. reflexivity. Qed.

Lemma pow2_add (a b : Z) : 2 ^ (a + b) == 2 ^ a * 2 ^ b.
Proof. apply Qpower_plus. discriminate. Qed.

Lemma pow2_le (a b : Z) : (a <= b)%Z -> 2 ^ a <= 2 ^ b.
Proof. intro H. apply Qpower_le_compat_l; [ exact H | discriminate ]. Qed.

Lemma pow2_lt (a b : Z) : (a < b)%Z -> 2 ^ a < 2 ^ b.
Proof. intro H. apply Qpower_lt_compat_l; [ exact H | reflexivity ]. Qed.

Lemma pow2_lt_inv (a b : Z) : 2 ^ a < 2 ^ b -> (a < b)%Z.
Proof. intro H. apply (Qpower_lt_compat_l_inv 2); [ exact H | reflexivity ]. Qed.

Lemma pow2_Z (n : Z) : (0 <= n)%Z -> inject_Z (2 ^ n) == 2 ^ n.
Proof. intro H. now rewrite Zpower_Qpower. Qed.

Lemma ilog2_spec (x : Q) : 0 < x -> 2 ^ Js.ilog2 x <= x /\ x < 2 ^ (Js.ilog2 x + 1).
Proof.
  intro Hx. unfold Js.ilog2.
  destruct x as [n d]. cbn [Qnum Qden].
  assert (Hn : (0 < n)%Z) by (unfold Qlt in Hx; simpl in Hx; lia).
  set (ln := Z.log2 n). set (ld := Z.log2 (Zpos d)).
  destruct (Z.log2_spec n Hn) as [Hn1 Hn2]. fold ln in Hn1, Hn2.
  destruct (Z.log2_spec (Zpos d) (Pos2Z.is_pos d)) as [Hd1 Hd2]. fold ld in Hd1, Hd2.
  assert (Hln : (0 <= ln)%Z) by apply Z.log2_nonneg.
  assert (Hld : (0 <= ld)%Z) by apply Z.log2_nonneg.
  assert (Hup : n # d < 2 ^ (ln - ld + 1)).
  { (* n < 2^(ln+1), d >= 2^ld *)
    replace (ln - ld + 1)%Z with ((ln + 1) + - ld)%Z by lia.
    rewrite pow2_add, Qpower_opp.
    apply Qlt_shift_div_l; [ apply pow2_pos | ].
    rewrite <- !pow2_Z by lia.
    unfold Qlt, Qmult, inject_Z. cbn [Qnum Qden].
    rewrite !Z.mul_1_r. rewrite Pos.mul_1_r.
    nia. }
  assert (Hlow : 2 ^ (ln - ld - 1) <= n # d).
  { replace (ln - ld - 1)%Z with (ln + - (ld + 1))%Z by lia.
    rewrite pow2_add, Qpower_opp.
    apply Qle_shift_div_r; [ apply pow2_pos | ].
    rewrite <- !pow2_Z by lia.
    unfold Qle, Qmult, inject_Z. cbn [Qnum Qden].
    rewrite !Z.mul_1_r. rewrite Pos.mul_1_r.
    apply Z.le_trans with (n * Zpos d)%Z; [ | apply Z.mul_le_mono_nonneg_l; lia ].
    apply Z.mul_le_mono_nonneg_r; lia. }
  destruct (Qle_bool (2 ^ (ln - ld)) (n # d)) eqn:E.
  - apply Qle_bool_iff in E. split; assumption.
  - assert (Hlt : n # d < 2 ^ (ln - ld)).
    { apply Qnot_le_lt. intro H. apply Qle_bool_iff in H. congruence. }
    replace (ln - ld - 1 + 1)%Z with (ln - ld)%Z by lia. split; assumption.
Qed.

Lemma ilog2_le (x y : Q) : 0 < x -> x <= y -> (Js.ilog2 x <= Js.ilog2 y)%Z.
Proof.
  intros Hx Hxy.
  destruct (ilog2_spec x Hx) as [Hx1 _].
  destruct (ilog2_spec y ltac:(lra)) as [_ Hy2].
  assert (H : 2 ^ Js.ilog2 x < 2 ^ (Js.ilog2 y + 1)) by lra.
  apply pow2_lt_inv in H. lia.
Qed.

(** The nearest whole number, ties to the even one. *)
Lemma nearestEven_floor (x : Q) :
  Js.nearestEven x = Qfloor x \/ Js.nearestEven x = (Qfloor x + 1)%Z.
Proof.
  unfold Js.nearestEven.
  destruct (x - inject_Z (Qfloor x) ?= 1 # 2); [ destruct (Z.even _) | | ]; auto.
Qed.

Lemma nearestEven_le (x y : Q) : x <= y -> (Js.nearestEven x <= Js.nearestEven y)%Z.
Proof.
  intro Hxy.
  pose proof (Qfloor_resp_le _ _ Hxy) as Hf.
  destruct (Z.eq_dec (Qfloor x) (Qfloor y)) as [ Heq | Hne ].
  - unfold Js.nearestEven. rewrite <- Heq.
    destruct (x - inject_Z (Qfloor x) ?= 1 # 2) eqn:Ex;
      destruct (y - inject_Z (Qfloor x) ?= 1 # 2) eqn:Ey;
      try destruct (Z.even (Qfloor x)); try lia;
      try (apply <- Qeq_alt in Ex); try (apply <- Qlt_alt in Ex);
      try (apply <- Qgt_alt in Ex);
      try (apply <- Qeq_alt in Ey); try (apply <- Qlt_alt in Ey);
      try (apply <- Qgt_alt in Ey);
      exfalso; lra.
  - destruct (nearestEven_floor x), (nearestEven_floor y); lia.
Qed.

Lemma nearestEven_Z (k : Z) : Js.nearestEven (inject_Z k) = k.
Proof.
  unfold Js.nearestEven. rewrite Qfloor_Z.
  assert (H : (inject_Z k - inject_Z k ?= 1 # 2) = Lt).
  { apply -> Qlt_alt. lra. }
  now rewrite H.
Qed.

Lemma nearestEven_comp (x y : Q) : x == y -> Js.nearestEven x = Js.nearestEven y.
Proof.
  intro H. unfold Js.nearestEven. rewrite (Qfloor_comp _ _ H).
  assert (Hc : (x - inject_Z (Qfloor y) ?= 1 # 2) = (y - inject_Z (Qfloor y) ?= 1 # 2)).
  { apply Qcompare_comp; [ now rewrite H | reflexivity ]. }
  now rewrite Hc.
Qed.

Lemma nearestEven_ge (x : Q) (k : Z) : inject_Z k <= x -> (k <= Js.nearestEven x)%Z.
Proof. intro H. rewrite <- (nearestEven_Z k). now apply nearestEven_le. Qed.

Lemma nearestEven_le_Z (x : Q) (k : Z) : x <= inject_Z k -> (Js.nearestEven x <= k)%Z.
Proof. intro H. rewrite <- (nearestEven_Z k). now apply nearestEven_le. Qed.

(** The exponent of the last place. *)
Lemma exponent_le (x y : Q) : 0 < x -> x <= y -> (Js.exponent x <= Js.exponent y)%Z.
Proof.
  intros Hx Hxy. unfold Js.exponent. pose proof (ilog2_le x y Hx Hxy). lia.
Qed.

Lemma scaled_below (x : Q) : 0 < x -> x / 2 ^ Js.exponent x < inject_Z (2 ^ 53).
Proof.
  intro Hx. destruct (ilog2_spec x Hx) as [_ H].
  apply Qlt_shift_div_r; [ apply pow2_pos | ].
  rewrite pow2_Z, <- pow2_add by lia.
  eapply Qlt_le_trans; [ exact H | ].
  apply pow2_le. unfold Js.exponent. lia.
Qed.

Lemma scaled_above (x : Q) :
  0 < x -> (-1074 < Js.exponent x)%Z -> inject_Z (2 ^ 52) <= x / 2 ^ Js.exponent x.
Proof.
  intros Hx He. destruct (ilog2_spec x Hx) as [H _].
  apply Qle_shift_div_l; [ apply pow2_pos | ].
  rewrite pow2_Z, <- pow2_add by lia.
  eapply Qle_trans; [ | exact H ].
  apply pow2_le. unfold Js.exponent in *. lia.
Qed.

Lemma nearest_nonneg (x : Q) : 0 < x -> 0 <= Js.nearest x.
Proof.
  intro Hx. unfold Js.nearest.
  apply Qmult_le_0_compat; [ | apply Qlt_le_weak, pow2_pos ].
  change 0 with (inject_Z 0). rewrite <- Zle_Qle.
  apply nearestEven_ge.
  apply Qle_shift_div_l; [ apply pow2_pos | ].
  change (inject_Z 0) with 0. rewrite Qmult_0_l. lra.
Qed.

Lemma nearest_le (x y : Q) : 0 < x -> x <= y -> Js.nearest x <= Js.nearest y.
Proof.
  intros Hx Hxy. assert (Hy : 0 < y) by lra.
  pose proof (exponent_le x y Hx Hxy) as He.
  unfold Js.nearest.
  destruct (Z.eq_dec (Js.exponent x) (Js.exponent y)) as [ Heq | Hne ].
  - rewrite Heq. apply Qmult_le_compat_r; [ | apply Qlt_le_weak, pow2_pos ].
    rewrite <- Zle_Qle. apply nearestEven_le.
    apply Qmult_le_compat_r; [ exact Hxy | ].
    apply Qlt_le_weak, Qinv_lt_0_compat, pow2_pos.
  - assert (Hlt : (Js.exponent x < Js.exponent y)%Z) by lia.
    assert (Hnormal : (-1074 < Js.exponent y)%Z) by (unfold Js.exponent in *; lia).
    apply Qle_trans with (2 ^ (Js.exponent y + 52)).
    + apply Qle_trans with (inject_Z (2 ^ 53) * 2 ^ Js.exponent x).
      * apply Qmult_le_compat_r; [ | apply Qlt_le_weak, pow2_pos ].
        rewrite <- Zle_Qle. apply nearestEven_le_Z.
        apply Qlt_le_weak, scaled_below, Hx.
      * rewrite pow2_Z, <- pow2_add by lia. apply pow2_le. lia.
    + apply Qle_trans with (inject_Z (2 ^ 52) * 2 ^ Js.exponent y).
      * rewrite pow2_Z, <- pow2_add by lia. apply pow2_le. lia.
      * apply Qmult_le_compat_r; [ | apply Qlt_le_weak, pow2_pos ].
        rewrite <- Zle_Qle. apply nearestEven_ge.
        now apply scaled_above.
Qed.

Lemma number_cases (x : Q) :
  (x == 0 /\ Js.number x = 0)
  \/ (0 < x /\ Js.number x == Js.nearest (Qred x) /\ 0 < Qred x)
  \/ (x < 0 /\ Js.number x == - Js.nearest (- Qred x) /\ 0 < - Qred x).
Proof.
  unfold Js.number. pose proof (Qred_correct x) as Hred.
  destruct (Qred x) as [n d] eqn:E. cbn [Qnum].
  destruct n as [ | p | p ].
  - left. split; [ | reflexivity ]. rewrite <- Hred. reflexivity.
  - right. left. assert (0 < Z.pos p # d) by reflexivity.
    split; [ lra | ]. split; [ apply Qred_correct | assumption ].
  - right. right. assert (Z.neg p # d < 0) by reflexivity.
    split; [ lra | ]. split; [ apply Qred_correct | lra ].
Qed.

Lemma number_le (x y : Q) : x <= y -> Js.number x <= Js.number y.
Proof.
  intro Hxy.
  pose proof (Qred_correct x) as Hx. pose proof (Qred_correct y) as Hy.
  destruct (number_cases x) as [ [Hx0 Hnx] | [ (Hx0 & Hnx & Hx1) | (Hx0 & Hnx & Hx1) ] ];
    destruct (number_cases y) as [ [Hy0 Hny] | [ (Hy0 & Hny & Hy1) | (Hy0 & Hny & Hy1) ] ];
    rewrite Hnx, Hny;
    try (pose proof (nearest_nonneg _ Hx1)); try (pose proof (nearest_nonneg _ Hy1));
    try lra.
  - apply nearest_le; [ exact Hx1 | lra ].
  - assert (Js.nearest (- Qred y) <= Js.nearest (- Qred x)).
    { apply nearest_le; [ exact Hy1 | lra ]. }
    lra.
Qed.

Lemma number_comp (x y : Q) : x == y -> Js.number x = Js.number y.
Proof. intro H. unfold Js.number. now rewrite (Qred_complete _ _ H). Qed.

Lemma number_canonical (x : Q) : Qred (Js.number x) = Js.number x.
Proof.
  unfold Js.number. destruct (Qnum (Qred x)); [ reflexivity | | ];
    apply Qred_complete, Qred_correct.
Qed.

Lemma canonical_eq (x y : Q) : Qred x = x -> Qred y = y -> x == y -> x = y.
Proof. intros Hx Hy H. rewrite <- Hx, <- Hy. now apply Qred_complete. Qed.

Lemma ilog2_unique (x : Q) (a : Z) :
  0 < x -> 2 ^ a <= x -> x < 2 ^ (a + 1) -> Js.ilog2 x = a.
Proof.
  intros Hx Hlow Hup. destruct (ilog2_spec x Hx) as [Hl Hu].
  assert (H1 : 2 ^ a < 2 ^ (Js.ilog2 x + 1)) by lra.
  assert (H2 : 2 ^ Js.ilog2 x < 2 ^ (a + 1)) by lra.
  apply pow2_lt_inv in H1. apply pow2_lt_inv in H2. lia.
Qed.

Lemma ilog2_comp (x y : Q) : 0 < x -> x == y -> Js.ilog2 x = Js.ilog2 y.
Proof.
  intros Hx H. destruct (ilog2_spec x Hx) as [Hl Hu].
  symmetry. apply ilog2_unique; lra.
Qed.

Lemma nearest_comp (x y : Q) : 0 < x -> x == y -> Js.nearest x == Js.nearest y.
Proof.
  intros Hx H. unfold Js.nearest, Js.exponent.
  rewrite (ilog2_comp x y Hx H).
  set (e := Z.max (Js.ilog2 y - 52) (-1074)).
  assert (Hq : x / 2 ^ e == y / 2 ^ e) by now rewrite H.
  now rewrite (nearestEven_comp _ _ Hq).
Qed.

Lemma number_pos (x : Q) : 0 < x -> Js.number x == Js.nearest x.
Proof.
  intro Hx.
  destruct (number_cases x) as [ [H0 _] | [ (_ & Hn & H1) | (H0 & _) ] ]; try lra.
  rewrite Hn. apply nearest_comp; [ exact H1 | apply Qred_correct ].
Qed.

Lemma number_opp (x : Q) : Js.number (- x) == - Js.number x.
Proof.
  destruct (number_cases x) as [ [H0 Hn] | [ (H0 & Hn & H1) | (H0 & Hn & H1) ] ].
  - assert (H : - x == 0) by lra.
    rewrite (number_comp _ _ H), Hn. reflexivity.
  - destruct (number_cases (- x)) as [ [H0' _] | [ (H0' & _) | (_ & Hn' & H1') ] ];
      try lra.
    rewrite Hn, Hn'. apply Qopp_comp. apply nearest_comp; [ exact H1' | ].
    rewrite !Qred_correct. ring.
  - rewrite Hn. assert (Hp : 0 < - x) by lra.
    rewrite (number_pos _ Hp).
    assert (E : Js.nearest (- x) == Js.nearest (- Qred x)).
    { apply nearest_comp; [ exact Hp | now rewrite Qred_correct ]. }
    rewrite E. ring.
Qed.

Lemma number_nonneg (x : Q) : 0 <= x -> 0 <= Js.number x.
Proof. intro H. apply (number_le 0 x) in H. exact H. Qed.

Lemma number_nonpos (x : Q) : x <= 0 -> Js.number x <= 0.
Proof. intro H. apply (number_le x 0) in H. exact H. Qed.

(** A multiple of a power of two is one of every smaller power. *)
Lemma shift_place (k e e' : Z) :
  (e' <= e)%Z -> inject_Z k * 2 ^ e == inject_Z (k * 2 ^ (e - e')) * 2 ^ e'.
Proof.
  intro H. rewrite inject_Z_mult, pow2_Z by lia.
  rewrite <- Qmult_assoc, <- pow2_add.
  now replace (e - e' + e')%Z with e by lia.
Qed.

Lemma exponent_least (x : Q) : (-1074 <= Js.exponent x)%Z.
Proof. unfold Js.exponent. lia. Qed.

Lemma significand_range (x : Q) :
  0 < x ->
  (0 <= Js.nearestEven (x / 2 ^ Js.exponent x) <= 2 ^ 53)%Z.
Proof.
  intro Hx. split.
  - apply nearestEven_ge. apply Qle_shift_div_l; [ apply pow2_pos | ].
    change (inject_Z 0) with 0. rewrite Qmult_0_l. lra.
  - apply nearestEven_le_Z, Qlt_le_weak, scaled_below, Hx.
Qed.

(** A positive multiple of the last place of its own neighbourhood is a
    binary64 number. *)
Lemma nearest_fixed (y : Q) (m : Z) :
  0 < y -> y == inject_Z m * 2 ^ Js.exponent y -> Js.nearest y == y.
Proof.
  intros Hy Hm. unfold Js.nearest.
  assert (Hq : y / 2 ^ Js.exponent y == inject_Z m).
  { rewrite Hm at 1. field. pose proof (pow2_pos (Js.exponent y)). lra. }
  rewrite (nearestEven_comp _ _ Hq), nearestEven_Z. now symmetry.
Qed.

Lemma exponent_below (y : Q) (e : Z) :
  0 < y -> (-1074 <= e)%Z -> y < 2 ^ (e + 53) -> (Js.exponent y <= e)%Z.
Proof.
  intros Hy He Hup. destruct (ilog2_spec y Hy) as [Hl _].
  assert (H : 2 ^ Js.ilog2 y < 2 ^ (e + 53)) by lra.
  apply pow2_lt_inv in H. unfold Js.exponent. lia.
Qed.

Lemma nearest_idem (x : Q) :
  0 < x -> 0 < Js.nearest x -> Js.nearest (Js.nearest x) == Js.nearest x.
Proof.
  intros Hx Hy. set (y := Js.nearest x) in *.
  pose proof (significand_range x Hx) as [Hk0 Hk].
  pose proof (exponent_least x) as He.
  assert (Ey : y == inject_Z (Js.nearestEven (x / 2 ^ Js.exponent x))
                    * 2 ^ Js.exponent x) by reflexivity.
  set (k := Js.nearestEven (x / 2 ^ Js.exponent x)) in *.
  set (e := Js.exponent x) in *.
  destruct (Z.eq_dec k (2 ^ 53)) as [ Hmax | Hless ].
  - assert (Hpow : y == 2 ^ (e + 53)).
    { rewrite Ey, Hmax. rewrite pow2_Z by lia. rewrite <- pow2_add.
      now replace (53 + e)%Z with (e + 53)%Z by lia. }
    assert (Hlog : Js.ilog2 y = (e + 53)%Z).
    { apply ilog2_unique; [ exact Hy | rewrite Hpow; apply Qle_refl | ].
      rewrite Hpow. apply pow2_lt. lia. }
    apply (nearest_fixed y (2 ^ 52) Hy).
    unfold Js.exponent. rewrite Hlog.
    replace (Z.max (e + 53 - 52) (-1074)) with (e + 1)%Z by lia.
    rewrite Hpow, pow2_Z, <- pow2_add by lia.
    now replace (52 + (e + 1))%Z with (e + 53)%Z by lia.
  - assert (Hup : y < 2 ^ (e + 53)).
    { rewrite Ey. replace (e + 53)%Z with (53 + e)%Z by lia.
      rewrite pow2_add, <- (pow2_Z 53) by lia.
      apply Qmult_lt_compat_r; [ apply pow2_pos | ].
      rewrite <- Zlt_Qlt. lia. }
    pose proof (exponent_below y e Hy He Hup) as He'.
    apply (nearest_fixed y (k * 2 ^ (e - Js.exponent y)) Hy).
    rewrite Ey at 1. now apply shift_place.
Qed.

Lemma number_idem_eq (x : Q) : Js.number (Js.number x) == Js.number x.
Proof.
  assert (Hpos : forall z : Q, 0 < z -> Js.number (Js.number z) == Js.number z).
  { intros z Hz. pose proof (number_pos z Hz) as Hn.
    pose proof (nearest_nonneg z Hz) as H0.
    destruct (Qlt_le_dec 0 (Js.nearest z)) as [ Hgt | Hle ].
    - rewrite (number_comp _ _ Hn), Hn.
      rewrite (number_pos _ Hgt). now apply nearest_idem.
    - assert (E : Js.number z == 0) by lra.
      rewrite (number_comp _ _ E), E. reflexivity. }
  destruct (Q_dec 0 x) as [ [ Hgt | Hlt ] | Heq ].
  - now apply Hpos.
  - assert (Hz : 0 < - x) by lra. specialize (Hpos (- x) Hz).
    pose proof (number_opp x) as Ho.
    rewrite (number_comp _ _ Ho) in Hpos.
    rewrite number_opp, Ho in Hpos. lra.
  - assert (E : x == 0) by lra.
    rewrite (number_comp _ _ E). reflexivity.
Qed.

(** Reading a binary64 number gives the number itself. *)
Lemma number_idem (x : Q) : Js.number (Js.number x) = Js.number x.
Proof.
  apply canonical_eq; [ apply number_canonical | apply number_canonical | ].
  apply number_idem_eq.
Qed.

(** Every binary64 number is a multiple of 2^-1074. *)
Lemma number_grid (x : Q) : exists m : Z, Js.number x == inject_Z m * 2 ^ (-1074).
Proof.
  assert (Hpos : forall z : Q, 0 < z ->
            exists m : Z, Js.number z == inject_Z m * 2 ^ (-1074)).
  { intros z Hz. eexists. rewrite (number_pos z Hz). unfold Js.nearest.
    apply shift_place, exponent_least. }
  destruct (Q_dec 0 x) as [ [ Hgt | Hlt ] | Heq ].
  - now apply Hpos.
  - destruct (Hpos (- x) ltac:(lra)) as [m Hm]. exists (- m)%Z.
    rewrite number_opp in Hm. rewrite inject_Z_opp. lra.
  - exists 0%Z. assert (E : x == 0) by lra.
    rewrite (number_comp _ _ E). reflexivity.
Qed.

Lemma number_least : Js.number (2 ^ (-1074)) == 2 ^ (-1074).
Proof. vm_compute. reflexivity. Qed.

(** The difference of two binary64 numbers has the sign of its exact
    value: it is not rounded to 0. *)
Lemma minus_sign (a b : Q) :
  Js.number a = a -> Js.number b = b -> (Js.minus b a <= 0 <-> b <= a).
Proof.
  intros Ha Hb. unfold Js.minus. split.
  - intro H. apply Qnot_lt_le. intro Hlt.
    destruct (number_grid a) as [ma Hma]. destruct (number_grid b) as [mb Hmb].
    rewrite Ha in Hma. rewrite Hb in Hmb.
    pose proof (pow2_pos (-1074)) as Hg.
    assert (Hm : (ma < mb)%Z).
    { rewrite Zlt_Qlt. apply Qmult_lt_r with (2 ^ (-1074)); [ exact Hg | ].
      now rewrite <- Hma, <- Hmb. }
    assert (Hstep : 2 ^ (-1074) <= b - a).
    { rewrite Hma, Hmb.
      assert (H1 : inject_Z (ma + 1) <= inject_Z mb) by (rewrite <- Zle_Qle; lia).
      rewrite inject_Z_plus in H1. change (inject_Z 1) with 1 in H1.
      nra. }
    apply number_le in Hstep. rewrite number_least in Hstep. lra.
  - intro H. apply number_nonpos. lra.
Qed.

Lemma Qred_Z (k : Z) : Qred (inject_Z k) = inject_Z k.
Proof.
  unfold Qred, inject_Z.
  pose proof (Z.ggcd_gcd k 1) as Hg. pose proof (Z.ggcd_correct_divisors k 1) as Hd.
  destruct (Z.ggcd k 1) as [g [a b]]. cbn [fst snd] in *.
  rewrite Z.gcd_1_r in Hg. subst g. destruct Hd as [Ha Hb].
  assert (a = k) by lia. assert (b = 1%Z) by lia. subst a b. reflexivity.
Qed.

(** The whole numbers up to 2^53 are binary64 numbers. *)
Lemma number_Z (k : Z) : (0 <= k <= 2 ^ 53)%Z -> Js.number (inject_Z k) = inject_Z k.
Proof.
  intros [H0 Hk].
  apply canonical_eq; [ apply number_canonical | apply Qred_Z | ].
  destruct (Z.eq_dec k 0) as [ -> | Hpos ]; [ reflexivity | ].
  destruct (Z.eq_dec k (2 ^ 53)) as [ -> | Hless ]; [ vm_compute; reflexivity | ].
  assert (Hy : 0 < inject_Z k).
  { change 0 with (inject_Z 0). rewrite <- Zlt_Qlt. lia. }
  rewrite (number_pos _ Hy).
  assert (He : (Js.exponent (inject_Z k) <= 0)%Z).
  { apply exponent_below; [ exact Hy | lia | ].
    rewrite <- (pow2_Z (0 + 53)) by lia. rewrite <- Zlt_Qlt. simpl. lia. }
  apply (nearest_fixed _ (k * 2 ^ (0 - Js.exponent (inject_Z k))) Hy).
  rewrite <- shift_place by exact He.
  change (2 ^ 0) with 1. ring.
Qed.

Lemma nearestEven_above (z : Q) : inject_Z (Js.nearestEven z) <= z + (1 # 2).
Proof.
  unfold Js.nearestEven. pose proof (Qfloor_le z) as Hf.
  destruct (z - inject_Z (Qfloor z) ?= 1 # 2) eqn:E.
  - apply Qeq_alt in E. destruct (Z.even (Qfloor z)); [ lra | ].
    rewrite inject_Z_plus. change (inject_Z 1) with 1. lra.
  - lra.
  - apply Qgt_alt in E. rewrite inject_Z_plus. change (inject_Z 1) with 1. lra.
Qed.

(** Rounding to binary64 adds less than a thousandth of the number, and of
    one. *)
Lemma number_above (x : Q) : 0 <= x -> Js.number x <= x * (1001 # 1000) + (1 # 1000).
Proof.
  intro H0. destruct (Qlt_le_dec 0 x) as [ Hx | Hle ].
  - rewrite (number_pos x Hx). unfold Js.nearest.
    set (e := Js.exponent x).
    pose proof (pow2_pos e) as He.
    pose proof (nearestEven_above (x / 2 ^ e)) as Hk.
    assert (Hscaled : inject_Z (Js.nearestEven (x / 2 ^ e)) * 2 ^ e
                      <= x + (1 # 2) * 2 ^ e).
    { apply Qle_trans with ((x / 2 ^ e + (1 # 2)) * 2 ^ e).
      - apply Qmult_le_compat_r; [ exact Hk | lra ].
      - apply Qle_lteq. right. field. lra. }
    assert (Hplace : 2 ^ e <= x * 2 ^ (-52) + 2 ^ (-1074)).
    { destruct (ilog2_spec x Hx) as [Hl _].
      pose proof (pow2_pos (-52)). pose proof (pow2_pos (-1074)).
      unfold e, Js.exponent.
      destruct (Z.max_spec (Js.ilog2 x - 52) (-1074)) as [ [_ ->] | [_ ->] ].
      - nra.
      - replace (Js.ilog2 x - 52)%Z with (Js.ilog2 x + -52)%Z by lia.
        rewrite pow2_add. nra. }
    assert (H52 : 2 ^ (-52) <= 1 # 1000).
    { apply Qle_trans with (2 ^ (-10)); [ apply pow2_le; lia | ].
      vm_compute. discriminate. }
    assert (H1074 : 2 ^ (-1074) <= 1 # 1000).
    { apply Qle_trans with (2 ^ (-10)); [ apply pow2_le; lia | ].
      vm_compute. discriminate. }
    nra.
  - assert (E : x == 0) by lra. rewrite (number_comp _ _ E).
    change (Js.number 0) with 0. lra.
Qed.

Lemma plus_le (a b c d : Q) : a <= c -> b <= d -> Js.plus a b <= Js.plus c d.
Proof. intros H1 H2. apply number_le. lra. Qed.

Lemma plus_idem (a b : Q) : Js.number (Js.plus a b) = Js.plus a b.
Proof. apply number_idem. Qed.

End Binary64.

Set Implicit Arguments.

(* ================================================================= *)
(** ** The eco rating *)

(** C4.  The rating is a function of the total alone (equal totals get
    equal ratings), it is the step function of the fixed thresholds 50,
    100, 200, 300 and 500, it never gets better when the total grows, and
    it takes the values A+, A, C+ and C at 49, 50, 499 and 500. *)
Theorem ecoRating_step_function :
  (forall x y : Q, (x == y)%Q -> Storage.ecoRating x = Storage.ecoRating y)
  /\ (forall x : Q, (x < 50)%Q -> Storage.ecoRating x = "A+")
  /\ (forall x : Q, (50 <= x < 100)%Q -> Storage.ecoRating x = "A")
  /\ (forall x : Q, (100 <= x < 200)%Q -> Storage.ecoRating x = "B+")
  /\ (forall x : Q, (200 <= x < 300)%Q -> Storage.ecoRating x = "B")
  /\ (forall x : Q, (300 <= x < 500)%Q -> Storage.ecoRating x = "C+")
  /\ (forall x : Q, (500 <= x)%Q -> Storage.ecoRating x = "C")
  /\ (forall x y : Q, (x <= y)%Q ->
        (Spec.gradeRank (Storage.ecoRating y) <= Spec.gradeRank (Storage.ecoRating x))%nat)
  /\ Storage.ecoRating 49 = "A+"
  /\ Storage.ecoRating 50 = "A"
  /\ Storage.ecoRating 499 = "C+"
  /\ Storage.ecoRating 500 = "C".
Proof.
  repeat split; try reflexivity; intros; unfold Storage.ecoRating;
    repeat match goal with
           | |- context [Js.lt ?a ?b] => destruct (lt_reflect a b)
           end;
    simpl; solve [reflexivity | lia | lra].
Qed.

Lemma ecoRating_step_function_witness :
  Storage.ecoRating (250 # 1) = "B"
  /\ (Spec.gradeRank (Storage.ecoRating 120) <= Spec.gradeRank (Storage.ecoRating 75))%nat.
Proof.
  destruct ecoRating_step_function as (_ & _ & _ & _ & HB & _ & _ & Hmono & _).
  split.
  - apply HB. split; [ discriminate | reflexivity ].
  - apply Hmono. discriminate.
Defined.

(* ================================================================= *)
(** ** Creating a transaction *)

Lemma ecoImpactOf_factor (category : string) (amount : Q) :
  ecoImpactOf category amount = Js.times amount (Js.number (Spec.factor category)).
Proof.
  unfold ecoImpactOf, Spec.factor, Spec.factors. cbn [find fst snd].
  repeat match goal with
         | |- context [String.eqb category ?label] =>
             destruct (String.eqb category label)
         end; cbn [snd]; f_equal; apply number_comp; reflexivity.
Qed.

(** C5, as the claim has it, fails: the product is formed in binary64.
    For 12 spent on food the row holds 12 times the binary64 number nearest
    to 0.15, rounded, which is 1.7999999999999998, the binary64 number next
    below 1.8, and not 12 times 0.15. *)
Lemma createTransaction_ecoImpact_counterexample :
  let answer :=
    post_transactions Sample.parseInt Sample.parseFloat Sample.Date_parse
      Sample.insertTransactionSchema_parse Sample.now Sample.asAlice
      (Sample.purchase "food" (AmountString "12")) (Sample.store [] []) in
  exists (row : Transaction.t) (e : Q),
    transactions (snd answer) = [row]
    /\ Transaction.amount row = 12%Q
    /\ Transaction.category row = "food"
    /\ Transaction.ecoImpact row = Some e
    /\ e = (2026619832316723 # 1125899906842624)%Q
    /\ (e < 18 # 10)%Q
    /\ ~ (e == 12 * Spec.factor "food")%Q.
Proof.
  eexists. eexists. split; [ vm_compute; reflexivity | ].
  cbn [Transaction.amount Transaction.category Transaction.ecoImpact].
  repeat split; intro H; vm_compute in H; discriminate.
Qed.

(** C5, amended.  When the schema accepts the body, its date text is a
    date and the store takes the insertion, the handler appends one row for
    the caller whose ecoImpact is the binary64 product of the validated
    amount and the binary64 number nearest to the factor of its category
    (0.20 transport, 0.15 food, 0.10 shopping, 0.25 utilities, 0.05
    otherwise), and answers with that row unless a goal update fails
    afterwards; a date text that is no date is answered with 500 and
    nothing is stored; an amount of 100 gives exactly 20 for transport, 15
    for food and 5 for an unlisted category. *)
Theorem createTransaction_ecoImpact :
  (forall (parseInt : string -> option Z) (parseFloat : string -> option Q)
          (Date_parse : string -> option Z)
          (schema : TransactionBody.t -> result ValidatedTransaction.t)
          (now : Z) (user : JwtPayload.t) (body : TransactionBody.t) (db : Db)
          (validated : ValidatedTransaction.t),
      schema (TransactionBody.with_amount body
                (coerceAmount parseFloat (TransactionBody.amount body)))
      = Ok validated ->
      let answer := post_transactions parseInt parseFloat Date_parse schema
                      now user body db in
      (forall date : Z,
          Date_parse (ValidatedTransaction.date validated) = Some date ->
          failure db Transactions = None ->
          exists (row : Transaction.t) (e : Q),
            transactions (snd answer) = (transactions db ++ [row])%list
            /\ Transaction.userId row = JwtPayload.userId user
            /\ Transaction.amount row = ValidatedTransaction.amount validated
            /\ Transaction.category row = ValidatedTransaction.category validated
            /\ Transaction.date row = date
            /\ Transaction.ecoImpact row = Some e
            /\ e = Js.times (ValidatedTransaction.amount validated)
                     (Js.number
                        (Spec.factor (ValidatedTransaction.category validated)))
            /\ (fst answer = json (JTransaction row) \/ status (fst answer) = 500))
      /\ (Date_parse (ValidatedTransaction.date validated) = None ->
          answer
          = (status_json 500
               (JFailure "Ошибка создания транзакции" "Invalid time value"), db)))
  /\ ecoImpactOf "transport" 100 = 20%Q
  /\ ecoImpactOf "food" 100 = 15%Q
  /\ ecoImpactOf "gifts" 100 = 5%Q.
Proof.
  split; [ | repeat split; vm_compute; reflexivity ].
  intros parseInt parseFloat Date_parse schema now user body db validated Hv answer.
  subst answer. unfold post_transactions. rewrite Hv.
  unfold Storage.createTransaction. cbn [InsertTransaction.date].
  split; [ | intros ->; reflexivity ].
  intros date -> Hdb. unfold statement. rewrite Hdb.
  eexists. exists (ecoImpactOf (ValidatedTransaction.category validated)
                     (ValidatedTransaction.amount validated)).
  rewrite <- ecoImpactOf_factor.
  destruct (truthy (TransactionBody.goalId body)
            && TransactionType_eqb (ValidatedTransaction.type validated) income).
  - unfold Storage.updateGoalProgress.
    destruct (parseInt_goalId parseInt (TransactionBody.goalId body)) as [id | ];
      [ destruct (statementOn _ Goals id tt) | ]; cbn [fst snd transactions with_goals];
      repeat split; (left; reflexivity) || (right; reflexivity).
  - cbn [fst snd]. repeat split. left; reflexivity.
Qed.

Lemma createTransaction_ecoImpact_witness :
  exists (row : Transaction.t) (e : Q),
    transactions
      (snd (post_transactions Sample.parseInt Sample.parseFloat Sample.Date_parse
              Sample.insertTransactionSchema_parse Sample.now Sample.asAlice
              (Sample.purchase "transport" (AmountString "100"))
              (Sample.store [] [])))
    = [row]
    /\ Transaction.date row = 1741996800000
    /\ Transaction.ecoImpact row = Some e
    /\ e = 20%Q.
Proof.
  destruct createTransaction_ecoImpact as [H _].
  destruct (H Sample.parseInt Sample.parseFloat Sample.Date_parse
              Sample.insertTransactionSchema_parse Sample.now Sample.asAlice
              (Sample.purchase "transport" (AmountString "100"))
              (Sample.store [] [])
              {| ValidatedTransaction.type := expense;
                 ValidatedTransaction.amount := 100;
                 ValidatedTransaction.category := "transport";
                 ValidatedTransaction.description := None;
                 ValidatedTransaction.date := "2025-03-15" |}
              eq_refl) as [Hstored _].
  destruct (Hstored 1741996800000 eq_refl eq_refl)
    as (row & e & Hrows & _ & _ & _ & Hdate & He & Hval & _).
  exists row, e. split; [ exact Hrows | ].
  split; [ exact Hdate | split; [ exact He | ] ].
  rewrite Hval. vm_compute. reflexivity.
Defined.

(** The update of a goal's progress selects by id alone: every stored goal
    with the id is credited, whoever its user is. *)
Lemma updateGoalProgress_ignores_owner (now : Z) (db : Db) (id : Z) (amount : Q)
    (g : Goal.t) :
  failure db Goals = None ->
  key db id = true ->
  In g (goals db) ->
  Goal.id g = id ->
  In (Storage.addSaved now amount g)
     (goals (snd (Storage.updateGoalProgress now db (Some id) amount))).
Proof.
  intros Hdb Hkey Hin Hid. unfold Storage.updateGoalProgress, statementOn, statement.
  rewrite Hdb, Hkey. cbn [snd goals with_goals]. apply in_map_iff. exists g.
  apply Z.eqb_eq in Hid. now rewrite Hid.
Qed.

(** C1.  The goal that an income transaction names is credited whoever owns
    it.  Bob records an income of 50 against goal 1, which is Alice's: the
    request succeeds and Alice's goal goes from 100 to 150 saved, although
    the handler that deletes a goal refuses the same goal to Bob with 403. *)
Theorem createTransaction_credits_foreign_goal :
  let db := Sample.store [] [Sample.bike] in
  let answer :=
    post_transactions Sample.parseInt Sample.parseFloat Sample.Date_parse
      Sample.insertTransactionSchema_parse Sample.now Sample.asBob
      (Sample.salary (Some (IdString "1"))) db in
  Goal.userId Sample.bike <> JwtPayload.userId Sample.asBob
  /\ status (fst answer) = 200
  /\ map Goal.userId (goals (snd answer)) = [1]
  /\ map Goal.currentSaved (goals (snd answer)) = [150%Q]
  /\ fst (delete_goals_id Sample.parseInt Sample.asBob "1" db)
     = status_json 403 (JMessage "Доступ запрещен").
Proof.
  repeat split. discriminate.
Qed.

(* ================================================================= *)
(** ** Authentication *)

(** C2, as the claim has it, fails: an address without an account is
    answered with 404 and a message that says so, an address with an
    account with the message of success. *)
Lemma forgotPassword_counterexample :
  let forgot :=
    post_auth_forgot_password "5f2a" None (Sample.sendPasswordResetEmail true) in
  let db := Sample.store [] [] in
  forgot "carol@example.com" db
  = status_json 404 (JMessage "Пользователь с таким email не найден")
  /\ forgot "alice@example.com" db = json Spec.passwordResetSent
  /\ forgot "carol@example.com" db <> forgot "alice@example.com" db.
Proof.
  repeat split. discriminate.
Qed.

(** C2, amended.  For an address that has an account the answer is the one
    message of success whether the mailer reports the message as sent or
    not; for an address that has none the answer is 404 and names the
    missing account. *)
Theorem forgotPassword_generic_when_registered :
  forall (token : string) (url : option string)
         (send : string -> string -> string -> result bool)
         (email : string) (db : Db),
    (forall (user : User.t) (emailSent : bool),
        Storage.getUserByEmail db email = Ok (Some user) ->
        send email token (frontendUrl url) = Ok emailSent ->
        post_auth_forgot_password token url send email db = json Spec.passwordResetSent)
    /\ (Storage.getUserByEmail db email = Ok None ->
        post_auth_forgot_password token url send email db
        = status_json 404 (JMessage "Пользователь с таким email не найден")).
Proof.
  intros token url send email db. unfold post_auth_forgot_password. split.
  - intros user emailSent Huser Hsend. rewrite Huser, Hsend.
    destruct emailSent; reflexivity.
  - intros Hnone. rewrite Hnone. reflexivity.
Qed.

Lemma forgotPassword_generic_when_registered_witness :
  post_auth_forgot_password "5f2a" None (Sample.sendPasswordResetEmail false)
    "alice@example.com" (Sample.store [] [])
  = json Spec.passwordResetSent
  /\ post_auth_forgot_password "5f2a" None (Sample.sendPasswordResetEmail false)
       "carol@example.com" (Sample.store [] [])
     = status_json 404 (JMessage "Пользователь с таким email не найден").
Proof.
  destruct (forgotPassword_generic_when_registered "5f2a" None
              (Sample.sendPasswordResetEmail false) "alice@example.com"
              (Sample.store [] [])) as [Hsent _].
  destruct (forgotPassword_generic_when_registered "5f2a" None
              (Sample.sendPasswordResetEmail false) "carol@example.com"
              (Sample.store [] [])) as [_ Hmissing].
  split.
  - apply (Hsent Sample.alice false); reflexivity.
  - apply Hmissing; reflexivity.
Defined.

(** C7.  A login with an address that has no account and a login with the
    wrong password for an existing account, both accepted by the schema,
    get one and the same response: status 401 with one message. *)
Theorem login_failures_indistinguishable :
  forall (schema : LoginBody.t -> result LoginBody.t)
         (compare : string -> string -> bool) (sign : JwtPayload.t -> string)
         (db : Db) (unknown mismatched validUnknown validMismatched : LoginBody.t)
         (user : User.t),
    schema unknown = Ok validUnknown ->
    schema mismatched = Ok validMismatched ->
    Storage.getUserByEmail db (LoginBody.email validUnknown) = Ok None ->
    Storage.getUserByEmail db (LoginBody.email validMismatched) = Ok (Some user) ->
    compare (LoginBody.password validMismatched) (User.password user) = false ->
    post_auth_login schema compare sign unknown db
    = status_json 401 (JMessage "Неверный email или пароль")
    /\ post_auth_login schema compare sign mismatched db
       = post_auth_login schema compare sign unknown db.
Proof.
  intros schema compare sign db unknown mismatched v1 v2 user H1 H2 Hnone Hsome Hcmp.
  unfold post_auth_login. rewrite H1, H2, Hnone, Hsome, Hcmp. split; reflexivity.
Qed.

Lemma login_failures_indistinguishable_witness :
  let login :=
    post_auth_login Sample.loginSchema_parse Sample.bcrypt_compare Sample.jwt_sign in
  let db := Sample.store [] [] in
  login {| LoginBody.email := "carol@example.com"; LoginBody.password := "secret" |} db
  = status_json 401 (JMessage "Неверный email или пароль")
  /\ login {| LoginBody.email := "alice@example.com"; LoginBody.password := "secret" |} db
     = login {| LoginBody.email := "carol@example.com"; LoginBody.password := "secret" |} db.
Proof.
  apply (@login_failures_indistinguishable Sample.loginSchema_parse
           Sample.bcrypt_compare Sample.jwt_sign (Sample.store [] [])
           {| LoginBody.email := "carol@example.com"; LoginBody.password := "secret" |}
           {| LoginBody.email := "alice@example.com"; LoginBody.password := "secret" |}
           {| LoginBody.email := "carol@example.com"; LoginBody.password := "secret" |}
           {| LoginBody.email := "alice@example.com"; LoginBody.password := "secret" |}
           Sample.alice);
    reflexivity.
Defined.

(* ================================================================= *)
(** ** Deleting a transaction *)

Lemma find_filter_out (n : Z) (rows : list Transaction.t) :
  find (fun t => Transaction.id t =? n)
       (filter (fun t => negb (Transaction.id t =? n)) rows) = None.
Proof.
  induction rows as [ | t rows IH ]; simpl; trivial.
  destruct (Transaction.id t =? n) eqn:E; simpl; trivial. now rewrite E.
Qed.

Lemma find_none_id (n : Z) (rows : list Transaction.t) :
  (forall t : Transaction.t, In t rows -> Transaction.id t <> n) ->
  find (fun t => Transaction.id t =? n) rows = None.
Proof.
  intro H. destruct (find _ rows) as [ t | ] eqn:E; trivial.
  apply find_some in E. destruct E as [Hin Hid].
  apply Z.eqb_eq in Hid. now apply H in Hin.
Qed.

(** C8, as the claim has it, fails: no transaction has the id 99999999999,
    and the answer is not 404 but 500, because the number does not fit the
    key of the store, which refuses the lookup. *)
Lemma deleteTransaction_outcomes_counterexample :
  let db := Sample.store [Sample.lunch; Sample.pay] [] in
  let answer :=
    delete_transactions_id Sample.parseInt Sample.asAlice "99999999999" db in
  Sample.parseInt "99999999999" = Some 99999999999
  /\ (forall t : Transaction.t,
        In t (transactions db) -> Transaction.id t <> 99999999999)
  /\ answer = (status_json 500 (JMessage "Ошибка сервера"), db)
  /\ status (fst answer) <> 404.
Proof.
  repeat split; try discriminate.
  intros t [ <- | [ <- | [] ] ]; discriminate.
Qed.

(** C8, amended.  For an id that [parseInt] reads as [n]: when [n] does
    not fit the key of the store the answer is 500 and the store is as it
    was; when it fits, the store serves the transactions and no transaction
    has the id, the answer is 404; when the transaction belongs to another
    user the answer is 403 and the store is as it was; otherwise the answer
    is 204, the transaction is gone (looking it up finds nothing, deleting
    it again is a 404) and every other row is kept. *)
Theorem deleteTransaction_outcomes :
  forall (parseInt : string -> option Z) (user : JwtPayload.t) (id : string)
         (db : Db) (n : Z),
    parseInt id = Some n ->
    let answer := delete_transactions_id parseInt user id db in
    (key db n = false ->
     answer = (status_json 500 (JMessage "Ошибка сервера"), db))
    /\ (key db n = true ->
        failure db Transactions = None ->
        (forall t : Transaction.t, In t (transactions db) -> Transaction.id t <> n) ->
        answer = (status_json 404 (JMessage "Транзакция не найдена"), db))
    /\ (forall t : Transaction.t,
          Storage.getTransaction db n = Ok (Some t) ->
          Transaction.userId t <> JwtPayload.userId user ->
          answer = (status_json 403 (JMessage "Доступ запрещен"), db))
    /\ (forall t : Transaction.t,
          Storage.getTransaction db n = Ok (Some t) ->
          Transaction.userId t = JwtPayload.userId user ->
          fst answer = status_send 204
          /\ Storage.getTransaction (snd answer) n = Ok None
          /\ fst (delete_transactions_id parseInt user id (snd answer))
             = status_json 404 (JMessage "Транзакция не найдена")
          /\ (forall t' : Transaction.t,
                In t' (transactions (snd answer))
                <-> In t' (transactions db) /\ Transaction.id t' <> n)
          /\ users (snd answer) = users db
          /\ categories (snd answer) = categories db
          /\ goals (snd answer) = goals db).
Proof.
  intros parseInt user id db n Hid answer. subst answer.
  unfold delete_transactions_id. rewrite Hid.
  unfold Storage.getTransaction, Storage.deleteTransaction, statementOn, statement.
  split; [ | split ].
  - intros ->. destruct (failure db Transactions); reflexivity.
  - intros -> -> Hnone. now rewrite (@find_none_id n (transactions db) Hnone).
  - destruct (failure db Transactions) as [ message | ] eqn:Hdb;
      [ split; intros; discriminate | ].
    destruct (key db n) eqn:Hkey; [ | split; intros; discriminate ].
    destruct (find (fun t => Transaction.id t =? n) (transactions db)) as [ t0 | ];
      split; try (intros; discriminate);
      intros t H; injection H as <-.
    + intros Hother. apply Z.eqb_neq in Hother. now rewrite Hother.
    + intros Hown. apply Z.eqb_eq in Hown. rewrite Hown.
      cbn [negb fst snd failure key transactions users categories goals
           with_transactions].
      rewrite ?Hdb, ?Hkey, ?find_filter_out.
      do 3 (split; [ reflexivity | ]). split; [ | repeat split ].
      intro t'. rewrite filter_In, negb_true_iff, Z.eqb_neq. reflexivity.
Qed.

Lemma deleteTransaction_outcomes_witness :
  let db := Sample.store [Sample.lunch; Sample.pay] [] in
  delete_transactions_id Sample.parseInt Sample.asAlice "-2147483649" db
  = (status_json 500 (JMessage "Ошибка сервера"), db)
  /\ delete_transactions_id Sample.parseInt Sample.asAlice "7" db
     = (status_json 404 (JMessage "Транзакция не найдена"), db)
  /\ delete_transactions_id Sample.parseInt Sample.asBob "1" db
     = (status_json 403 (JMessage "Доступ запрещен"), db)
  /\ fst (delete_transactions_id Sample.parseInt Sample.asAlice "1" db)
     = status_send 204
  /\ Storage.getTransaction
       (snd (delete_transactions_id Sample.parseInt Sample.asAlice "1" db)) 1
     = Ok None.
Proof.
  intro db.
  destruct (@deleteTransaction_outcomes Sample.parseInt Sample.asAlice "-2147483649"
              db (-2147483649) eq_refl) as (H500 & _).
  destruct (@deleteTransaction_outcomes Sample.parseInt Sample.asAlice "7" db 7 eq_refl)
    as (_ & H404 & _).
  destruct (@deleteTransaction_outcomes Sample.parseInt Sample.asBob "1" db 1 eq_refl)
    as (_ & _ & H403 & _).
  destruct (@deleteTransaction_outcomes Sample.parseInt Sample.asAlice "1" db 1 eq_refl)
    as (_ & _ & _ & H204).
  split; [ apply H500; reflexivity | ].
  split.
  { apply H404; [ reflexivity | reflexivity | ].
    intros t [ <- | [ <- | [] ] ]; discriminate. }
  split; [ apply (H403 Sample.lunch); [ reflexivity | discriminate ] | ].
  destruct (H204 Sample.lunch eq_refl eq_refl) as (Hstatus & Hgone & _).
  split; assumption.
Defined.

(* ================================================================= *)
(** ** Listing when the store fails *)

(** C10, as the claim has it, fails twice: the listing of transactions
    answers a missing relation with 500, and the listing of goals answers a
    failure that is not a missing relation with an empty list. *)
Lemma listing_fallback_counterexample :
  let db := Sample.store [Sample.lunch] [] in
  get_transactions Sample.asAlice
    (Sample.failing db Transactions Sample.transactions_missing)
  = status_json 500 (JMessage "Ошибка сервера")
  /\ get_goals Sample.asAlice (Sample.failing db Goals "connection terminated")
     = json (JGoals []).
Proof.
  split; reflexivity.
Qed.

(** C10, amended.  Whatever error the store raises on the goals, the
    missing relation or any other, the listing of goals answers 200 with
    an empty list: the storage method turns the missing relation into an
    empty list and every other error into its own error, which the route
    then turns into an empty list as well.  The listing of transactions
    has no fallback: every error of the store is a 500. *)
Theorem listing_fallback :
  forall (user : JwtPayload.t) (db : Db) (message : string),
    (failure db Goals = Some message ->
     get_goals user db = json (JGoals [])
     /\ Storage.getUserGoals db (JwtPayload.userId user)
        = if Js.includes message goals_missing then Ok []
          else Throw (Error "Не удалось загрузить цели"))
    /\ (failure db Transactions = Some message ->
        get_transactions user db = status_json 500 (JMessage "Ошибка сервера")).
Proof.
  intros user db message. split; intro H.
  - unfold get_goals, Storage.getUserGoals, statement. rewrite H. simpl.
    destruct (Js.includes message goals_missing); split; reflexivity.
  - unfold get_transactions, Storage.getUserTransactions, statement.
    now rewrite H.
Qed.

Lemma listing_fallback_witness :
  let db := Sample.store [Sample.lunch] [] in
  get_goals Sample.asAlice (Sample.failing db Goals goals_missing) = json (JGoals [])
  /\ get_goals Sample.asAlice (Sample.failing db Goals "connection terminated")
     = json (JGoals [])
  /\ get_transactions Sample.asAlice
       (Sample.failing db Transactions Sample.transactions_missing)
     = status_json 500 (JMessage "Ошибка сервера").
Proof.
  intro db.
  destruct (listing_fallback Sample.asAlice
              (Sample.failing db Goals goals_missing) goals_missing)
    as [Hmissing _].
  destruct (listing_fallback Sample.asAlice
              (Sample.failing db Goals "connection terminated")
              "connection terminated") as [Hother _].
  destruct (listing_fallback Sample.asAlice
              (Sample.failing db Transactions Sample.transactions_missing)
              Sample.transactions_missing) as [_ Htransactions].
  split; [ apply Hmissing; reflexivity | ].
  split; [ apply Hother; reflexivity | apply Htransactions; reflexivity ].
Defined.

(* ================================================================= *)
(** ** Sorting *)

Section SortFacts.

Context {A : Type} (cmp : A -> A -> Js.value).

Lemma insert_perm (x : A) (l : list A) : Permutation (Js.insert cmp x l) (x :: l).
Proof.
  induction l as [ | y l IH ]; simpl; [ reflexivity | ].
  destruct (Js.notAfter (cmp x y)); [ reflexivity | ].
  rewrite IH. apply perm_swap.
Qed.

Lemma sort_perm (l : list A) : Permutation (Js.sort cmp l) l.
Proof.
  induction l as [ | x l IH ]; simpl; [ reflexivity | ].
  rewrite insert_perm. now apply perm_skip.
Qed.

(** The comparator need be an order only on the elements it meets: the
    ones [within]. *)
Variable within : A -> Prop.
Variable before : A -> A -> Prop.
Hypothesis before_le :
  forall x y, within x -> within y -> Js.notAfter (cmp x y) = true -> before x y.
Hypothesis before_gt :
  forall x y, within x -> within y -> Js.notAfter (cmp x y) = false -> before y x.
Hypothesis before_trans : forall x y z, before x y -> before y z -> before x z.

Lemma insert_sorted (x : A) (l : list A) :
  within x -> Forall within l ->
  StronglySorted before l -> StronglySorted before (Js.insert cmp x l).
Proof.
  intros Hx Hl. induction 1 as [ | y l Hsorted IH Hall ]; simpl.
  - repeat constructor.
  - inversion Hl as [ | ? ? Hy Hl' ]; subst.
    destruct (Js.notAfter (cmp x y)) eqn:E.
    + constructor; [ now constructor | ].
      constructor; [ now apply before_le | ].
      eapply Forall_impl; [ | exact Hall ].
      intros z Hz. eapply before_trans; [ exact (@before_le x y Hx Hy E) | exact Hz ].
    + constructor; [ now apply IH | ].
      eapply Permutation_Forall; [ symmetry; apply insert_perm | ].
      constructor; [ now apply before_gt | exact Hall ].
Qed.

Lemma sort_sorted (l : list A) :
  Forall within l -> StronglySorted before (Js.sort cmp l).
Proof.
  induction 1 as [ | x l Hx Hl IH ]; simpl; [ constructor | ].
  apply insert_sorted; trivial.
  eapply Permutation_Forall; [ symmetry; apply sort_perm | exact Hl ].
Qed.

End SortFacts.

(** Sorting commutes with a map that the comparators agree on. *)
Lemma sort_map {A B : Type} (f : A -> B) (cmpA : A -> A -> Js.value)
    (cmpB : B -> B -> Js.value) (l : list A) :
  (forall x y, cmpB (f x) (f y) = cmpA x y) ->
  Js.sort cmpB (map f l) = map f (Js.sort cmpA l).
Proof.
  intro Hcmp. induction l as [ | x l IH ]; simpl; trivial.
  rewrite IH. generalize (Js.sort cmpA l) as sorted.
  induction sorted as [ | y sorted IHs ]; simpl; trivial.
  rewrite Hcmp. destruct (Js.notAfter (cmpA x y)); simpl; trivial.
  now rewrite IHs.
Qed.

Lemma notAfter_difference (x y : Z) :
  Js.notAfter (Js.Num (inject_Z (x - y))) = (x <=? y).
Proof.
  simpl. destruct (Z.leb_spec x y) as [ H | H ].
  - apply Qle_bool_iff. change 0%Q with (inject_Z 0). rewrite <- Zle_Qle. lia.
  - destruct (Qle_bool (inject_Z (x - y)) 0) eqn:E; trivial.
    apply Qle_bool_iff in E. change 0%Q with (inject_Z 0) in E.
    rewrite <- Zle_Qle in E. lia.
Qed.

Lemma orderBy_desc_perm {A : Type} (column : A -> Z) (rows : list A) :
  Permutation (orderBy_desc column rows) rows.
Proof. apply sort_perm. Qed.

Lemma orderBy_desc_sorted {A : Type} (column : A -> Z) (rows : list A) :
  StronglySorted (fun a b => column b <= column a) (orderBy_desc column rows).
Proof.
  apply (@sort_sorted _ _ (fun _ => True)).
  - intros x y _ _ H. rewrite notAfter_difference in H. lia.
  - intros x y _ _ H. rewrite notAfter_difference in H. lia.
  - intros x y z; lia.
  - apply Forall_forall. trivial.
Qed.

(* ================================================================= *)
(** ** Active goals *)

(** C9.  When the store serves the goals, the active goals of the caller
    are, each as often as it is stored, the caller's goals whose target
    amount is greater than the amount saved and whose target date is null
    or not on a day before today; they are listed newest first. *)
Theorem activeGoals_exact_and_newest_first :
  forall (now : Z) (user : JwtPayload.t) (db : Db),
    failure db Goals = None ->
    exists (rows : list Goal.t) (keep : Goal.t -> bool),
      Storage.getActiveGoals now db (JwtPayload.userId user) = Ok rows
      /\ get_goals_active now user db = json (JGoals rows)
      /\ (forall g : Goal.t,
            keep g = true
            <-> Spec.active (JwtPayload.userId user) (Js.dayNumber now) g)
      /\ Permutation rows (filter keep (goals db))
      /\ (forall g : Goal.t,
            In g rows
            <-> In g (goals db)
                /\ Spec.active (JwtPayload.userId user) (Js.dayNumber now) g)
      /\ Spec.newestFirst rows.
Proof.
  intros now user db Hdb.
  unfold get_goals_active, Storage.getActiveGoals, statement. rewrite Hdb.
  eexists. eexists. split; [ reflexivity | ]. split; [ reflexivity | ].
  match goal with
  | |- context [filter ?f (goals db)] =>
      assert (Hkeep : forall g, f g = true
                <-> Spec.active (JwtPayload.userId user) (Js.dayNumber now) g)
  end.
  { intro g. unfold Spec.active.
    rewrite !andb_true_iff, Z.eqb_eq.
    destruct (lt_reflect (Goal.currentSaved g) (Goal.targetAmount g));
      destruct (Goal.targetDate g) as [ d | ].
    - rewrite Z.leb_le. split.
      + intros [[Hu _] Hd]. repeat split; trivial.
        intros d' [= <-]. lia.
      + intros (Hu & _ & Hd). repeat split; trivial.
        specialize (Hd d eq_refl). lia.
    - split.
      + intros [[Hu _] _]. repeat split; trivial. discriminate.
      + intros (Hu & _ & _). repeat split; trivial.
    - split; [ intros [[_ Hf] _]; discriminate | tauto ].
    - split; [ intros [[_ Hf] _]; discriminate | tauto ]. }
  split; [ exact Hkeep | ].
  split; [ apply orderBy_desc_perm | ].
  split; [ | apply orderBy_desc_sorted ].
  intro g. split.
  - intro H. apply (Permutation_in _ (orderBy_desc_perm _ _)) in H.
    apply filter_In in H. destruct H as [Hin Hk].
    split; [ exact Hin | apply Hkeep, Hk ].
  - intros [Hin Hact].
    apply (Permutation_in _ (Permutation_sym (orderBy_desc_perm _ _))).
    apply filter_In. split; [ exact Hin | apply Hkeep, Hact ].
Qed.

Lemma activeGoals_exact_and_newest_first_witness :
  exists rows : list Goal.t,
    Storage.getActiveGoals Sample.now (Sample.store [] Sample.someGoals) 1 = Ok rows
    /\ map Goal.name rows = ["Camera"; "Course"; "Bike"]
    /\ Spec.newestFirst rows.
Proof.
  destruct (@activeGoals_exact_and_newest_first Sample.now Sample.asAlice
              (Sample.store [] Sample.someGoals) eq_refl)
    as (rows & keep & Hrows & _ & _ & _ & _ & Hsorted).
  exists rows. split; [ exact Hrows | ]. split; [ | exact Hsorted ].
  vm_compute in Hrows. injection Hrows as <-. reflexivity.
Defined.

(* ================================================================= *)
(** ** Sums and rounding *)

Lemma reduce_added {A : Type} (stored read : A -> Q) (rows : list A) (init : Q) :
  (forall t : A, read t = Js.number (stored t)) ->
  Js.reduce (fun sum t => Js.plus sum (read t)) init rows
  = Spec.addedTo init (map stored rows).
Proof.
  intro H. unfold Js.reduce, Spec.addedTo. revert init.
  induction rows as [ | t rows IH ]; intro init; cbn [fold_left map]; trivial.
  rewrite H. apply IH.
Qed.

Lemma reduce_amounts (rows : list Transaction.t) :
  Js.reduce (fun sum t => Js.plus sum (Storage.amountOf t)) 0%Q rows
  = Spec.added (map Transaction.amount rows).
Proof. apply reduce_added. reflexivity. Qed.

Lemma reduce_ecoImpacts (rows : list Transaction.t) :
  Js.reduce (fun sum t => Js.plus sum (Storage.ecoImpactOrZero t)) 0%Q rows
  = Spec.added (Spec.ecoImpacts rows).
Proof.
  apply reduce_added. intro t. unfold Storage.ecoImpactOrZero.
  destruct (Transaction.ecoImpact t); reflexivity.
Qed.

Lemma sum_nonneg (xs : list Q) :
  Forall (fun v => (0 <= v)%Q) xs -> (0 <= Spec.sum xs)%Q.
Proof.
  induction 1 as [ | x xs Hx Hxs IH ]; simpl; lra.
Qed.

(** Sums in binary64 of numbers that are not negative are not negative,
    and they do not decrease when more is added. *)
Lemma addedTo_nonneg (xs : list Q) (init : Q) :
  (0 <= init)%Q ->
  Forall (fun x => (0 <= Js.number x)%Q) xs ->
  (0 <= Spec.addedTo init xs)%Q.
Proof.
  intros Hinit H. unfold Spec.addedTo. revert init Hinit.
  induction H as [ | x xs Hx Hxs IH ]; intros init Hinit; cbn [fold_left]; trivial.
  apply IH. apply number_nonneg. lra.
Qed.

Lemma addedTo_number (xs : list Q) (init : Q) :
  Js.number init = init -> Js.number (Spec.addedTo init xs) = Spec.addedTo init xs.
Proof.
  unfold Spec.addedTo. revert init.
  induction xs as [ | x xs IH ]; intros init Hinit; cbn [fold_left]; trivial.
  apply IH, plus_idem.
Qed.

Lemma added_number (xs : list Q) : Js.number (Spec.added xs) = Spec.added xs.
Proof. apply addedTo_number. reflexivity. Qed.

Lemma addedTo_grows (xs : list Q) (init : Q) :
  Js.number init = init ->
  Forall (fun x => (0 <= Js.number x)%Q) xs ->
  (init <= Spec.addedTo init xs)%Q.
Proof.
  intros Hinit H. unfold Spec.addedTo. revert init Hinit.
  induction H as [ | x xs Hx Hxs IH ]; intros init Hinit; cbn [fold_left].
  - apply Qle_refl.
  - eapply Qle_trans; [ | apply IH, plus_idem ].
    rewrite <- Hinit at 1. apply number_le. lra.
Qed.

(** Whole numbers that stay within 2^53 are added without rounding. *)
Lemma addedTo_exact (xs : list Q) :
  forall (init : Q) (a : Z),
    init = inject_Z a ->
    0 <= a ->
    Forall (fun x => exists k : Z, 0 <= k /\ (x == inject_Z k)%Q) xs ->
    (init + Spec.sum xs <= inject_Z (2 ^ 53))%Q ->
    (Spec.addedTo init xs == init + Spec.sum xs)%Q.
Proof.
  unfold Spec.addedTo. induction xs as [ | x xs IH ]; intros init a Hinit Ha Hxs Hsum.
  - simpl. ring.
  - inversion Hxs as [ | ? ? (k & Hk & Hx) Hrest ]; subst.
    assert (Hnonneg : (0 <= Spec.sum xs)%Q).
    { apply sum_nonneg. eapply Forall_impl; [ | exact Hrest ].
      intros y (j & Hj & ->). change 0%Q with (inject_Z 0).
      rewrite <- Zle_Qle. exact Hj. }
    cbn [Spec.sum fold_right] in Hsum. fold (Spec.sum xs) in Hsum.
    assert (Hbound : (inject_Z (a + k) <= inject_Z (2 ^ 53))%Q).
    { rewrite inject_Z_plus, <- Hx. lra. }
    rewrite <- Zle_Qle in Hbound.
    assert (Hread : Js.number x = inject_Z k).
    { rewrite (number_comp _ _ Hx). apply number_Z. lia. }
    assert (Hplus : Js.plus (inject_Z a) (Js.number x) = inject_Z (a + k)).
    { rewrite Hread. unfold Js.plus.
      rewrite (number_comp _ (inject_Z (a + k))) by (now rewrite inject_Z_plus).
      apply number_Z. lia. }
    cbn [fold_left Spec.sum fold_right]. fold (Spec.sum xs). rewrite Hplus.
    rewrite (IH (inject_Z (a + k)) (a + k)); try easy; try lia.
    + rewrite inject_Z_plus, Hx. ring.
    + rewrite inject_Z_plus, <- Hx. lra.
Qed.

Lemma added_exact (xs : list Q) : Spec.whole xs -> (Spec.added xs == Spec.sum xs)%Q.
Proof.
  intros [Hxs Hsum]. unfold Spec.added.
  rewrite (@addedTo_exact xs 0%Q 0); try easy.
  - ring.
  - lra.
Qed.

Lemma Math_max_0_round (x : Q) :
  Js.Math_max 0 (Js.Math_round x) = Spec.roundedOrZero x.
Proof.
  unfold Js.Math_max, Js.Math_round, Spec.roundedOrZero.
  destruct (Qle_bool 0 (inject_Z (Qfloor (x + (1 # 2))))) eqn:E.
  - apply Qle_bool_iff in E. change 0%Q with (inject_Z 0) in E.
    rewrite <- Zle_Qle in E. now rewrite Z.max_r.
  - assert (H : ~ (0 <= Qfloor (x + (1 # 2)))).
    { intro H. rewrite Zle_Qle in H. apply Qle_bool_iff in H.
      change (inject_Z 0) with 0%Q in H. congruence. }
    rewrite Z.max_l by lia. reflexivity.
Qed.

Lemma floor_half_le (y : Q) (n : Z) :
  (y <= inject_Z n)%Q -> Qfloor (y + (1 # 2)) <= n.
Proof.
  intro H. pose proof (Qfloor_le (y + (1 # 2))) as Hbelow.
  assert (Hlt : (inject_Z (Qfloor (y + (1 # 2))) < inject_Z (n + 1))%Q).
  { rewrite inject_Z_plus. change (inject_Z 1) with 1%Q. lra. }
  rewrite <- Zlt_Qlt in Hlt. lia.
Qed.

Lemma floor_half_ge (y : Q) (n : Z) :
  (inject_Z n <= y)%Q -> n <= Qfloor (y + (1 # 2)).
Proof.
  intro H. pose proof (Qlt_floor (y + (1 # 2))) as Habove.
  assert (Hlt : (inject_Z n < inject_Z (Qfloor (y + (1 # 2)) + 1))%Q) by lra.
  rewrite <- Zlt_Qlt in Hlt. lia.
Qed.

(** The reduction does not grow with the total. *)
Lemma reduction_antitone (a b : Q) :
  (a <= b)%Q ->
  (Js.times (Js.over (Js.minus 500 b) 500) 100
   <= Js.times (Js.over (Js.minus 500 a) 500) 100)%Q.
Proof.
  intro H. unfold Js.times, Js.over, Js.minus.
  apply number_le. apply Qmult_le_compat_r; [ | discriminate ].
  apply number_le. unfold Qdiv. apply Qmult_le_compat_r; [ | discriminate ].
  apply number_le. lra.
Qed.

Lemma Math_round_compat (x y : Q) : (x == y)%Q -> Js.Math_round x = Js.Math_round y.
Proof. intro H. unfold Js.Math_round. now rewrite H. Qed.

Lemma Math_round_nearest (x : Q) :
  (x - (1 # 2) < Js.Math_round x /\ Js.Math_round x <= x + (1 # 2))%Q.
Proof.
  unfold Js.Math_round. split.
  - pose proof (Qlt_floor (x + (1 # 2))) as H.
    rewrite inject_Z_plus in H. change (inject_Z 1) with 1%Q in H. lra.
  - apply Qfloor_le.
Qed.

Lemma ecoRating_compat (x y : Q) : (x == y)%Q -> Storage.ecoRating x = Storage.ecoRating y.
Proof. intro H. unfold Storage.ecoRating. now rewrite !(lt_compat _ H). Qed.

(* ================================================================= *)
(** ** The dashboard *)

Lemma ofMonth_reflect (userId month year : Z) (t : Transaction.t) :
  ((Transaction.userId t =? userId)
   && (Storage.EXTRACT_MONTH (Transaction.date t) =? month)
   && (Storage.EXTRACT_YEAR (Transaction.date t) =? year)) = true
  <-> Spec.ofMonth userId year (month - 1) t.
Proof.
  unfold Spec.ofMonth, Storage.EXTRACT_MONTH, Storage.EXTRACT_YEAR.
  rewrite !andb_true_iff, !Z.eqb_eq. intuition lia.
Qed.

(** C6, as the claim has it, fails: the sums and the quotient are formed
    in binary64.  Incomes of 0.1 and 0.2 give a monthly income of
    0.30000000000000004, not their sum; and eco impacts of 427.5 in all
    give a reduction of 14, not max (0, round ((500 - 427.5) / 500 * 100)),
    which is 15, because the quotient is rounded to the binary64 number
    next below 0.145 and the product to 14.499999999999998. *)
Lemma dashboardStats_current_month_counterexample :
  (exists stats : DashboardStats,
      Storage.getDashboardStats Sample.now (Sample.store Sample.tenths []) 1 = Ok stats
      /\ (Spec.sum (Spec.amounts income Sample.tenths) == 3 # 10)%Q
      /\ monthlyIncome stats = (1351079888211149 # 4503599627370496)%Q
      /\ ~ (monthlyIncome stats == Spec.sum (Spec.amounts income Sample.tenths))%Q)
  /\ (exists stats : DashboardStats,
         Storage.getDashboardStats Sample.now (Sample.store Sample.heating []) 1
         = Ok stats
         /\ (Spec.sum (Spec.ecoImpacts Sample.heating) == 4275 # 10)%Q
         /\ co2Reduction stats = 14%Q
         /\ Spec.roundedOrZero
              ((500 - Spec.sum (Spec.ecoImpacts Sample.heating)) / 500 * 100)
            = 15%Q).
Proof.
  split; eexists; (split; [ vm_compute; reflexivity | ]);
    cbn [monthlyIncome co2Reduction]; repeat split;
    try (vm_compute; reflexivity).
  intro H. vm_compute in H. discriminate.
Qed.

(** C6, amended.  When the store serves the transactions, the dashboard
    is computed from the caller's transactions dated in the calendar month
    and year of the clock, and from nothing else: the income and the
    expenses of the month are their amounts added in binary64, in the
    order of the store, the balance is the binary64 difference, the CO2
    reduction is max (0, round (x)) for the binary64 value x of
    (500 - total) / 500 * 100, where the total is their eco impacts added
    in binary64, and the count is their number.  Whole amounts that add up
    to at most 2^53 are added without rounding: then the income and the
    expenses are the sums of the amounts. *)
Theorem dashboardStats_current_month :
  forall (now : Z) (user : JwtPayload.t) (db : Db),
    failure db Transactions = None ->
    exists (stats : DashboardStats) (keep : Transaction.t -> bool),
      let current := filter keep (transactions db) in
      let totalCo2 := Spec.added (Spec.ecoImpacts current) in
      Storage.getDashboardStats now db (JwtPayload.userId user) = Ok stats
      /\ get_dashboard_stats now user db = json (JDashboardStats stats)
      /\ (forall t : Transaction.t,
            keep t = true
            <-> Spec.ofMonth (JwtPayload.userId user)
                  (Js.getFullYear now) (Js.getMonth now) t)
      /\ monthlyIncome stats = Spec.added (Spec.amounts income current)
      /\ monthlyExpenses stats = Spec.added (Spec.amounts expense current)
      /\ totalBalance stats = Js.minus (monthlyIncome stats) (monthlyExpenses stats)
      /\ co2Reduction stats
         = Spec.roundedOrZero
             (Js.times (Js.over (Js.minus 500 totalCo2) 500) 100)
      /\ ds_totalTransactions stats = Z.of_nat (List.length current)
      /\ (Spec.whole (Spec.amounts income current) ->
          (monthlyIncome stats == Spec.sum (Spec.amounts income current))%Q)
      /\ (Spec.whole (Spec.amounts expense current) ->
          (monthlyExpenses stats == Spec.sum (Spec.amounts expense current))%Q).
Proof.
  intros now user db Hdb.
  unfold get_dashboard_stats, Storage.getDashboardStats, statement. rewrite Hdb.
  cbn [bind]. eexists. eexists. cbn zeta.
  split; [ reflexivity | ]. split; [ reflexivity | ].
  split.
  { intro t. rewrite ofMonth_reflect.
    replace (Js.getMonth now + 1 - 1) with (Js.getMonth now) by lia.
    reflexivity. }
  cbn [monthlyIncome monthlyExpenses totalBalance co2Reduction ds_totalTransactions].
  unfold Spec.amounts. rewrite !reduce_amounts, reduce_ecoImpacts, Math_max_0_round.
  do 5 (split; [ reflexivity | ]).
  split; apply added_exact.
Qed.

Lemma dashboardStats_current_month_witness :
  exists stats : DashboardStats,
    Storage.getDashboardStats Sample.now (Sample.store Sample.march []) 1 = Ok stats
    /\ monthlyIncome stats = 100%Q
    /\ monthlyExpenses stats = 40%Q
    /\ totalBalance stats = 60%Q
    /\ co2Reduction stats = 98%Q
    /\ ds_totalTransactions stats = 2.
Proof.
  destruct (@dashboardStats_current_month Sample.now Sample.asAlice
              (Sample.store Sample.march []) eq_refl)
    as (stats & keep & Hstats & _).
  exists stats. split; [ exact Hstats | ].
  vm_compute in Hstats. injection Hstats as <-.
  repeat split; reflexivity.
Defined.

(** The three statistics rate the total of the eco impacts of the rows they
    read with the one function [Storage.ecoRating]. *)
Lemma statistics_rate_the_total (now : Z) (db : Db) (userId month year : Z) :
  failure db Transactions = None ->
  failure db Users = None ->
  let total (keep : Transaction.t -> bool) :=
    Spec.added (Spec.ecoImpacts (filter keep (transactions db))) in
  (exists stats keep,
      Storage.getUserStats now db userId = Ok stats
      /\ (forall t, keep t = true <-> Transaction.userId t = userId)
      /\ us_ecoRating stats = Storage.ecoRating (total keep))
  /\ (exists stats keep,
         Storage.getDashboardStats now db userId = Ok stats
         /\ (forall t, keep t = true
                       <-> Spec.ofMonth userId (Js.getFullYear now) (Js.getMonth now) t)
         /\ ds_ecoRating stats = Storage.ecoRating (total keep))
  /\ (exists report keep,
         Storage.getMonthlyReport db userId month year = Ok report
         /\ (forall t, keep t = true <-> Spec.ofMonth userId year (month - 1) t)
         /\ rating (ecoMetrics report) = Storage.ecoRating (total keep)
         /\ totalCo2 (ecoMetrics report) = total keep).
Proof.
  intros Htransactions Husers total. subst total.
  unfold Storage.getUserStats, Storage.getDashboardStats, Storage.getMonthlyReport,
    statement.
  rewrite Htransactions, Husers. cbn [bind].
  split; [ | split ].
  - eexists. eexists. split; [ reflexivity | ].
    split; [ intro t; apply Z.eqb_eq | ].
    cbn [us_ecoRating]. now rewrite reduce_ecoImpacts.
  - eexists. eexists. split; [ reflexivity | ].
    split.
    + intro t. rewrite ofMonth_reflect.
      replace (Js.getMonth now + 1 - 1) with (Js.getMonth now) by lia.
      reflexivity.
    + cbn [ds_ecoRating]. now rewrite reduce_ecoImpacts.
  - eexists. eexists. split; [ reflexivity | ].
    split; [ intro t; apply ofMonth_reflect | ].
    cbn [rating totalCo2 ecoMetrics]. now rewrite reduce_ecoImpacts.
Qed.

(** The total that is rated is the rounded one: eco impacts of 0.01, 0.14,
    36.73 and 13.12 add up to 49.99999999999999 in binary64, which is
    rated "A+", while their sum, 50, would be rated "A". *)
Remark rating_of_a_rounded_total :
  let impacts := [1 # 100; 14 # 100; 3673 # 100; 1312 # 100]%Q in
  (Spec.sum impacts == 50)%Q
  /\ Spec.added impacts = (7036874417766399 # 140737488355328)%Q
  /\ Storage.ecoRating (Spec.added impacts) = "A+"
  /\ Storage.ecoRating (Spec.sum impacts) = "A".
Proof.
  repeat split; vm_compute; reflexivity.
Qed.

(* ================================================================= *)
(** ** Objects used as maps *)

Section OwnProperties.

Context {V : Type}.

Lemma own_setOwn (o : Obj.t V) (k k' : string) (v : V) :
  Obj.own (Obj.setOwn o k v) k' = if String.eqb k k' then Some v else Obj.own o k'.
Proof.
  induction o as [ | [k0 v0] o IH ]; simpl.
  - reflexivity.
  - destruct (String.eqb_spec k0 k) as [ -> | Hk0 ]; simpl.
    + destruct (String.eqb k k'); reflexivity.
    + rewrite IH. destruct (String.eqb_spec k0 k') as [ -> | ]; trivial.
      destruct (String.eqb_spec k k'); congruence.
Qed.

Lemma own_None (o : Obj.t V) (k : string) :
  Obj.own o k = None <-> ~ In k (map fst o).
Proof.
  induction o as [ | [k0 v0] o IH ]; simpl.
  - tauto.
  - destruct (String.eqb_spec k0 k); [ | tauto ].
    split; [ discriminate | tauto ].
Qed.

Lemma setOwn_keys (o : Obj.t V) (k : string) (v : V) :
  map fst (Obj.setOwn o k v)
  = match Obj.own o k with
    | Some _ => map fst o
    | None => (map fst o ++ [k])%list
    end.
Proof.
  induction o as [ | [k0 v0] o IH ]; simpl.
  - reflexivity.
  - destruct (String.eqb_spec k0 k); simpl; trivial.
    rewrite IH. destruct (Obj.own o k); reflexivity.
Qed.

Lemma setOwn_NoDup (o : Obj.t V) (k : string) (v : V) :
  NoDup (map fst o) -> NoDup (map fst (Obj.setOwn o k v)).
Proof.
  intro H. rewrite setOwn_keys. destruct (Obj.own o k) eqn:E; trivial.
  apply own_None in E.
  apply (Permutation_NoDup (l := k :: map fst o)).
  - apply Permutation_cons_append.
  - now constructor.
Qed.

Lemma In_own (o : Obj.t V) (k : string) (v : V) :
  NoDup (map fst o) -> In (k, v) o -> Obj.own o k = Some v.
Proof.
  induction o as [ | [k0 v0] o IH ]; simpl; [ tauto | ].
  intros Hnd [ [= -> ->] | Hin ].
  - now rewrite String.eqb_refl.
  - inversion Hnd as [ | ? ? Hnotin Hnd' ]; subst.
    destruct (String.eqb_spec k0 k) as [ -> | ]; [ | now apply IH ].
    exfalso. apply Hnotin. now apply (in_map fst) in Hin.
Qed.

Lemma filter_partition (f : string * V -> bool) (o : Obj.t V) :
  Permutation (filter f o ++ filter (fun e => negb (f e)) o) o.
Proof.
  induction o as [ | e o IH ]; simpl; [ reflexivity | ].
  destruct (f e); simpl.
  - now apply perm_skip.
  - rewrite <- Permutation_middle. now apply perm_skip.
Qed.

Lemma entries_perm (o : Obj.t V) : Permutation (Obj.entries o) o.
Proof.
  unfold Obj.entries. rewrite sort_perm.
  apply (filter_partition (fun e => Obj.isIndex (fst e))).
Qed.

End OwnProperties.

Lemma addExpense_NoDup (rows : list Transaction.t) (acc : Obj.t Q) :
  NoDup (map fst acc) -> NoDup (map fst (fold_left Spec.addExpense rows acc)).
Proof.
  revert acc. induction rows as [ | t rows IH ]; intros acc H; simpl; trivial.
  apply IH. now apply setOwn_NoDup.
Qed.

(** The accumulator holds under a label what the rows of the label add to
    what it held, in their order. *)
Lemma addExpense_own (rows : list Transaction.t) (acc : Obj.t Q) (k : string) :
  Spec.ownOrZero (fold_left Spec.addExpense rows acc) k
  = Spec.addedTo (Spec.ownOrZero acc k)
      (map Transaction.amount
         (filter (fun t => String.eqb (Transaction.category t) k) rows)).
Proof.
  revert acc. unfold Spec.addedTo.
  induction rows as [ | t rows IH ]; intro acc; cbn [fold_left filter]; trivial.
  rewrite IH. unfold Spec.addExpense at 1, Spec.ownOrZero at 1.
  rewrite own_setOwn. fold (Spec.ownOrZero acc (Transaction.category t)).
  destruct (String.eqb_spec (Transaction.category t) k) as [ -> | ];
    cbn [map fold_left]; reflexivity.
Qed.

(* ================================================================= *)
(** ** The accumulator holds numbers when the labels are ordinary *)

Lemma own_numbers (acc : Obj.t Q) (k : string) :
  Obj.own (Spec.numbers acc) k = option_map Js.Num (Obj.own acc k).
Proof.
  induction acc as [ | [k0 v0] acc IH ]; simpl; trivial.
  destruct (String.eqb k0 k); trivial.
Qed.

Lemma setOwn_numbers (acc : Obj.t Q) (k : string) (v : Q) :
  Obj.setOwn (Spec.numbers acc) k (Js.Num v) = Spec.numbers (Obj.setOwn acc k v).
Proof.
  induction acc as [ | [k0 v0] acc IH ]; simpl; trivial.
  destruct (String.eqb k0 k); simpl; trivial. now rewrite IH.
Qed.

Lemma ordinary_not_inherited (k : string) :
  Spec.ordinary k -> existsb (String.eqb k) Obj.inherited = false.
Proof.
  intro H. destruct (existsb (String.eqb k) Obj.inherited) eqn:E; trivial.
  apply existsb_exists in E. destruct E as (k' & Hin & Heq).
  apply String.eqb_eq in Heq. subst k'. contradiction.
Qed.

Lemma ordinary_not_proto (k : string) :
  Spec.ordinary k -> String.eqb k "__proto__" = false.
Proof.
  intro H. destruct (String.eqb_spec k "__proto__") as [ -> | ]; trivial.
  exfalso. apply H. unfold Obj.inherited. simpl. tauto.
Qed.

Lemma addExpense_numbers (acc : Obj.t Q) (t : Transaction.t) :
  Spec.ordinary (Transaction.category t) ->
  Storage.addExpense (Spec.numbers acc) t = Spec.numbers (Spec.addExpense acc t).
Proof.
  intro H. unfold Storage.addExpense, Spec.addExpense, Obj.set, Obj.get.
  rewrite (ordinary_not_proto H), (ordinary_not_inherited H), own_numbers.
  unfold Spec.ownOrZero.
  destruct (Obj.own acc (Transaction.category t)); simpl;
    apply setOwn_numbers.
Qed.

Lemma reduce_addExpense_numbers (rows : list Transaction.t) (acc : Obj.t Q) :
  Forall (fun t => Spec.ordinary (Transaction.category t)) rows ->
  Js.reduce Storage.addExpense (Spec.numbers acc) rows
  = Spec.numbers (fold_left Spec.addExpense rows acc).
Proof.
  unfold Js.reduce. intro H. revert acc.
  induction H as [ | t rows Ht Hrows IH ]; intro acc; simpl; trivial.
  rewrite (@addExpense_numbers acc t Ht). apply IH.
Qed.

Lemma filter_numbers (f : string -> bool) (acc : Obj.t Q) :
  filter (fun e => f (fst e)) (Spec.numbers acc)
  = Spec.numbers (filter (fun e => f (fst e)) acc).
Proof.
  induction acc as [ | [k v] acc IH ]; simpl; trivial.
  destruct (f k); simpl; now rewrite IH.
Qed.

Lemma entries_numbers (acc : Obj.t Q) :
  Obj.entries (Spec.numbers acc) = Spec.numbers (Obj.entries acc).
Proof.
  unfold Obj.entries.
  rewrite (filter_numbers Obj.isIndex),
          (filter_numbers (fun k => negb (Obj.isIndex k))).
  unfold Spec.numbers at 3. rewrite map_app. f_equal.
  apply sort_map. reflexivity.
Qed.

Lemma toTopCategory_numbers (expenses : Q) (entries : Obj.t Q) :
  ~ (expenses == 0)%Q \/ entries = [] ->
  map (Storage.toTopCategory expenses) (Spec.numbers entries)
  = map Spec.asTopCategory (map (Spec.toShare expenses) entries).
Proof.
  intros [ H | -> ]; [ | reflexivity ].
  unfold Spec.numbers. rewrite !map_map. apply map_ext. intros [k v].
  unfold Storage.toTopCategory, Spec.asTopCategory, Spec.toShare. simpl.
  destruct (Qeq_bool expenses 0) eqn:E; [ | reflexivity ].
  apply Qeq_bool_iff in E. contradiction.
Qed.

(* ================================================================= *)
(** ** Prefixes, permutations and sums *)

Lemma firstn_incl {A : Type} (n : nat) (l : list A) (x : A) :
  In x (firstn n l) -> In x l.
Proof.
  intro H. rewrite <- (firstn_skipn n l). apply in_or_app. now left.
Qed.

Lemma firstn_StronglySorted {A : Type} (R : A -> A -> Prop) (n : nat) (l : list A) :
  StronglySorted R l -> StronglySorted R (firstn n l).
Proof.
  intro H. revert n. induction H as [ | x l Hs IH Hall ]; intro n.
  - rewrite firstn_nil. constructor.
  - destruct n as [ | n ]; simpl; constructor.
    + apply IH.
    + apply Forall_forall. intros y Hy. apply firstn_incl in Hy.
      revert y Hy. now apply Forall_forall.
Qed.

Lemma firstn_NoDup {A : Type} (n : nat) (l : list A) :
  NoDup l -> NoDup (firstn n l).
Proof.
  intro H. revert n. induction H as [ | x l Hx Hs IH ]; intro n.
  - rewrite firstn_nil. constructor.
  - destruct n as [ | n ]; simpl; constructor.
    + intro Hin. apply Hx. now apply firstn_incl in Hin.
    + apply IH.
Qed.

(** The first row that reads as a positive number makes the sum positive,
    and it stays so. *)
Lemma added_positive (xs : list Q) :
  xs <> [] -> Forall (fun x => (0 < Js.number x)%Q) xs -> (0 < Spec.added xs)%Q.
Proof.
  destruct xs as [ | x xs ]; [ congruence | ]. intros _ H.
  inversion H as [ | ? ? Hx Hxs ]; subst.
  unfold Spec.added, Spec.addedTo. cbn [fold_left].
  fold (Spec.addedTo (Js.plus 0 (Js.number x)) xs).
  eapply Qlt_le_trans; [ | apply addedTo_grows; [ apply plus_idem | ] ].
  - unfold Js.plus.
    rewrite (number_comp (0 + Js.number x) (Js.number x)) by ring.
    rewrite number_idem. exact Hx.
  - eapply Forall_impl; [ | exact Hxs ]. intros y Hy. now apply Qlt_le_weak.
Qed.

(** What is added for some of the rows is at most what is added for all
    of them. *)
Lemma addedTo_filter_le (p : Transaction.t -> bool) (rows : list Transaction.t) :
  Forall (fun t => (0 <= Storage.amountOf t)%Q) rows ->
  forall init init' : Q,
    (init <= init')%Q ->
    Js.number init' = init' ->
    (Spec.addedTo init (map Transaction.amount (filter p rows))
     <= Spec.addedTo init' (map Transaction.amount rows))%Q.
Proof.
  unfold Spec.addedTo.
  induction 1 as [ | t rows Ht Hrows IH ]; intros init init' Hle Hnum;
    cbn [filter map fold_left].
  - exact Hle.
  - destruct (p t); cbn [map fold_left].
    + apply IH; [ apply plus_le; [ exact Hle | apply Qle_refl ] | apply plus_idem ].
    + apply IH; [ | apply plus_idem ].
      eapply Qle_trans; [ exact Hle | ].
      rewrite <- Hnum at 1. apply number_le. unfold Storage.amountOf in Ht. lra.
Qed.

Lemma Math_round_range (y : Q) (lo hi : Z) :
  (inject_Z lo <= y <= inject_Z hi)%Q ->
  (inject_Z lo <= Js.Math_round y <= inject_Z hi)%Q.
Proof.
  intros [Hlo Hhi]. unfold Js.Math_round. rewrite <- !Zle_Qle.
  pose proof (Qfloor_le (y + (1 # 2))) as Hbelow.
  pose proof (Qlt_floor (y + (1 # 2))) as Habove.
  assert (H1 : (inject_Z lo < inject_Z (Qfloor (y + (1 # 2)) + 1))%Q) by lra.
  assert (H2 : (inject_Z (Qfloor (y + (1 # 2))) < inject_Z (hi + 1))%Q).
  { rewrite inject_Z_plus. change (inject_Z 1) with 1%Q. lra. }
  rewrite <- Zlt_Qlt in H1, H2. lia.
Qed.

(** The percentage of a part of the expenses is a whole number from 0 to
    100. *)
Lemma percentage_range (amount expenses : Q) :
  (0 <= amount <= expenses)%Q ->
  (0 < expenses)%Q ->
  (0 <= Js.Math_round (Js.times (Js.over amount expenses) 100) <= 100)%Q.
Proof.
  intros [H0 Hle] Hpos.
  assert (Hq : (0 <= amount / expenses <= 1)%Q).
  { split; [ apply Qle_shift_div_l; lra | apply Qle_shift_div_r; lra ]. }
  assert (Hover : (0 <= Js.over amount expenses <= 1)%Q).
  { unfold Js.over. split; [ apply number_nonneg, Hq | ].
    apply Qle_trans with (Js.number 1); [ apply number_le, Hq | ].
    vm_compute. discriminate. }
  assert (Htimes : (0 <= Js.times (Js.over amount expenses) 100 <= 100)%Q).
  { unfold Js.times. split; [ apply number_nonneg; lra | ].
    apply Qle_trans with (Js.number 100); [ apply number_le; lra | ].
    vm_compute. discriminate. }
  apply (@Math_round_range _ 0 100). exact Htimes.
Qed.

(** The rounding of the quotient, of the product and of the percentage add
    little to 100 times the share. *)
Lemma percentage_above (amount expenses : Q) :
  (0 <= amount)%Q ->
  (0 < expenses)%Q ->
  (Js.Math_round (Js.times (Js.over amount expenses) 100)
   <= amount / expenses * (1002001 # 10000) + (6011 # 10000))%Q.
Proof.
  intros H0 Hpos.
  assert (Hq : (0 <= amount / expenses)%Q) by (apply Qle_shift_div_l; lra).
  pose proof (number_above _ Hq) as Hover.
  change (Js.number (amount / expenses)) with (Js.over amount expenses) in Hover.
  assert (Hx : (0 <= Js.over amount expenses)%Q) by (apply number_nonneg, Hq).
  assert (Hx100 : (0 <= Js.over amount expenses * 100)%Q) by lra.
  pose proof (number_above _ Hx100) as Htimes.
  change (Js.number (Js.over amount expenses * 100))
    with (Js.times (Js.over amount expenses) 100) in Htimes.
  pose proof (Math_round_nearest (Js.times (Js.over amount expenses) 100))
    as [_ Hround].
  set (q := (amount / expenses)%Q) in *.
  set (x := Js.over amount expenses) in *.
  set (y := Js.times x 100) in *.
  lra.
Qed.

Lemma sum_map_le {A : Type} (f g : A -> Q) (l : list A) :
  Forall (fun a => (f a <= g a)%Q) l ->
  (Spec.sum (map f l) <= Spec.sum (map g l))%Q.
Proof.
  induction 1 as [ | a l Ha Hl IH ]; simpl; lra.
Qed.

Lemma sum_map_plus {A : Type} (f g : A -> Q) (l : list A) :
  (Spec.sum (map (fun a => f a + g a) l) == Spec.sum (map f l) + Spec.sum (map g l))%Q.
Proof.
  induction l as [ | a l IH ]; simpl; [ | rewrite IH ]; ring.
Qed.

Lemma sum_filter_le (p : Transaction.t -> bool) (rows : list Transaction.t) :
  Forall (fun t => (0 <= Transaction.amount t)%Q) rows ->
  (0 <= Spec.sum (map Transaction.amount (filter p rows))
   <= Spec.sum (map Transaction.amount rows))%Q.
Proof.
  induction 1 as [ | t rows Ht Hrows IH ]; simpl; [ lra | ].
  destruct (p t); simpl; lra.
Qed.

(** One amount counted under the labels of a list without repetition is
    counted at most once. *)
Lemma sum_once (ks : list string) (label : string) (a : Q) :
  NoDup ks ->
  (0 <= a)%Q ->
  (Spec.sum (map (fun k => if String.eqb label k then a else 0) ks) <= a)%Q.
Proof.
  intros Hks Ha.
  assert (Hnone : forall l : list string,
             ~ In label l ->
             (Spec.sum (map (fun k => if String.eqb label k then a else 0) l) == 0)%Q).
  { induction l as [ | k l IH ]; simpl; [ reflexivity | ]. intro Hnotin.
    destruct (String.eqb_spec label k) as [ -> | _ ]; [ tauto | ].
    rewrite IH by tauto. ring. }
  induction Hks as [ | k ks Hk Hks IH ]; simpl; [ lra | ].
  destruct (String.eqb_spec label k) as [ -> | _ ].
  - rewrite (Hnone ks Hk). lra.
  - lra.
Qed.

(** The sums of the amounts under the labels of a list without repetition
    add up to at most the sum of all the amounts. *)
Lemma sum_by_label (ks : list string) (rows : list Transaction.t) :
  NoDup ks ->
  Forall (fun t => (0 <= Transaction.amount t)%Q) rows ->
  (Spec.sum
     (map (fun k =>
             Spec.sum
               (map Transaction.amount
                  (filter (fun t => String.eqb (Transaction.category t) k) rows)))
          ks)
   <= Spec.sum (map Transaction.amount rows))%Q.
Proof.
  intros Hks. induction 1 as [ | t rows Ht Hrows IH ].
  - simpl. induction ks as [ | k ks IHks ]; simpl; [ lra | ].
    inversion Hks; subst. specialize (IHks ltac:(assumption)). lra.
  - cbn [map Spec.sum fold_right]. fold (Spec.sum (map Transaction.amount rows)).
    eapply Qle_trans.
    + apply Qle_lteq. right.
      transitivity
        (Spec.sum
           (map (fun k =>
                   (if String.eqb (Transaction.category t) k
                    then Transaction.amount t else 0)
                   + Spec.sum
                       (map Transaction.amount
                          (filter (fun t => String.eqb (Transaction.category t) k)
                             rows)))%Q
                ks)); [ | apply sum_map_plus ].
      clear. induction ks as [ | k ks IHks ]; cbn [map Spec.sum fold_right filter];
        [ reflexivity | ].
      fold (Spec.sum
              (map (fun k =>
                      Spec.sum
                        (map Transaction.amount
                           (filter (fun t => String.eqb (Transaction.category t) k)
                              (t :: rows)))) ks)).
      rewrite IHks.
      destruct (String.eqb (Transaction.category t) k); simpl; unfold Spec.sum; ring.
    + pose proof (sum_once (Transaction.category t) Hks Ht). lra.
Qed.

Lemma sum_whole (xs : list Q) :
  Forall (fun x => exists n : Z, x = inject_Z n) xs ->
  exists total : Z, (Spec.sum xs == inject_Z total)%Q.
Proof.
  induction 1 as [ | x xs (n & ->) Hxs (total & IH) ].
  - exists 0. reflexivity.
  - exists (n + total). simpl. rewrite IH, inject_Z_plus. reflexivity.
Qed.

Lemma whole_filter (p : Transaction.t -> bool) (rows : list Transaction.t) :
  Spec.whole (map Transaction.amount rows) ->
  Spec.whole (map Transaction.amount (filter p rows)).
Proof.
  intros [Hrows Hsum]. rewrite Forall_map in Hrows.
  assert (Hnonneg : Forall (fun t => (0 <= Transaction.amount t)%Q) rows).
  { eapply Forall_impl; [ | exact Hrows ]. intros t (k & Hk & ->).
    change 0%Q with (inject_Z 0). now rewrite <- Zle_Qle. }
  split.
  - rewrite Forall_map. apply Forall_forall. intros t Ht.
    apply filter_In in Ht. destruct Ht as [Ht _].
    revert t Ht. now apply Forall_forall.
  - pose proof (sum_filter_le p Hnonneg). lra.
Qed.

Lemma shares_nil (expenses : Q) : Spec.shares expenses [] = [].
Proof. reflexivity. Qed.

(* ================================================================= *)
(** ** The monthly report *)

Section Shares.

Variable spent : list Transaction.t.
Variable expenses : Q.

Local Abbreviation totals := (fold_left Spec.addExpense spent []).

Lemma totals_NoDup : NoDup (map fst totals).
Proof. apply addExpense_NoDup. constructor. Qed.

Lemma totals_spentOn (k : string) (v : Q) :
  In (k, v) totals -> v = Spec.spentOn k spent.
Proof.
  intro H. apply (@In_own Q totals k v totals_NoDup) in H.
  pose proof (addExpense_own spent [] k) as Hown.
  unfold Spec.ownOrZero at 1 in Hown. rewrite H in Hown. exact Hown.
Qed.

Lemma shares_incl (s : Spec.Share) :
  In s (Spec.shares expenses spent) ->
  exists k v, In (k, v) totals /\ s = Spec.toShare expenses (k, v).
Proof.
  intro H. apply firstn_incl in H.
  apply (Permutation_in _ (sort_perm _ _)) in H.
  apply in_map_iff in H. destruct H as ([k v] & <- & Hin).
  apply (Permutation_in _ (entries_perm _)) in Hin.
  now exists k, v.
Qed.

(** The comparator subtracts binary64 numbers, and the difference of two
    of them has the sign of its exact value. *)
Lemma shares_largestFirst : Spec.largestFirst (Spec.shares expenses spent).
Proof.
  apply firstn_StronglySorted.
  apply (@sort_sorted _ _
           (fun s => Js.number (Spec.share_amount s) = Spec.share_amount s));
    unfold Spec.byAmountDesc; cbn [Js.notAfter].
  - intros x y Hx Hy H. apply Qle_bool_iff in H. now apply (minus_sign _ _ Hx Hy).
  - intros x y Hx Hy H. apply Qlt_le_weak, Qnot_le_lt. intro Hle.
    apply (minus_sign _ _ Hx Hy) in Hle. apply Qle_bool_iff in Hle. congruence.
  - intros x y z; lra.
  - apply Forall_forall. intros s Hs.
    apply in_map_iff in Hs. destruct Hs as ([k v] & <- & Hin).
    apply (Permutation_in _ (entries_perm _)) in Hin.
    apply totals_spentOn in Hin. subst v. cbn [Spec.toShare Spec.share_amount snd].
    apply added_number.
Qed.

Lemma shares_length : (List.length (Spec.shares expenses spent) <= 6)%nat.
Proof. apply firstn_le_length. Qed.

Lemma shares_NoDup : NoDup (map Spec.share_category (Spec.shares expenses spent)).
Proof.
  unfold Spec.shares, Js.slice0. rewrite <- firstn_map. apply firstn_NoDup.
  apply (Permutation_NoDup (l := map fst totals)); [ | apply totals_NoDup ].
  transitivity (map Spec.share_category (map (Spec.toShare expenses) (Obj.entries totals))).
  - rewrite map_map. simpl. apply Permutation_map. symmetry. apply entries_perm.
  - apply Permutation_map. symmetry. apply sort_perm.
Qed.

Lemma shares_entries :
  Forall (fun s =>
            Spec.share_amount s = Spec.spentOn (Spec.share_category s) spent
            /\ Spec.share_percentage s
               = Js.Math_round
                   (Js.times (Js.over (Spec.share_amount s) expenses) 100))
         (Spec.shares expenses spent).
Proof.
  apply Forall_forall. intros s Hs.
  destruct (@shares_incl s Hs) as (k & v & Hin & ->).
  cbn [Spec.toShare Spec.share_amount Spec.share_category Spec.share_percentage
       fst snd].
  split; [ now apply totals_spentOn | reflexivity ].
Qed.

Hypothesis spent_positive : Forall (fun t => (0 < Storage.amountOf t)%Q) spent.
Hypothesis expenses_added : expenses = Spec.added (map Transaction.amount spent).

Lemma expenses_positive : spent <> [] -> (0 < expenses)%Q.
Proof.
  intro H. rewrite expenses_added. apply added_positive.
  - intro Hnil. apply map_eq_nil in Hnil. contradiction.
  - rewrite Forall_map. exact spent_positive.
Qed.

Lemma shares_spent (s : Spec.Share) : In s (Spec.shares expenses spent) -> spent <> [].
Proof.
  intros Hs Hnil. rewrite Hnil, shares_nil in Hs. destruct Hs.
Qed.

Lemma spent_nonneg : Forall (fun t => (0 <= Storage.amountOf t)%Q) spent.
Proof.
  eapply Forall_impl; [ | exact spent_positive ]. intros t Ht. now apply Qlt_le_weak.
Qed.

(** No category has more than all the expenses, and no percentage is
    outside 0..100. *)
Lemma shares_range :
  Forall (fun s =>
            (0 <= Spec.share_amount s <= expenses)%Q
            /\ (0 <= Spec.share_percentage s <= 100)%Q)
         (Spec.shares expenses spent).
Proof.
  pose proof shares_entries as Hentries. rewrite Forall_forall in Hentries.
  apply Forall_forall. intros s Hs.
  destruct (Hentries s Hs) as [Hamount Hpercentage].
  assert (Hrange : (0 <= Spec.share_amount s <= expenses)%Q).
  { rewrite Hamount, expenses_added. unfold Spec.spentOn, Spec.added. split.
    - apply addedTo_nonneg; [ apply Qle_refl | ].
      rewrite Forall_map. apply Forall_forall. intros t Ht.
      apply filter_In in Ht. destruct Ht as [Ht _].
      pose proof spent_nonneg as H. rewrite Forall_forall in H. now apply H.
    - apply addedTo_filter_le; [ apply spent_nonneg | apply Qle_refl | reflexivity ]. }
  split; [ exact Hrange | ].
  rewrite Hpercentage. apply percentage_range; [ exact Hrange | ].
  apply expenses_positive, (@shares_spent s Hs).
Qed.

(** Whole amounts are added without rounding, and then the percentages
    exceed 100 only by the rounding of each. *)
Lemma shares_percentages :
  Spec.whole (map Transaction.amount spent) ->
  (Spec.sum (map Spec.share_percentage (Spec.shares expenses spent)) <= 103)%Q.
Proof.
  intro Hwhole.
  destruct (Spec.shares expenses spent) as [ | s0 rest ] eqn:E; [ simpl; lra | ].
  assert (Hspent : spent <> []).
  { apply (@shares_spent s0). rewrite E. now left. }
  rewrite <- E. clear s0 rest E.
  pose proof (expenses_positive Hspent) as Hgt.
  assert (Hexact : (expenses == Spec.sum (map Transaction.amount spent))%Q).
  { rewrite expenses_added. now apply added_exact. }
  assert (Hnonneg : Forall (fun t => (0 <= Transaction.amount t)%Q) spent).
  { destruct Hwhole as [Hrows _]. rewrite Forall_map in Hrows.
    eapply Forall_impl; [ | exact Hrows ]. intros t (k & Hk & ->).
    change 0%Q with (inject_Z 0). now rewrite <- Zle_Qle. }
  set (shares := Spec.shares expenses spent).
  pose proof shares_entries as Hentries. fold shares in Hentries.
  pose proof shares_range as Hrange. fold shares in Hrange.
  assert (Hamounts : (Spec.sum (map Spec.share_amount shares) <= expenses)%Q).
  { rewrite Hexact.
    eapply Qle_trans; [ | apply (sum_by_label shares_NoDup Hnonneg) ].
    fold shares. rewrite map_map. apply sum_map_le.
    eapply Forall_impl; [ | exact Hentries ]. intros s [-> _].
    unfold Spec.spentOn. rewrite added_exact by now apply whole_filter.
    apply Qle_refl. }
  assert (Hbound :
            (Spec.sum (map Spec.share_percentage shares)
             <= Spec.sum (map Spec.share_amount shares) / expenses
                * (1002001 # 10000)
                + inject_Z (Z.of_nat (List.length shares)) * (6011 # 10000))%Q).
  { clear Hamounts. revert Hentries Hrange. generalize shares as l.
    induction l as [ | s l IH ]; intros Hentries Hrange.
    - simpl. unfold Qdiv. ring_simplify. lra.
    - pose proof (Forall_inv Hentries) as [_ Hp].
      pose proof (Forall_inv Hrange) as [[Ha _] _].
      specialize (IH (Forall_inv_tail Hentries) (Forall_inv_tail Hrange)).
      cbn [map Spec.sum fold_right List.length].
      fold (Spec.sum (map Spec.share_percentage l)).
      fold (Spec.sum (map Spec.share_amount l)).
      rewrite Nat2Z.inj_succ, <- Z.add_1_r, inject_Z_plus.
      change (inject_Z 1) with 1%Q.
      pose proof (percentage_above Ha Hgt) as Hs. rewrite <- Hp in Hs.
      assert (Hsplit : ((Spec.share_amount s + Spec.sum (map Spec.share_amount l))
                        / expenses
                        == Spec.share_amount s / expenses
                           + Spec.sum (map Spec.share_amount l) / expenses)%Q)
        by (unfold Qdiv; ring).
      rewrite Hsplit. lra. }
  assert (Hshare : (Spec.sum (map Spec.share_amount shares) / expenses <= 1)%Q).
  { apply Qle_shift_div_r; [ exact Hgt | lra ]. }
  assert (Hlen : (inject_Z (Z.of_nat (List.length shares)) <= 6)%Q).
  { change 6%Q with (inject_Z 6). rewrite <- Zle_Qle.
    pose proof shares_length. fold shares in H. lia. }
  destruct (@sum_whole (map Spec.share_percentage shares)) as [total Htotal].
  { rewrite Forall_map. eapply Forall_impl; [ | exact Hentries ].
    intros s [_ ->]. eexists. reflexivity. }
  rewrite Htotal in *.
  assert (Hlt : (inject_Z total < inject_Z 104)%Q).
  { change (inject_Z 104) with 104%Q. lra. }
  rewrite <- Zlt_Qlt in Hlt.
  change 103%Q with (inject_Z 103). rewrite <- Zle_Qle. lia.
Qed.

(** With ordinary labels, and a positive total unless nothing was spent,
    the list the code builds is the list of shares. *)
Lemma topCategories_shares :
  Forall (fun t => Spec.ordinary (Transaction.category t)) spent ->
  Js.slice0 6
    (Js.sort Storage.byAmountDesc
       (map (Storage.toTopCategory expenses)
          (Obj.entries (Js.reduce Storage.addExpense [] spent))))
  = map Spec.asTopCategory (Spec.shares expenses spent).
Proof.
  intros Hordinary.
  change (@nil (string * Js.value)) with (Spec.numbers []).
  rewrite (reduce_addExpense_numbers [] Hordinary), entries_numbers.
  rewrite toTopCategory_numbers.
  - unfold Spec.shares, Js.slice0. rewrite <- firstn_map. f_equal.
    apply sort_map. reflexivity.
  - destruct (Obj.entries totals) as [ | entry entries ] eqn:E; [ now right | left ].
    assert (Hspent : spent <> []).
    { intro Hnil. rewrite Hnil in E. vm_compute in E. discriminate. }
    pose proof (expenses_positive Hspent). lra.
Qed.

End Shares.

(** C3, as the claim has it, fails: with expenses of 3, 3 and 2 the shares
    are 37.5, 37.5 and 25 percent, which round to 38, 38 and 25, and these
    add up to 101. *)
Lemma monthlyReport_percentages_counterexample :
  exists (report : MonthlyReport) (shares : list Spec.Share),
    Storage.getMonthlyReport (Sample.store Sample.eighths []) 1 3 2025 = Ok report
    /\ topCategories report = map Spec.asTopCategory shares
    /\ map Spec.share_amount shares = [3; 3; 2]%Q
    /\ map Spec.share_percentage shares = [38; 38; 25]%Q
    /\ ~ (Spec.sum (map Spec.share_percentage shares) <= 100)%Q.
Proof.
  eexists.
  exists [ {| Spec.share_category := "food"; Spec.share_amount := 3;
              Spec.share_percentage := 38 |};
           {| Spec.share_category := "transport"; Spec.share_amount := 3;
              Spec.share_percentage := 38 |};
           {| Spec.share_category := "shopping"; Spec.share_amount := 2;
              Spec.share_percentage := 25 |} ].
  split; [ vm_compute; reflexivity | ].
  split; [ reflexivity | ]. split; [ reflexivity | ]. split; [ reflexivity | ].
  vm_compute. intro H. now apply H.
Qed.

(** C3, amended.  When the store serves the transactions, every stored
    amount reads as a positive number and every stored label is ordinary,
    the top categories of a monthly report carry numbers, are sorted by
    amount, largest first, are at most 6, name each category once, and
    give for each category the caller's expenses of the month with that
    label, added in binary64 in the order of the store, and, as
    percentage, the rounded binary64 value of that amount divided by the
    total expenses of the month and multiplied by 100, which is a whole
    number from 0 to 100.  The percentages can add up to more than 100;
    when the expenses are whole amounts that add up to at most 2^53, they
    add up to at most 103. *)
Theorem monthlyReport_topCategories :
  forall (db : Db) (userId month year : Z),
    failure db Transactions = None ->
    (forall t : Transaction.t,
        In t (transactions db) ->
        (0 < Storage.amountOf t)%Q /\ Spec.ordinary (Transaction.category t)) ->
    exists (report : MonthlyReport) (keep : Transaction.t -> bool)
           (shares : list Spec.Share),
      let spent :=
        filter (fun t => TransactionType_eqb (Transaction.type t) expense)
          (filter keep (transactions db)) in
      Storage.getMonthlyReport db userId month year = Ok report
      /\ (forall t : Transaction.t,
            keep t = true <-> Spec.ofMonth userId year (month - 1) t)
      /\ totalExpenses report = Spec.added (map Transaction.amount spent)
      /\ topCategories report = map Spec.asTopCategory shares
      /\ Spec.largestFirst shares
      /\ (List.length shares <= 6)%nat
      /\ NoDup (map Spec.share_category shares)
      /\ Forall (fun s =>
                  Spec.share_amount s = Spec.spentOn (Spec.share_category s) spent
                  /\ Spec.share_percentage s
                     = Js.Math_round
                         (Js.times
                            (Js.over (Spec.share_amount s) (totalExpenses report))
                            100))
               shares
      /\ Forall (fun s =>
                  (0 <= Spec.share_amount s <= totalExpenses report)%Q
                  /\ (0 <= Spec.share_percentage s <= 100)%Q)
               shares
      /\ (Spec.whole (map Transaction.amount spent) ->
          (Spec.sum (map Spec.share_percentage shares) <= 103)%Q).
Proof.
  intros db userId month year Hdb Hrows.
  unfold Storage.getMonthlyReport, statement. rewrite Hdb. cbn [bind].
  eexists. eexists. eexists. cbn zeta. split; [ reflexivity | ].
  cbn [topCategories totalExpenses].
  match goal with
  | |- context [Js.reduce Storage.addExpense [] ?rows] => set (spent := rows)
  end.
  assert (Hspent : forall t, In t spent ->
            (0 < Storage.amountOf t)%Q /\ Spec.ordinary (Transaction.category t)).
  { intros t Ht. apply Hrows. apply filter_In in Ht. destruct Ht as [Ht _].
    apply filter_In in Ht. tauto. }
  assert (Hpos : Forall (fun t => (0 < Storage.amountOf t)%Q) spent).
  { apply Forall_forall. intros t Ht. now apply Hspent. }
  assert (Hordinary : Forall (fun t => Spec.ordinary (Transaction.category t)) spent).
  { apply Forall_forall. intros t Ht. now apply Hspent. }
  rewrite reduce_amounts.
  split; [ intro t; apply ofMonth_reflect | ].
  split; [ reflexivity | ].
  split; [ now apply topCategories_shares | ].
  split; [ apply shares_largestFirst | ].
  split; [ apply shares_length | ].
  split; [ apply shares_NoDup | ].
  split; [ apply shares_entries | ].
  split; [ now apply shares_range | ].
  now apply shares_percentages.
Qed.

Lemma monthlyReport_topCategories_witness :
  exists (report : MonthlyReport) (shares : list Spec.Share),
    Storage.getMonthlyReport (Sample.store Sample.sevenths []) 1 3 2025 = Ok report
    /\ topCategories report = map Spec.asTopCategory shares
    /\ map Spec.share_category shares
       = ["food"; "transport"; "travel"; "utilities"; "shopping"; "books"]
    /\ map Spec.share_amount shares = [43; 39; 35; 31; 27; 23]%Q
    /\ map Spec.share_percentage shares = [22; 20; 18; 16; 14; 12]%Q
    /\ Spec.largestFirst shares
    /\ (100 < Spec.sum (map Spec.share_percentage shares) <= 103)%Q.
Proof.
  assert (Hrows : forall t : Transaction.t,
             In t (transactions (Sample.store Sample.sevenths [])) ->
             (0 < Storage.amountOf t)%Q
             /\ Spec.ordinary (Transaction.category t)).
  { intros t Ht. cbn [transactions Sample.store Sample.sevenths In] in Ht.
    repeat (destruct Ht as [ <- | Ht ];
            [ split; [ vm_compute; reflexivity | ];
              unfold Spec.ordinary, Obj.inherited; simpl;
              intro H; repeat (destruct H as [ H | H ]; [ discriminate | ]);
              exact H | ]).
    destruct Ht. }
  destruct (@monthlyReport_topCategories (Sample.store Sample.sevenths []) 1 3 2025
              eq_refl Hrows)
    as (report & keep & shares & Hreport & Hkeep & _ & Htop & Hsorted & _ & _ & _ & _
        & Hsum).
  exists report, shares. split; [ exact Hreport | ].
  vm_compute in Hreport. injection Hreport as <-.
  cbn [topCategories] in Htop.
  assert (Hshares :
            shares
            = [ {| Spec.share_category := "food"; Spec.share_amount := 43;
                   Spec.share_percentage := 22 |};
                {| Spec.share_category := "transport"; Spec.share_amount := 39;
                   Spec.share_percentage := 20 |};
                {| Spec.share_category := "travel"; Spec.share_amount := 35;
                   Spec.share_percentage := 18 |};
                {| Spec.share_category := "utilities"; Spec.share_amount := 31;
                   Spec.share_percentage := 16 |};
                {| Spec.share_category := "shopping"; Spec.share_amount := 27;
                   Spec.share_percentage := 14 |};
                {| Spec.share_category := "books"; Spec.share_amount := 23;
                   Spec.share_percentage := 12 |} ]).
  { revert Htop. clear.
    repeat (destruct shares as [ | [? ? ?] shares ]; try discriminate).
    intros [= <- <- <- <- <- <- <- <- <- <- <- <- <- <- <- <- <- <-]. reflexivity. }
  split; [ exact Htop | ].
  split; [ rewrite Hshares; reflexivity | ].
  split; [ rewrite Hshares; reflexivity | ].
  split; [ rewrite Hshares; reflexivity | ].
  split; [ exact Hsorted | ].
  split; [ rewrite Hshares; reflexivity | ].
  apply Hsum. apply whole_filter, whole_filter.
  split.
  - cbn [transactions Sample.store Sample.sevenths map].
    repeat (constructor; [ eexists; split; [ | reflexivity ]; discriminate | ]).
    constructor.
  - vm_compute. discriminate.
Defined.

(** Outside the amended claim: under a label that names an inherited
    property the accumulator holds a string, and the entry of the report
    carries neither an amount nor a percentage that is a number. *)
Remark monthlyReport_inherited_label :
  exists report : MonthlyReport,
    Storage.getMonthlyReport (Sample.store Sample.inheritedLabel []) 1 3 2025
    = Ok report
    /\ topCategories report
       = [ {| tc_category := "constructor"; tc_amount := Js.Other;
              tc_percentage := Js.Other |} ].
Proof.
  eexists. split; reflexivity.
Qed.

(* ================================================================= *)
(** ** The middleware *)

Lemma split_space_cons (s : string) : exists piece pieces, split_space s = piece :: pieces.
Proof.
  induction s as [ | c s IH ]; simpl; [ now eexists; eexists | ].
  destruct (Ascii.eqb c " "); [ now eexists; eexists | ].
  destruct IH as (piece & pieces & ->). now eexists; eexists.
Qed.

Lemma split_space_spaceless (s : string) :
  Terms.spaceless s -> split_space s = [s].
Proof.
  unfold Terms.spaceless. induction s as [ | c s IH ]; simpl; intro H; trivial.
  destruct (Ascii.eqb_spec c " ") as [ -> | _ ]; [ tauto | ].
  rewrite IH; tauto.
Qed.

Lemma split_space_app (a b : string) :
  Terms.spaceless a -> split_space (a ++ " " ++ b) = a :: split_space b.
Proof.
  change (" " ++ b) with (String " " b).
  unfold Terms.spaceless. induction a as [ | c a IH ]; simpl; intro H; trivial.
  destruct (Ascii.eqb_spec c " ") as [ -> | _ ]; [ tauto | ].
  rewrite IH; tauto.
Qed.

Lemma append_space_not_empty (a b : string) : String.eqb (a ++ " " ++ b) "" = false.
Proof. destruct a; reflexivity. Qed.

(** X1.  The middleware sends 401 when there is no authorization header or
    the header has no space in it; otherwise it takes the text between the
    first and the second space as the token, whatever stands before it (the
    scheme is not looked at) or after it, and the verification of that
    token alone decides between 403 and the handler. *)
Theorem authenticateToken_reads_second_word :
  forall (verify : string -> option JwtPayload.t),
    let missing := inl (status_json 401 (JMessage "Токен доступа отсутствует")) in
    let verdict (token : string) : Response + JwtPayload.t :=
      match verify token with
      | Some user => inr user
      | None => inl (status_json 403 (JMessage "Недействительный токен"))
      end in
    authenticateToken verify None = missing
    /\ (forall header : string,
          Terms.spaceless header -> authenticateToken verify (Some header) = missing)
    /\ (forall scheme token rest : string,
          Terms.spaceless scheme ->
          Terms.spaceless token ->
          token <> "" ->
          authenticateToken verify (Some (scheme ++ " " ++ token)) = verdict token
          /\ authenticateToken verify (Some (scheme ++ " " ++ token ++ " " ++ rest))
             = verdict token).
Proof.
  intros verify missing verdict. split; [ reflexivity | ]. split.
  - intros header H. unfold authenticateToken.
    rewrite (split_space_spaceless H). destruct (String.eqb header ""); reflexivity.
  - intros scheme token rest Hscheme Htoken Hne.
    apply String.eqb_neq in Hne. unfold authenticateToken.
    rewrite !append_space_not_empty, !(split_space_app _ Hscheme).
    rewrite (split_space_app _ Htoken), (split_space_spaceless Htoken).
    simpl. rewrite Hne. split; reflexivity.
Qed.

Lemma authenticateToken_reads_second_word_witness :
  authenticateToken Sample2.jwt_verify (Some "Basic token-for-alice@example.com")
  = inr Sample.asAlice
  /\ authenticateToken Sample2.jwt_verify (Some "Bearer") =
     inl (status_json 401 (JMessage "Токен доступа отсутствует")).
Proof.
  destruct (authenticateToken_reads_second_word Sample2.jwt_verify)
    as (_ & Hmissing & Htoken).
  split.
  - apply (Htoken "Basic" "token-for-alice@example.com" "").
    + unfold Terms.spaceless. simpl.
      intro H; repeat (destruct H as [ H | H ]; [ discriminate | ]); exact H.
    + unfold Terms.spaceless. simpl.
      intro H; repeat (destruct H as [ H | H ]; [ discriminate | ]); exact H.
    + discriminate.
  - apply (Hmissing "Bearer"). unfold Terms.spaceless. simpl.
    intro H; repeat (destruct H as [ H | H ]; [ discriminate | ]); exact H.
Defined.

(* ================================================================= *)
(** ** Registration and passwords *)

Lemma find_app_last {A : Type} (f : A -> bool) (l : list A) (x : A) :
  find f l = None -> find f (l ++ [x]) = if f x then Some x else None.
Proof.
  induction l as [ | y l IH ]; simpl; trivial.
  destruct (f y); [ discriminate | exact IH ].
Qed.

Lemma find_none_existsb {A : Type} (f : A -> bool) (l : list A) :
  find f l = None -> existsb f l = false.
Proof.
  induction l as [ | y l IH ]; simpl; trivial.
  destruct (f y); [ discriminate | exact IH ].
Qed.

Section Registration.

Variable nextval : relation -> Db -> Z.
Variable userSchema : InsertUser.t -> result InsertUser.t.
Variable loginSchema : LoginBody.t -> result LoginBody.t.
Variable hash : string -> string.
Variable compare : string -> string -> bool.
Variable sign : JwtPayload.t -> string.

(** A registration that the schema accepts, for an email that no user of a
    store in service has, appends one user who carries the hash of the
    password, and answers with a session for that user. *)
Lemma register_success (now : Z) (body validated : InsertUser.t) (db : Db) :
  userSchema body = Ok validated ->
  Storage.getUserByEmail db (InsertUser.email validated) = Ok None ->
  let answer := post_auth_register nextval userSchema hash sign now body db in
  let user :=
    {| User.id := nextval Users db;
       User.email := InsertUser.email validated;
       User.password := hash (InsertUser.password validated);
       User.firstName := InsertUser.firstName validated;
       User.lastName := InsertUser.lastName validated;
       User.createdAt := now; User.updatedAt := now |} in
  answer
  = (json (JSession (sign {| JwtPayload.userId := User.id user;
                             JwtPayload.email := User.email user |})
             {| pu_id := User.id user; pu_email := User.email user;
                pu_firstName := User.firstName user;
                pu_lastName := User.lastName user |}),
     with_users db (users db ++ [user])).
Proof.
  intros Hschema Hnone answer user. subst answer.
  unfold post_auth_register. rewrite Hschema, Hnone.
  unfold Storage.getUserByEmail, statement in Hnone.
  unfold DatabaseStorage.createUser, statement.
  destruct (failure db Users); [ discriminate | ].
  injection Hnone as Hfind. simpl.
  rewrite (find_none_existsb _ _ Hfind). reflexivity.
Qed.

(** X2.  Registration and login compose: after a registration that is
    accepted for a new email, the stored password is the hash, not the
    password, and a login with the same email and password is answered 200
    with a session for the registered user, provided the comparison accepts
    a password against its own hash. *)
Theorem register_then_login :
  forall (now : Z) (body validated : InsertUser.t) (db : Db),
    userSchema body = Ok validated ->
    Storage.getUserByEmail db (InsertUser.email validated) = Ok None ->
    let credentials :=
      {| LoginBody.email := InsertUser.email validated;
         LoginBody.password := InsertUser.password validated |} in
    loginSchema credentials = Ok credentials ->
    compare (InsertUser.password validated) (hash (InsertUser.password validated))
    = true ->
    let answer := post_auth_register nextval userSchema hash sign now body db in
    exists user : User.t,
      users (snd answer) = (users db ++ [user])%list
      /\ User.email user = InsertUser.email validated
      /\ User.password user = hash (InsertUser.password validated)
      /\ status (fst answer) = 200
      /\ post_auth_login loginSchema compare sign credentials (snd answer)
         = json (JSession (sign {| JwtPayload.userId := User.id user;
                                   JwtPayload.email := User.email user |})
                   {| pu_id := User.id user; pu_email := User.email user;
                      pu_firstName := InsertUser.firstName validated;
                      pu_lastName := InsertUser.lastName validated |}).
Proof.
  intros now body validated db Hschema Hnone credentials Hlogin Hcompare answer.
  subst answer. rewrite (@register_success now body validated db Hschema Hnone).
  eexists. split; [ reflexivity | ]. split; [ reflexivity | ].
  split; [ reflexivity | ]. split; [ reflexivity | ].
  unfold post_auth_login. rewrite Hlogin.
  unfold Storage.getUserByEmail, statement in *. simpl.
  destruct (failure db Users); [ discriminate | ].
  injection Hnone as Hfind. rewrite (find_app_last _ _ _ Hfind). simpl.
  rewrite String.eqb_refl. simpl. now rewrite Hcompare.
Qed.

(** X3.  An email registers once: after a registration that is accepted for
    a new email, every further registration whose validated email is the
    same is answered 400 and leaves the store as it is. *)
Theorem register_twice_refused :
  forall (now later : Z) (body validated again validatedAgain : InsertUser.t)
         (db : Db),
    userSchema body = Ok validated ->
    Storage.getUserByEmail db (InsertUser.email validated) = Ok None ->
    userSchema again = Ok validatedAgain ->
    InsertUser.email validatedAgain = InsertUser.email validated ->
    let db1 := snd (post_auth_register nextval userSchema hash sign now body db) in
    post_auth_register nextval userSchema hash sign later again db1
    = (status_json 400 (JMessage "Пользователь с таким email уже существует"), db1).
Proof.
  intros now later body validated again validatedAgain db Hschema Hnone Hagain Hsame db1.
  subst db1. rewrite (@register_success now body validated db Hschema Hnone).
  unfold post_auth_register. rewrite Hagain, Hsame.
  unfold Storage.getUserByEmail, statement in *. simpl.
  destruct (failure db Users); [ discriminate | ].
  injection Hnone as Hfind. rewrite (find_app_last _ _ _ Hfind). simpl.
  now rewrite String.eqb_refl.
Qed.

End Registration.

Lemma register_then_login_witness :
  let answer :=
    post_auth_register Sample2.nextval Sample2.insertUserSchema_parse
      Sample2.bcrypt_hash Sample.jwt_sign Sample.now Sample2.carol
      (Sample.store [] []) in
  exists user : User.t,
    users (snd answer) = [Sample.alice; Sample.bob; user]
    /\ User.password user = "hash:looking-glass"
    /\ status
         (post_auth_login Sample.loginSchema_parse Sample.bcrypt_compare
            Sample.jwt_sign
            {| LoginBody.email := "carol@example.com";
               LoginBody.password := "looking-glass" |}
            (snd answer))
       = 200.
Proof.
  destruct (@register_then_login Sample2.nextval Sample2.insertUserSchema_parse
              Sample.loginSchema_parse Sample2.bcrypt_hash Sample.bcrypt_compare
              Sample.jwt_sign Sample.now Sample2.carol Sample2.carol
              (Sample.store [] []) eq_refl eq_refl eq_refl eq_refl)
    as (user & Husers & _ & Hpassword & _ & Hlogin).
  exists user. split; [ exact Husers | ]. split; [ exact Hpassword | ].
  exact (f_equal status Hlogin).
Defined.

Lemma register_twice_refused_witness :
  let db1 :=
    snd (post_auth_register Sample2.nextval Sample2.insertUserSchema_parse
           Sample2.bcrypt_hash Sample.jwt_sign Sample.now Sample2.carol
           (Sample.store [] [])) in
  post_auth_register Sample2.nextval Sample2.insertUserSchema_parse
    Sample2.bcrypt_hash Sample.jwt_sign (Sample.now + 1) Sample2.carol db1
  = (status_json 400 (JMessage "Пользователь с таким email уже существует"), db1).
Proof.
  apply (@register_twice_refused Sample2.nextval Sample2.insertUserSchema_parse
           Sample2.bcrypt_hash Sample.jwt_sign Sample.now (Sample.now + 1)
           Sample2.carol Sample2.carol Sample2.carol Sample2.carol
           (Sample.store [] [])); reflexivity.
Defined.

Lemma find_map_same {A : Type} (p : A -> bool) (f : A -> A) (l : list A) :
  (forall a, p (f a) = p a) -> find p (map f l) = option_map f (find p l).
Proof.
  intro H. induction l as [ | a l IH ]; simpl; trivial.
  rewrite H. destruct (p a); [ reflexivity | exact IH ].
Qed.

(** X4.  Changing the password: with a current password that the
    comparison rejects the answer is 400 and the store is as it was; with
    one it accepts the answer is 200, no row of another user changes, and
    from then on a login with the user's email succeeds exactly when the
    comparison accepts the password against the hash of the new password. *)
Theorem changePassword_then_login :
  forall (hash : string -> string) (compare : string -> string -> bool)
         (now : Z) (user : JwtPayload.t) (body : PasswordBody.t) (db : Db)
         (row : User.t),
    DatabaseStorage.getUser db (JwtPayload.userId user) = Ok (Some row) ->
    Storage.getUserByEmail db (User.email row) = Ok (Some row) ->
    let answer := patch_user_password hash compare now user body db in
    (compare (PasswordBody.currentPassword body) (User.password row) = false ->
     answer = (status_json 400 (JMessage "Неверный текущий пароль"), db))
    /\ (compare (PasswordBody.currentPassword body) (User.password row) = true ->
        fst answer = json (JMessage "Пароль успешно изменен")
        /\ (forall other : User.t,
              In other (users db) ->
              User.id other <> JwtPayload.userId user ->
              In other (users (snd answer)))
        /\ (forall (loginSchema : LoginBody.t -> result LoginBody.t)
                   (sign : JwtPayload.t -> string) (password : string),
              let credentials :=
                {| LoginBody.email := User.email row;
                   LoginBody.password := password |} in
              loginSchema credentials = Ok credentials ->
              post_auth_login loginSchema compare sign credentials (snd answer)
              = if compare password (hash (PasswordBody.newPassword body))
                then json (JSession
                             (sign {| JwtPayload.userId := User.id row;
                                      JwtPayload.email := User.email row |})
                             {| pu_id := User.id row; pu_email := User.email row;
                                pu_firstName := User.firstName row;
                                pu_lastName := User.lastName row |})
                else status_json 401 (JMessage "Неверный email или пароль"))).
Proof.
  intros hash compare now user body db row Hrow Hemail answer. subst answer.
  unfold patch_user_password. rewrite Hrow.
  unfold DatabaseStorage.getUser, Storage.getUserByEmail, statement in Hrow, Hemail.
  unfold DatabaseStorage.updateUser, DatabaseStorage.emailTaken, statement.
  destruct (failure db Users) eqn:Hdb; [ discriminate | ].
  injection Hrow as Hrow. injection Hemail as Hemail.
  split; intro Hcompare; rewrite Hcompare; simpl; [ reflexivity | ].
  split; [ reflexivity | ]. split.
  - intros other Hin Hother. apply in_map_iff. exists other.
    apply Z.eqb_neq in Hother. now rewrite Hother.
  - intros loginSchema sign password. cbv zeta. intro Hlogin.
    unfold post_auth_login. rewrite Hlogin.
    unfold Storage.getUserByEmail, statement. simpl. rewrite Hdb.
    rewrite find_map_same, Hemail.
    + simpl. apply find_some in Hrow. destruct Hrow as [_ Hid]. rewrite Hid.
      simpl. destruct (compare password (hash (PasswordBody.newPassword body)));
        reflexivity.
    + intro u. destruct (User.id u =? JwtPayload.userId user); reflexivity.
Qed.

Lemma changePassword_then_login_witness :
  let body :=
    {| PasswordBody.currentPassword := "wonderland";
       PasswordBody.newPassword := "rabbit-hole" |} in
  let answer :=
    patch_user_password Sample2.bcrypt_hash Sample.bcrypt_compare Sample.now
      Sample.asAlice body (Sample.store [] []) in
  fst answer = json (JMessage "Пароль успешно изменен")
  /\ status
       (post_auth_login Sample.loginSchema_parse Sample.bcrypt_compare Sample.jwt_sign
          {| LoginBody.email := "alice@example.com";
             LoginBody.password := "rabbit-hole" |} (snd answer)) = 200
  /\ status
       (post_auth_login Sample.loginSchema_parse Sample.bcrypt_compare Sample.jwt_sign
          {| LoginBody.email := "alice@example.com";
             LoginBody.password := "wonderland" |} (snd answer)) = 401.
Proof.
  intros body answer.
  destruct (@changePassword_then_login Sample2.bcrypt_hash Sample.bcrypt_compare
              Sample.now Sample.asAlice body (Sample.store [] []) Sample.alice
              eq_refl eq_refl) as [_ H].
  destruct (H eq_refl) as (Hanswer & _ & Hlogin).
  split; [ exact Hanswer | ]. split.
  - exact (f_equal status
             (Hlogin Sample.loginSchema_parse Sample.jwt_sign "rabbit-hole" eq_refl)).
  - exact (f_equal status
             (Hlogin Sample.loginSchema_parse Sample.jwt_sign "wonderland" eq_refl)).
Defined.

(* ================================================================= *)
(** ** Listing and numbering the transactions *)

Lemma filter_none {A : Type} (f : A -> bool) (l : list A) :
  (forall a, In a l -> f a = false) -> filter f l = [].
Proof.
  induction l as [ | a l IH ]; simpl; intro H; trivial.
  rewrite (H a (or_introl eq_refl)). apply IH. intros b Hb. apply H. now right.
Qed.

(** X5.  When the store serves the transactions, the listing of a caller
    is made of the caller's transactions, each as often as it is stored,
    and of no other, newest first. *)
Theorem transactions_listing_exact :
  forall (user : JwtPayload.t) (db : Db),
    failure db Transactions = None ->
    exists rows : list Transaction.t,
      get_transactions user db = json (JTransactions rows)
      /\ Permutation rows
           (filter (fun t => Transaction.userId t =? JwtPayload.userId user)
              (transactions db))
      /\ (forall t : Transaction.t,
            In t rows
            <-> In t (transactions db)
                /\ Transaction.userId t = JwtPayload.userId user)
      /\ StronglySorted
           (fun a b => Transaction.createdAt b <= Transaction.createdAt a) rows.
Proof.
  intros user db Hdb.
  unfold get_transactions, Storage.getUserTransactions, statement. rewrite Hdb.
  eexists. split; [ reflexivity | ].
  split; [ apply orderBy_desc_perm | ].
  split; [ | apply orderBy_desc_sorted ].
  intro t. split.
  - intro H. apply (Permutation_in _ (orderBy_desc_perm _ _)) in H.
    apply filter_In in H. now rewrite Z.eqb_eq in H.
  - intros [Hin Huser].
    apply (Permutation_in _ (Permutation_sym (orderBy_desc_perm _ _))).
    apply filter_In. now rewrite Z.eqb_eq.
Qed.

Lemma transactions_listing_exact_witness :
  exists rows : list Transaction.t,
    get_transactions Sample.asAlice (Sample.store Sample.march [])
    = json (JTransactions rows)
    /\ map Transaction.id rows = [1; 2; 3; 4].
Proof.
  destruct (@transactions_listing_exact Sample.asAlice
              (Sample.store Sample.march []) eq_refl) as (rows & Hrows & _).
  exists rows. split; [ exact Hrows | ].
  vm_compute in Hrows. injection Hrows as <-. reflexivity.
Defined.

Section CreatingTransactions.

Variable parseInt : string -> option Z.
Variable parseFloat : string -> option Q.
Variable Date_parse : string -> option Z.
Variable schema : TransactionBody.t -> result ValidatedTransaction.t.

Local Abbreviation create := (post_transactions parseInt parseFloat Date_parse schema).

(** What the creation of a transaction does to the store, whatever it
    answers: it appends nothing or one row of the caller numbered by the
    sequence, moves the sequence past it, and leaves the users, the
    categories and the failures of the store alone. *)
Lemma post_transactions_effect (now : Z) (user : JwtPayload.t)
    (body : TransactionBody.t) (db : Db) :
  exists stored : list Transaction.t,
    transactions (snd (create now user body db)) = (transactions db ++ stored)%list
    /\ transactions_id_seq (snd (create now user body db))
       = transactions_id_seq db + Z.of_nat (List.length stored)
    /\ (List.length stored <= 1)%nat
    /\ (forall row : Transaction.t,
          In row stored ->
          Transaction.id row = transactions_id_seq db
          /\ Transaction.userId row = JwtPayload.userId user)
    /\ failure (snd (create now user body db)) = failure db
    /\ users (snd (create now user body db)) = users db
    /\ categories (snd (create now user body db)) = categories db.
Proof.
  assert (Hnothing : forall db1 : Db,
             transactions db1 = transactions db ->
             transactions_id_seq db1 = transactions_id_seq db ->
             failure db1 = failure db -> users db1 = users db ->
             categories db1 = categories db ->
             exists stored : list Transaction.t,
               transactions db1 = (transactions db ++ stored)%list
               /\ transactions_id_seq db1
                  = transactions_id_seq db + Z.of_nat (List.length stored)
               /\ (List.length stored <= 1)%nat
               /\ (forall row : Transaction.t,
                     In row stored ->
                     Transaction.id row = transactions_id_seq db
                     /\ Transaction.userId row = JwtPayload.userId user)
               /\ failure db1 = failure db
               /\ users db1 = users db
               /\ categories db1 = categories db).
  { intros db1 H1 H2 H3 H4 H5. exists []. simpl.
    rewrite app_nil_r, Z.add_0_r.
    do 2 (split; [ trivial | ]). split; [ lia | ].
    split; [ intros row [] | repeat split; trivial ]. }
  assert (Hone : forall (db1 : Db) (row : Transaction.t),
             transactions db1 = (transactions db ++ [row])%list ->
             transactions_id_seq db1 = transactions_id_seq db + 1 ->
             Transaction.id row = transactions_id_seq db ->
             Transaction.userId row = JwtPayload.userId user ->
             failure db1 = failure db -> users db1 = users db ->
             categories db1 = categories db ->
             exists stored : list Transaction.t,
               transactions db1 = (transactions db ++ stored)%list
               /\ transactions_id_seq db1
                  = transactions_id_seq db + Z.of_nat (List.length stored)
               /\ (List.length stored <= 1)%nat
               /\ (forall row : Transaction.t,
                     In row stored ->
                     Transaction.id row = transactions_id_seq db
                     /\ Transaction.userId row = JwtPayload.userId user)
               /\ failure db1 = failure db
               /\ users db1 = users db
               /\ categories db1 = categories db).
  { intros db1 row H1 H2 Hid Huser H3 H4 H5. exists [row]. simpl.
    do 2 (split; [ trivial | ]). split; [ lia | ].
    split; [ intros r [ <- | [] ]; now split | repeat split; trivial ]. }
  unfold post_transactions.
  destruct (schema _) as [ validated | error ]; [ | now apply Hnothing ].
  unfold Storage.createTransaction. cbn [InsertTransaction.date].
  destruct (Date_parse _) as [ date | ]; [ | now apply Hnothing ].
  unfold statement.
  destruct (failure db Transactions) as [ message | ]; [ now apply Hnothing | ].
  destruct (truthy (TransactionBody.goalId body)
            && TransactionType_eqb (ValidatedTransaction.type validated) income).
  - unfold Storage.updateGoalProgress.
    destruct (parseInt_goalId parseInt (TransactionBody.goalId body)) as [ id | ];
      [ destruct (statementOn _ Goals id tt) | ];
      cbv beta iota zeta delta [snd fst];
      eapply Hone; reflexivity.
  - cbv beta iota zeta delta [snd fst]. eapply Hone; reflexivity.
Qed.

(** X6.  The transactions stay well numbered: when no two stored
    transactions share an id and the sequence is past every id, the same
    holds after a creation and after a deletion, whatever they answer. *)
Theorem transactions_stay_well_numbered :
  forall (now : Z) (user : JwtPayload.t) (body : TransactionBody.t) (id : string)
         (db : Db),
    Terms.wellNumbered db ->
    Terms.wellNumbered (snd (create now user body db))
    /\ Terms.wellNumbered (snd (delete_transactions_id parseInt user id db)).
Proof.
  intros now user body id db [Hnodup Hseq]. split.
  - destruct (post_transactions_effect now user body db)
      as (stored & Hrows & Hnext & Hone & Hstored & _).
    unfold Terms.wellNumbered. rewrite Hrows, Hnext. split.
    + rewrite map_app.
      destruct stored as [ | row [ | ? ? ] ]; simpl in *; try lia.
      * now rewrite app_nil_r.
      * apply NoDup_app; [ exact Hnodup | repeat constructor; intros [] | ].
        intros x Hx [ <- | [] ]. apply in_map_iff in Hx.
        destruct Hx as (t & Ht & Hin). apply Hseq in Hin.
        destruct (Hstored row (or_introl eq_refl)) as [Hid _]. lia.
    + intros t Ht. apply in_app_or in Ht. destruct Ht as [ Ht | Ht ].
      * apply Hseq in Ht. lia.
      * destruct (Hstored t Ht) as [Hid _].
        destruct stored; [ destruct Ht | simpl; lia ].
  - unfold delete_transactions_id.
    destruct (parseInt id) as [ n | ]; [ | now split ].
    destruct (Storage.getTransaction db n) as [ [ t | ] | ]; try now split.
    destruct (negb (Transaction.userId t =? JwtPayload.userId user)); [ now split | ].
    unfold Storage.deleteTransaction, statementOn, statement.
    destruct (failure db Transactions); [ now split | ].
    destruct (key db n); [ | now split ]. simpl.
    unfold Terms.wellNumbered. simpl. split.
    + clear Hseq. induction (transactions db) as [ | a l IH ]; simpl; trivial.
      inversion Hnodup as [ | ? ? Ha Hl ]; subst.
      destruct (negb (Transaction.id a =? n)); simpl; [ | now apply IH ].
      constructor; [ | now apply IH ].
      intro H. apply Ha. apply in_map_iff in H. destruct H as (x & Hx & Hin).
      apply filter_In in Hin. apply in_map_iff. exists x. tauto.
    + intros x Hx. apply filter_In in Hx. now apply Hseq.
Qed.

(** X7.  A transaction that is created is listed, and nobody else sees a
    difference: whatever the creation answers, the listing of every other
    user is what it was; and when the schema accepts the body, its date
    text is a date and the store takes the insertion, the listing of the
    caller contains the new row, which carries the caller's id, that date
    and the validated amount, category and type. *)
Theorem created_transaction_listed :
  forall (now : Z) (user : JwtPayload.t) (body : TransactionBody.t) (db : Db),
    (forall other : JwtPayload.t,
        JwtPayload.userId other <> JwtPayload.userId user ->
        get_transactions other (snd (create now user body db))
        = get_transactions other db)
    /\ (forall (validated : ValidatedTransaction.t) (date : Z),
          schema (TransactionBody.with_amount body
                    (coerceAmount parseFloat (TransactionBody.amount body)))
          = Ok validated ->
          Date_parse (ValidatedTransaction.date validated) = Some date ->
          failure db Transactions = None ->
          exists (row : Transaction.t) (rows : list Transaction.t),
            get_transactions user (snd (create now user body db))
            = json (JTransactions rows)
            /\ In row rows
            /\ Transaction.id row = transactions_id_seq db
            /\ Transaction.userId row = JwtPayload.userId user
            /\ Transaction.date row = date
            /\ Transaction.amount row = ValidatedTransaction.amount validated
            /\ Transaction.category row = ValidatedTransaction.category validated
            /\ Transaction.type row = ValidatedTransaction.type validated).
Proof.
  intros now user body db. split.
  - intros other Hother.
    destruct (post_transactions_effect now user body db)
      as (stored & Hrows & _ & _ & Hstored & Hfailure & _).
    unfold get_transactions, Storage.getUserTransactions, statement.
    rewrite Hfailure, Hrows, filter_app.
    replace (filter (fun t => Transaction.userId t =? JwtPayload.userId other) stored)
      with (@nil Transaction.t); [ now rewrite app_nil_r | ].
    symmetry. apply filter_none. intros row Hrow.
    destruct (Hstored row Hrow) as [_ Huser].
    apply Z.eqb_neq. congruence.
  - intros validated date Hschema Hdate Hdb.
    assert (Hrows : exists row,
               transactions (snd (create now user body db))
               = (transactions db ++ [row])%list
               /\ failure (snd (create now user body db)) = failure db
               /\ Transaction.id row = transactions_id_seq db
               /\ Transaction.userId row = JwtPayload.userId user
               /\ Transaction.date row = date
               /\ Transaction.amount row = ValidatedTransaction.amount validated
               /\ Transaction.category row = ValidatedTransaction.category validated
               /\ Transaction.type row = ValidatedTransaction.type validated).
    { unfold post_transactions. rewrite Hschema.
      unfold Storage.createTransaction. cbn [InsertTransaction.date].
      rewrite Hdate. unfold statement. rewrite Hdb. eexists.
      destruct (truthy (TransactionBody.goalId body)
                && TransactionType_eqb (ValidatedTransaction.type validated) income).
      - unfold Storage.updateGoalProgress.
        destruct (parseInt_goalId parseInt (TransactionBody.goalId body)) as [ id | ];
          [ destruct (statementOn _ Goals id tt) | ];
          cbn [fst snd transactions failure with_goals with_transactions
               Transaction.id Transaction.userId Transaction.date
               Transaction.amount Transaction.category Transaction.type
               InsertTransaction.userId InsertTransaction.type
               InsertTransaction.amount InsertTransaction.category];
          repeat split; reflexivity.
      - cbn [fst snd transactions failure with_transactions]. repeat split; reflexivity. }
    destruct Hrows as (row & Hrows & Hfailure & Hfields).
    exists row. unfold get_transactions, Storage.getUserTransactions, statement.
    rewrite Hfailure, Hdb, Hrows. eexists. split; [ reflexivity | ].
    split; [ | exact Hfields ].
    apply (Permutation_in _ (Permutation_sym (orderBy_desc_perm _ _))).
    apply filter_In. split; [ apply in_or_app; right; now left | ].
    apply Z.eqb_eq. tauto.
Qed.

End CreatingTransactions.

Lemma march_wellNumbered : Terms.wellNumbered (Sample.store Sample.march []).
Proof.
  split.
  - simpl. repeat constructor; simpl; intro H;
      repeat (destruct H as [ H | H ]; [ discriminate | ]); exact H.
  - intros t Ht. simpl in Ht.
    repeat (destruct Ht as [ <- | Ht ]; [ reflexivity | ]). destruct Ht.
Defined.

Lemma transactions_stay_well_numbered_witness :
  Terms.wellNumbered
    (snd (post_transactions Sample.parseInt Sample.parseFloat Sample.Date_parse
            Sample.insertTransactionSchema_parse Sample.now Sample.asAlice
            (Sample.purchase "food" (AmountString "12"))
            (Sample.store Sample.march [])))
  /\ Terms.wellNumbered
       (snd (delete_transactions_id Sample.parseInt Sample.asAlice "2"
               (Sample.store Sample.march []))).
Proof.
  exact (@transactions_stay_well_numbered Sample.parseInt Sample.parseFloat
           Sample.Date_parse Sample.insertTransactionSchema_parse Sample.now
           Sample.asAlice (Sample.purchase "food" (AmountString "12")) "2"
           (Sample.store Sample.march []) march_wellNumbered).
Defined.

Lemma created_transaction_listed_witness :
  let db1 :=
    snd (post_transactions Sample.parseInt Sample.parseFloat Sample.Date_parse
           Sample.insertTransactionSchema_parse Sample.now Sample.asAlice
           (Sample.purchase "food" (AmountString "12"))
           (Sample.store Sample.march [])) in
  get_transactions Sample.asBob db1
  = get_transactions Sample.asBob (Sample.store Sample.march [])
  /\ exists (row : Transaction.t) (rows : list Transaction.t),
       get_transactions Sample.asAlice db1 = json (JTransactions rows)
       /\ In row rows
       /\ Transaction.id row = 6
       /\ Transaction.date row = 1741996800000
       /\ (Transaction.amount row == 12)%Q.
Proof.
  intro db1.
  destruct (created_transaction_listed Sample.parseInt Sample.parseFloat
              Sample.Date_parse Sample.insertTransactionSchema_parse Sample.now
              Sample.asAlice (Sample.purchase "food" (AmountString "12"))
              (Sample.store Sample.march [])) as [Hothers Hlisted].
  split.
  - apply (Hothers Sample.asBob). discriminate.
  - destruct (Hlisted
                {| ValidatedTransaction.type := expense;
                   ValidatedTransaction.amount := 12;
                   ValidatedTransaction.category := "food";
                   ValidatedTransaction.description := None;
                   ValidatedTransaction.date := "2025-03-15" |}
                1741996800000 eq_refl eq_refl eq_refl)
      as (row & rows & Hrows & Hin & Hid & _ & Hdate & Hamount & _).
    exists row, rows. split; [ exact Hrows | ]. split; [ exact Hin | ].
    split; [ exact Hid | ]. split; [ exact Hdate | ]. rewrite Hamount. reflexivity.
Defined.

Section GoalCredits.

Variable parseInt : string -> option Z.
Variable parseFloat : string -> option Q.
Variable Date_parse : string -> option Z.
Variable schema : TransactionBody.t -> result ValidatedTransaction.t.

Local Abbreviation create := (post_transactions parseInt parseFloat Date_parse schema).



End GoalCredits.



(* ================================================================= *)
(** ** Goals: creation, update and deletion *)

Section GoalSchemas.

Variable issueText : string -> JsValue -> string.

Lemma zStringMin1_inr (key : string) (message : option string) (v : JsValue)
    (s : string) :
  zStringMin1 issueText key message v = inr s -> v = VString s /\ s <> "".
Proof.
  unfold zStringMin1. destruct v; try discriminate.
  destruct (String.eqb s0 "") eqn:E; [ discriminate | ].
  intros [= <-]. split; [ reflexivity | now apply String.eqb_neq ].
Qed.

Lemma zNumberMin1_inr (key : string) (message : option string) (v : JsValue)
    (n : Q) :
  zNumberMin1 issueText key message v = inr n -> v = VNumber n /\ (1 <= n)%Q.
Proof.
  unfold zNumberMin1. destruct v; try discriminate.
  destruct (lt_reflect n0 1) as [ Hlt | Hge ]; [ discriminate | ].
  intros [= <-]. split; [ reflexivity | now apply Qnot_lt_le ].
Qed.

Lemma zOptional_inr {A : Type} (check : JsValue -> string + A) (v : JsValue)
    (o : option A) :
  zOptional check v = inr o ->
  (v = VUndefined /\ o = None) \/ (exists a : A, check v = inr a /\ o = Some a).
Proof.
  unfold zOptional.
  destruct v; try (intros [= <-]; left; split; reflexivity);
    (destruct (check _) as [ issue | a ] eqn:E; [ discriminate | ];
     intros [= <-]; right; exists a; split; reflexivity).
Qed.

Lemma postGoalSchema_parse_Ok (body : GoalBody.t) (validated : ValidatedGoal.t) :
  postGoalSchema_parse issueText body = Ok validated ->
  GoalBody.name body = VString (ValidatedGoal.name validated)
  /\ ValidatedGoal.name validated <> ""
  /\ GoalBody.targetAmount body = VNumber (ValidatedGoal.targetAmount validated)
  /\ (1 <= ValidatedGoal.targetAmount validated)%Q
  /\ zOptional (zString issueText "targetDate") (GoalBody.targetDate body)
     = inr (ValidatedGoal.targetDate validated).
Proof.
  unfold postGoalSchema_parse.
  destruct (zStringMin1 _ _ _ _) as [ ? | name ] eqn:Hname;
    destruct (zOptional _ (GoalBody.description body)) as [ ? | description ];
    destruct (zNumberMin1 _ _ _ _) as [ ? | targetAmount ] eqn:Hamount;
    destruct (zOptional _ (GoalBody.targetDate body)) as [ ? | targetDate ];
    try discriminate.
  intros [= <-]. simpl.
  apply zStringMin1_inr in Hname. apply zNumberMin1_inr in Hamount.
  tauto.
Qed.

Lemma postGoalSchema_parse_Throw (body : GoalBody.t) :
  (forall s : string, GoalBody.name body = VString s -> s = "")
  \/ (forall n : Q, GoalBody.targetAmount body = VNumber n -> (n < 1)%Q) ->
  exists (first : string) (others : list string),
    postGoalSchema_parse issueText body = Throw (ZodError first others).
Proof.
  intro Hbad.
  destruct (postGoalSchema_parse issueText body) as [ validated | e ] eqn:Hparse.
  - apply postGoalSchema_parse_Ok in Hparse.
    destruct Hparse as (Hname & Hfilled & Hamount & Hone & _).
    destruct Hbad as [ Hbad | Hbad ].
    + now apply Hbad in Hname.
    + apply Hbad in Hamount. apply Qlt_not_le in Hamount. contradiction.
  - revert Hparse. unfold postGoalSchema_parse.
    destruct (zStringMin1 _ _ _ _);
      destruct (zOptional _ (GoalBody.description body));
      destruct (zNumberMin1 _ _ _ _);
      destruct (zOptional _ (GoalBody.targetDate body));
      intros [= <-]; simpl; eauto.
Qed.

Lemma patchGoalSchema_parse_Ok (body : GoalBody.t)
    (validated : ValidatedGoalUpdate.t) :
  patchGoalSchema_parse issueText body = Ok validated ->
  zOptional (zStringMin1 issueText "name" None) (GoalBody.name body)
  = inr (ValidatedGoalUpdate.name validated)
  /\ zOptional (zNumberMin1 issueText "targetAmount" None)
       (GoalBody.targetAmount body)
     = inr (ValidatedGoalUpdate.targetAmount validated)
  /\ zOptional (zString issueText "targetDate") (GoalBody.targetDate body)
     = inr (ValidatedGoalUpdate.targetDate validated)
  /\ zOptional (zBoolean issueText "completed") (GoalBody.completed body)
     = inr (ValidatedGoalUpdate.completed validated).
Proof.
  unfold patchGoalSchema_parse.
  destruct (zOptional _ (GoalBody.name body)) as [ ? | name ];
    destruct (zOptional _ (GoalBody.description body)) as [ ? | description ];
    destruct (zOptional _ (GoalBody.targetAmount body)) as [ ? | targetAmount ];
    destruct (zOptional _ (GoalBody.targetDate body)) as [ ? | targetDate ];
    destruct (zOptional _ (GoalBody.completed body)) as [ ? | completed ];
    try discriminate.
  intros [= <-]. simpl. tauto.
Qed.

End GoalSchemas.

(** Two lists in descending order of a column that takes no value twice
    are one list when they hold the same rows. *)
Lemma sorted_unique {A : Type} (column : A -> Z) (l1 l2 : list A) :
  StronglySorted (fun a b => column b <= column a) l1 ->
  StronglySorted (fun a b => column b <= column a) l2 ->
  Permutation l1 l2 ->
  NoDup (map column l2) ->
  l1 = l2.
Proof.
  intro H1. revert l2.
  induction H1 as [ | a l1 Hsorted1 IH Hall1 ]; intros l2 H2 Hperm Hdistinct.
  - apply Permutation_nil in Hperm. now subst.
  - destruct H2 as [ | b l2 Hsorted2 Hall2 ].
    + apply Permutation_sym, Permutation_nil in Hperm. discriminate.
    + rewrite Forall_forall in Hall1, Hall2.
      inversion Hdistinct as [ | ? ? Hb Hdistinct' ]; subst.
      assert (Hsame : a = b).
      { assert (Ha : In a (b :: l2)) by (apply (Permutation_in _ Hperm); now left).
        assert (Hb' : In b (a :: l1))
          by (apply (Permutation_in _ (Permutation_sym Hperm)); now left).
        destruct Ha as [ Ha | Ha ]; [ now symmetry | ].
        destruct Hb' as [ Hb' | Hb' ]; [ assumption | ].
        exfalso. apply Hb.
        pose proof (Hall2 _ Ha) as Hle. pose proof (Hall1 _ Hb') as Hge.
        assert (Heq : column a = column b) by lia.
        rewrite <- Heq. now apply in_map. }
      subst b. f_equal. apply IH; trivial.
      now apply Permutation_cons_inv in Hperm.
Qed.

Lemma StronglySorted_map_key {A : Type} (column : A -> Z) (f : A -> A) (l : list A) :
  (forall a : A, column (f a) = column a) ->
  StronglySorted (fun a b => column b <= column a) l ->
  StronglySorted (fun a b => column b <= column a) (map f l).
Proof.
  intro Hf.
  induction 1 as [ | a l Hsorted IH Hall ]; simpl; constructor; trivial.
  rewrite Forall_map. eapply Forall_impl; [ | exact Hall ].
  intros b Hb. simpl. now rewrite !Hf.
Qed.

Lemma In_orderBy_desc {A : Type} (column : A -> Z) (rows : list A) (a : A) :
  In a (orderBy_desc column rows) <-> In a rows.
Proof.
  split; intro H.
  - exact (Permutation_in _ (orderBy_desc_perm column rows) H).
  - exact (Permutation_in _ (Permutation_sym (orderBy_desc_perm column rows)) H).
Qed.

Section GoalHandlers.

Variable parseInt : string -> option Z.
Variable parseFloat : string -> option Q.
Variable Date_parse : string -> option Z.
Variable nextval : relation -> Db -> Z.
Variable issueText : string -> JsValue -> string.

Local Abbreviation create := (post_goals parseFloat Date_parse nextval issueText).
Local Abbreviation update :=
  (patch_goals_id parseInt parseFloat Date_parse issueText).

(** X10.  A goal is validated before the store is touched: when the name
    of the body is not a string or is empty, or the target amount does not
    read as a number of at least 1 (an absent one reads as [NaN]), the
    answer is 400 with the list of issues and the store is as it was, also
    when the store could not have served the goals. *)
Theorem post_goals_rejects :
  forall (now : Z) (user : JwtPayload.t) (body : GoalBody.t) (db : Db),
    (forall s : string, GoalBody.name body = VString s -> s = "")
    \/ (forall n : Q,
          parseFloat_value parseFloat (GoalBody.targetAmount body) = VNumber n ->
          (n < 1)%Q) ->
    exists (first : string) (others : list string),
      create now user body db
      = (reply 400 (JValidation "Ошибка валидации" (first :: others)), db).
Proof.
  intros now user body db Hbad. unfold post_goals.
  destruct (@postGoalSchema_parse_Throw issueText
              {| GoalBody.name := GoalBody.name body;
                 GoalBody.description := GoalBody.description body;
                 GoalBody.targetAmount :=
                   parseFloat_value parseFloat (GoalBody.targetAmount body);
                 GoalBody.targetDate := GoalBody.targetDate body;
                 GoalBody.completed := GoalBody.completed body |} Hbad)
    as (first & others & Hparse).
  rewrite Hparse. exists first, others. reflexivity.
Qed.

(** X11.  A creation that answers 201 has added one goal at the end of
    the goals and nothing else: the goal belongs to the caller, bears the
    name of the body, which is not empty, and the target amount read from
    the body, which is at least 1; it starts with nothing saved and not
    completed.  The listing of the caller's goals shows it, and so does
    the listing of the active goals when it has no target date or one that
    is not on a day before today. *)
Theorem post_goals_created :
  forall (now : Z) (user : JwtPayload.t) (body : GoalBody.t) (db : Db),
    code (fst (create now user body db)) = 201 ->
    exists goal : Goal.t,
      create now user body db
      = ({| code := 201; content := OfGoal goal |},
         with_goals db (goals db ++ [goal])%list)
      /\ Goal.userId goal = JwtPayload.userId user
      /\ GoalBody.name body = VString (Goal.name goal)
      /\ Goal.name goal <> ""
      /\ parseFloat_value parseFloat (GoalBody.targetAmount body)
         = VNumber (Goal.targetAmount goal)
      /\ (1 <= Goal.targetAmount goal)%Q
      /\ Goal.currentSaved goal = 0%Q
      /\ Goal.completed goal = false
      /\ Goal.createdAt goal = now
      /\ (exists rows : list Goal.t,
            get_goals user (snd (create now user body db)) = json (JGoals rows)
            /\ In goal rows)
      /\ ((forall d : Z,
             Goal.targetDate goal = Some d -> Js.dayNumber now <= Js.dayNumber d) ->
          exists rows : list Goal.t,
            get_goals_active now user (snd (create now user body db))
            = json (JGoals rows)
            /\ In goal rows).
Proof.
  intros now user body db. unfold post_goals.
  destruct (postGoalSchema_parse issueText _) as [ validated | [ first others | m ] ]
    eqn:Hparse; try discriminate.
  apply postGoalSchema_parse_Ok in Hparse. simpl in Hparse.
  destruct Hparse as (Hname & Hfilled & Hamount & Hone & _).
  unfold DatabaseStorage.createGoal. cbn [InsertGoal.targetDate].
  destruct (dateOrUndefined Date_parse (ValidatedGoal.targetDate validated))
    as [ [ d | ] | ]; [ | discriminate | ];
    (unfold statement;
     destruct (failure db Goals) as [ m | ] eqn:Hdb; [ discriminate | ];
     intros _; eexists; (split; [ reflexivity | ]);
     cbn [Goal.userId Goal.name Goal.targetAmount Goal.currentSaved Goal.completed
          Goal.createdAt Goal.targetDate InsertGoal.userId InsertGoal.name
          InsertGoal.targetAmount InsertGoal.targetDate InsertGoal.description
          fst snd];
     do 8 (split; [ assumption || reflexivity | ]);
     split;
     [ unfold get_goals, Storage.getUserGoals, statement;
       cbn [failure with_goals goals]; rewrite Hdb;
       eexists; (split; [ reflexivity | ]);
       apply In_orderBy_desc, filter_In; split;
       [ apply in_or_app; right; left; reflexivity | apply Z.eqb_refl ]
     | intro Hdate;
       unfold get_goals_active, Storage.getActiveGoals, statement;
       cbn [failure with_goals goals]; rewrite Hdb;
       eexists; (split; [ reflexivity | ]);
       apply In_orderBy_desc, filter_In; split;
       [ apply in_or_app; right; left; reflexivity | ];
       cbn [Goal.userId Goal.targetAmount Goal.currentSaved Goal.targetDate];
       rewrite Z.eqb_refl;
       destruct (lt_reflect goals_currentSaved_default
                   (ValidatedGoal.targetAmount validated)) as [ _ | Hnot ];
       [ try reflexivity; apply Z.leb_le, Hdate; reflexivity
       | exfalso; apply Hnot; unfold goals_currentSaved_default;
         eapply Qlt_le_trans; [ | exact Hone ]; reflexivity ] ]).
Qed.

(** What a [PATCH] that answers 200 has done: it was addressed to a goal of
    the caller, and every goal with the id has been set from one update. *)
Lemma patch_goals_effect (now : Z) (user : JwtPayload.t) (id : string)
    (body : GoalBody.t) (db : Db) (goalId : Z) :
  parseInt id = Some goalId ->
  code (fst (update now user id body db)) = 200 ->
  exists (updateData : PartialGoal.t) (own : Goal.t),
    failure db Goals = None
    /\ key db goalId = true
    /\ find (fun g => Goal.id g =? goalId) (goals db) = Some own
    /\ Goal.userId own = JwtPayload.userId user
    /\ snd (update now user id body db)
       = with_goals db
           (map (fun g =>
                   if Goal.id g =? goalId
                   then DatabaseStorage.setGoal now updateData g else g)
                (goals db))
    /\ (GoalBody.name body = VUndefined -> PartialGoal.name updateData = None)
    /\ (isTruthy (GoalBody.targetAmount body) = false ->
        PartialGoal.targetAmount updateData = None)
    /\ (GoalBody.targetDate body = VUndefined ->
        PartialGoal.targetDate updateData = None)
    /\ (GoalBody.completed body = VUndefined ->
        PartialGoal.completed updateData = None)
    /\ (forall b : bool,
          GoalBody.completed body = VBool b ->
          PartialGoal.completed updateData = Some b).
Proof.
  intro Hid. unfold patch_goals_id. rewrite Hid.
  destruct (patchGoalSchema_parse issueText _) as [ validated | [ first others | m ] ]
    eqn:Hparse; try discriminate.
  apply patchGoalSchema_parse_Ok in Hparse.
  cbn [GoalBody.name GoalBody.targetAmount GoalBody.targetDate GoalBody.completed]
    in Hparse.
  destruct Hparse as (Hname & Hamount & Hdate & Hcompleted).
  unfold Storage.getGoal, DatabaseStorage.updateGoal, statementOn, statement.
  destruct (failure db Goals) as [ m | ] eqn:Hdb; [ discriminate | ].
  destruct (key db goalId) eqn:Hkey; [ | discriminate ].
  destruct (find (fun g => Goal.id g =? goalId) (goals db)) as [ own | ] eqn:Hfind;
    [ | discriminate ].
  destruct (Goal.userId own =? JwtPayload.userId user) eqn:Hown; [ | discriminate ].
  cbn [negb PartialGoal.targetDate].
  destruct (dateOrUndefined Date_parse (ValidatedGoalUpdate.targetDate validated))
    as [ [ d | ] | ] eqn:Hd; [ | discriminate | ];
    (intros _; eexists; exists own;
     (split; [ reflexivity | ]); (split; [ reflexivity | ]);
     (split; [ reflexivity | ]);
     (split; [ now apply Z.eqb_eq | ]);
     split;
     [ match goal with
       | |- snd (match find ?f ?rows with _ => _ end) = _ => destruct (find f rows)
       end; reflexivity
     | ];
     cbn [PartialGoal.name PartialGoal.targetAmount PartialGoal.targetDate
          PartialGoal.completed];
     (split; [ intro H; rewrite H in Hname; now injection Hname as <- | ]);
     (split; [ intro H; rewrite H in Hamount; now injection Hamount as <- | ]);
     (split;
      [ intro H; rewrite H in Hdate; injection Hdate as Hnone;
        rewrite <- Hnone in Hd; first [ discriminate Hd | reflexivity ] | ]);
     (split; [ intro H; rewrite H in Hcompleted; now injection Hcompleted as <- | ]);
     intros b H; rewrite H in Hcompleted; now injection Hcompleted as <-).
Qed.


(** The listing of the active goals reads neither the name nor the
    description nor the flag of a goal. *)
Lemma filter_map {A B : Type} (f : A -> B) (p : B -> bool) (l : list A) :
  filter p (map f l) = map f (filter (fun a => p (f a)) l).
Proof.
  induction l as [ | a l IH ]; simpl; trivial.
  destruct (p (f a)); simpl; now rewrite IH.
Qed.

(** X13.  Completing a goal does not make it inactive.  After an update
    that answers 200 and carries neither a target amount nor a target
    date, the listing of the active goals shows the goals it showed before,
    each as often, newest first, the one that the update marked completed
    among them with its flag set; when no two of them were created at the
    same instant, they are in the same order as before. *)
Theorem completed_goal_stays_active :
  forall (now : Z) (user reader : JwtPayload.t) (id : string) (body : GoalBody.t)
         (db : Db) (goalId : Z) (rows : list Goal.t),
    parseInt id = Some goalId ->
    isTruthy (GoalBody.targetAmount body) = false ->
    GoalBody.targetDate body = VUndefined ->
    code (fst (update now user id body db)) = 200 ->
    get_goals_active now reader db = json (JGoals rows) ->
    exists rows' : list Goal.t,
      get_goals_active now reader (snd (update now user id body db))
      = json (JGoals rows')
      /\ Permutation (map Goal.id rows') (map Goal.id rows)
      /\ Spec.newestFirst rows'
      /\ (NoDup (map Goal.createdAt rows) -> map Goal.id rows' = map Goal.id rows)
      /\ (forall b : bool,
            GoalBody.completed body = VBool b ->
            forall g' : Goal.t,
              In g' rows' -> Goal.id g' = goalId -> Goal.completed g' = b).
Proof.
  intros now user reader id body db goalId rows Hid Hamount Hdate H200.
  destruct (@patch_goals_effect now user id body db goalId Hid H200)
    as (updateData & own & Hdb & _ & _ & _ & Hstore & _ & Hsum & Hday & _ & Hflag).
  specialize (Hsum Hamount). specialize (Hday Hdate).
  rewrite Hstore.
  unfold get_goals_active, Storage.getActiveGoals, statement.
  cbn [failure goals with_goals]. rewrite Hdb.
  intros [= <-].
  set (f := fun g : Goal.t =>
              if Goal.id g =? goalId
              then DatabaseStorage.setGoal now updateData g else g).
  assert (Hf : forall g, Goal.userId (f g) = Goal.userId g
                         /\ Goal.currentSaved (f g) = Goal.currentSaved g
                         /\ Goal.targetAmount (f g) = Goal.targetAmount g
                         /\ Goal.targetDate (f g) = Goal.targetDate g
                         /\ Goal.createdAt (f g) = Goal.createdAt g
                         /\ Goal.id (f g) = Goal.id g).
  { intro g. unfold f. destruct (Goal.id g =? goalId); [ | tauto ].
    unfold DatabaseStorage.setGoal. rewrite Hsum, Hday. simpl. tauto. }
  eexists. split; [ reflexivity | ].
  match goal with
  | |- context [orderBy_desc Goal.createdAt (filter ?keep (goals db))] =>
      set (before := filter keep (goals db))
  end.
  match goal with
  | |- context [orderBy_desc Goal.createdAt (filter ?keep (map f (goals db)))] =>
      assert (Hafter : filter keep (map f (goals db)) = map f before)
  end.
  { rewrite filter_map. unfold before. f_equal. apply filter_ext.
    intro g. destruct (Hf g) as (-> & -> & -> & -> & _). reflexivity. }
  rewrite Hafter. clear Hafter.
  assert (Hids : forall l : list Goal.t, map Goal.id (map f l) = map Goal.id l).
  { intro l. rewrite map_map. apply map_ext. intro g. apply Hf. }
  assert (Htimes : forall l : list Goal.t,
             map Goal.createdAt (map f l) = map Goal.createdAt l).
  { intro l. rewrite map_map. apply map_ext. intro g. apply Hf. }
  assert (Hperm : Permutation (orderBy_desc Goal.createdAt (map f before))
                    (map f (orderBy_desc Goal.createdAt before))).
  { rewrite orderBy_desc_perm. apply Permutation_map. symmetry.
    apply orderBy_desc_perm. }
  split; [ | split; [ apply orderBy_desc_sorted | split ] ].
  - rewrite (Permutation_map Goal.id Hperm), Hids. reflexivity.
  - intro Hdistinct.
    rewrite <- (Hids (orderBy_desc Goal.createdAt before)). f_equal.
    apply (@sorted_unique _ Goal.createdAt).
    + apply orderBy_desc_sorted.
    + apply (@StronglySorted_map_key _ Goal.createdAt f).
      * intro g. apply Hf.
      * apply orderBy_desc_sorted.
    + exact Hperm.
    + rewrite Htimes. exact Hdistinct.
  - intros b Hb g' Hin Hgoal.
    apply In_orderBy_desc in Hin.
    apply in_map_iff in Hin. destruct Hin as (g & <- & _).
    destruct (Hf g) as (_ & _ & _ & _ & _ & Hsame).
    rewrite Hsame in Hgoal. unfold f. apply Z.eqb_eq in Hgoal. rewrite Hgoal.
    simpl. now rewrite (Hflag b Hb).
Qed.

End GoalHandlers.

Lemma post_goals_rejects_witness :
  exists (first : string) (others : list string),
    post_goals Sample.parseFloat Sample.Date_parse Sample2.nextval
      Sample2.issueText Sample.now Sample.asAlice Sample2.markCompleted
      (Sample.failing (Sample.store [] Sample.someGoals) Goals goals_missing)
    = (reply 400 (JValidation "Ошибка валидации" (first :: others)),
       Sample.failing (Sample.store [] Sample.someGoals) Goals goals_missing).
Proof.
  apply (@post_goals_rejects Sample.parseFloat Sample.Date_parse Sample2.nextval
           Sample2.issueText Sample.now Sample.asAlice Sample2.markCompleted).
  left. intros s H. discriminate H.
Defined.

Lemma post_goals_created_witness :
  exists (goal : Goal.t) (rows : list Goal.t),
    get_goals_active Sample.now Sample.asAlice
      (snd (post_goals Sample.parseFloat Sample.Date_parse Sample2.nextval
              Sample2.issueText Sample.now Sample.asAlice Sample2.tent
              (Sample.store [] Sample.someGoals)))
    = json (JGoals rows)
    /\ In goal rows
    /\ Goal.name goal = "Tent"
    /\ Goal.userId goal = 1
    /\ Goal.currentSaved goal = 0%Q.
Proof.
  destruct (@post_goals_created Sample.parseFloat Sample.Date_parse Sample2.nextval
              Sample2.issueText Sample.now Sample.asAlice Sample2.tent
              (Sample.store [] Sample.someGoals) eq_refl)
    as (goal & Hcreated & Howner & Hname & _ & _ & _ & Hsaved & _ & _ & _ & Hactive).
  assert (Hdate : Goal.targetDate goal = None).
  { pose proof (f_equal (fun answer => content (fst answer)) Hcreated) as Hgoal.
    vm_compute in Hgoal. injection Hgoal as <-. reflexivity. }
  destruct Hactive as (rows & Hrows & Hin).
  { intros d Hd. rewrite Hdate in Hd. discriminate Hd. }
  exists goal, rows. split; [ exact Hrows | ]. split; [ exact Hin | ].
  split; [ now injection Hname as <- | ]. split; [ exact Howner | exact Hsaved ].
Defined.


Lemma completed_goal_stays_active_witness :
  exists rows' : list Goal.t,
    get_goals_active Sample.now Sample.asAlice
      (snd (patch_goals_id Sample.parseInt Sample.parseFloat Sample.Date_parse
              Sample2.issueText Sample.now Sample.asAlice "1" Sample2.markCompleted
              (Sample.store [] Sample.someGoals)))
    = json (JGoals rows')
    /\ Spec.newestFirst rows'
    /\ map Goal.id rows' = [6; 4; 1]
    /\ (forall g' : Goal.t,
          In g' rows' -> Goal.id g' = 1 -> Goal.completed g' = true).
Proof.
  destruct (@completed_goal_stays_active Sample.parseInt Sample.parseFloat
              Sample.Date_parse Sample2.issueText Sample.now Sample.asAlice
              Sample.asAlice "1" Sample2.markCompleted
              (Sample.store [] Sample.someGoals) 1
              [Sample.camera; Sample.course; Sample.bike]
              eq_refl eq_refl eq_refl eq_refl eq_refl)
    as (rows' & Hrows & _ & Hsorted & Hids & Hflag).
  exists rows'. split; [ exact Hrows | ]. split; [ exact Hsorted | ].
  split; [ | exact (Hflag true eq_refl) ].
  apply Hids. cbn [map Goal.createdAt Sample.camera Sample.course Sample.bike
                   Sample.goal].
  repeat constructor; cbn [In]; intro H;
    repeat (destruct H as [ H | H ]; [ discriminate | ]); exact H.
Defined.

Lemma find_filter_out_key {A : Type} (key : A -> Z) (n : Z) (rows : list A) :
  find (fun a => key a =? n) (filter (fun a => negb (key a =? n)) rows) = None.
Proof.
  induction rows as [ | a rows IH ]; simpl; trivial.
  destruct (key a =? n) eqn:E; simpl; trivial. now rewrite E.
Qed.

Lemma find_none_key {A : Type} (key : A -> Z) (n : Z) (rows : list A) :
  (forall a : A, In a rows -> key a <> n) ->
  find (fun a => key a =? n) rows = None.
Proof.
  intro H. destruct (find _ rows) as [ a | ] eqn:E; trivial.
  apply find_some in E. destruct E as [Hin Hid].
  apply Z.eqb_eq in Hid. now apply H in Hin.
Qed.

(** X14.  The outcomes of deleting a goal.  For an id that [parseInt]
    reads as [n]: when [n] does not fit the key of the store the answer is
    500 and the store is as it was; when it fits, the store serves the
    goals and no goal has the id, the answer is 404; when the goal belongs
    to another user the answer is 403 and the store is as it was;
    otherwise the answer is 204, the goal is gone from the store and from
    both listings of its owner (deleting it again is a 404), every goal
    with another id is kept, and the transactions, the ones that credited
    the goal among them, are as they were. *)
Theorem deleteGoal_outcomes :
  forall (parseInt : string -> option Z) (now : Z) (user : JwtPayload.t)
         (id : string) (db : Db) (n : Z),
    parseInt id = Some n ->
    let answer := delete_goals_id parseInt user id db in
    (key db n = false ->
     answer = (status_json 500 (JMessage "Ошибка удаления цели"), db))
    /\ (key db n = true ->
        failure db Goals = None ->
        (forall g : Goal.t, In g (goals db) -> Goal.id g <> n) ->
        answer = (status_json 404 (JMessage "Цель не найдена"), db))
    /\ (forall g : Goal.t,
          Storage.getGoal db n = Ok (Some g) ->
          Goal.userId g <> JwtPayload.userId user ->
          answer = (status_json 403 (JMessage "Доступ запрещен"), db))
    /\ (forall g : Goal.t,
          Storage.getGoal db n = Ok (Some g) ->
          Goal.userId g = JwtPayload.userId user ->
          fst answer = status_send 204
          /\ fst (delete_goals_id parseInt user id (snd answer))
             = status_json 404 (JMessage "Цель не найдена")
          /\ (forall g' : Goal.t,
                In g' (goals (snd answer)) <-> In g' (goals db) /\ Goal.id g' <> n)
          /\ (exists rows : list Goal.t,
                get_goals user (snd answer) = json (JGoals rows)
                /\ forall g' : Goal.t, In g' rows -> Goal.id g' <> n)
          /\ (exists rows : list Goal.t,
                get_goals_active now user (snd answer) = json (JGoals rows)
                /\ forall g' : Goal.t, In g' rows -> Goal.id g' <> n)
          /\ users (snd answer) = users db
          /\ categories (snd answer) = categories db
          /\ transactions (snd answer) = transactions db
          /\ transactions_id_seq (snd answer) = transactions_id_seq db).
Proof.
  intros parseInt now user id db n Hid answer. subst answer.
  unfold delete_goals_id. rewrite Hid.
  unfold Storage.getGoal, Storage.deleteGoal, statementOn, statement.
  split; [ | split ].
  - intros ->. destruct (failure db Goals); reflexivity.
  - intros -> -> Hnone. now rewrite (@find_none_key _ Goal.id n (goals db) Hnone).
  - destruct (failure db Goals) as [ message | ] eqn:Hdb;
      [ split; intros; discriminate | ].
    destruct (key db n) eqn:Hkey; [ | split; intros; discriminate ].
    destruct (find (fun g => Goal.id g =? n) (goals db)) as [ g0 | ];
      split; try (intros; discriminate);
      intros g H; injection H as <-.
    + intros Hother. apply Z.eqb_neq in Hother. now rewrite Hother.
    + intros Hown. apply Z.eqb_eq in Hown. rewrite Hown.
      cbn [negb fst snd with_goals goals failure key users categories transactions
           transactions_id_seq].
      rewrite Hdb, Hkey, find_filter_out_key.
      do 2 (split; [ reflexivity | ]).
      assert (Hleft : forall g' : Goal.t,
                 In g' (filter (fun g => negb (Goal.id g =? n)) (goals db))
                 <-> In g' (goals db) /\ Goal.id g' <> n).
      { intro g'. rewrite filter_In, negb_true_iff, Z.eqb_neq. reflexivity. }
      split; [ exact Hleft | ].
      split; [ | split; [ | repeat split ] ].
      * unfold get_goals, Storage.getUserGoals, statement.
        cbn [failure goals with_goals]. rewrite Hdb.
        eexists. split; [ reflexivity | ].
        intros g' Hin. apply In_orderBy_desc, filter_In in Hin.
        now apply Hleft.
      * unfold get_goals_active, Storage.getActiveGoals, statement.
        cbn [failure goals with_goals]. rewrite Hdb.
        eexists. split; [ reflexivity | ].
        intros g' Hin. apply In_orderBy_desc, filter_In in Hin.
        now apply Hleft.
Qed.

Lemma deleteGoal_outcomes_witness :
  let db := Sample.store Sample.march Sample.someGoals in
  delete_goals_id Sample.parseInt Sample.asAlice "99999999999" db
  = (status_json 500 (JMessage "Ошибка удаления цели"), db)
  /\ delete_goals_id Sample.parseInt Sample.asAlice "9" db
     = (status_json 404 (JMessage "Цель не найдена"), db)
  /\ delete_goals_id Sample.parseInt Sample.asBob "1" db
     = (status_json 403 (JMessage "Доступ запрещен"), db)
  /\ fst (delete_goals_id Sample.parseInt Sample.asAlice "1" db) = status_send 204
  /\ transactions (snd (delete_goals_id Sample.parseInt Sample.asAlice "1" db))
     = Sample.march.
Proof.
  intro db.
  destruct (@deleteGoal_outcomes Sample.parseInt Sample.now Sample.asAlice
              "99999999999" db 99999999999 eq_refl) as (H500 & _).
  destruct (@deleteGoal_outcomes Sample.parseInt Sample.now Sample.asAlice "9" db 9
              eq_refl) as (_ & H404 & _).
  destruct (@deleteGoal_outcomes Sample.parseInt Sample.now Sample.asBob "1" db 1
              eq_refl) as (_ & _ & H403 & _).
  destruct (@deleteGoal_outcomes Sample.parseInt Sample.now Sample.asAlice "1" db 1
              eq_refl) as (_ & _ & _ & H204).
  split; [ apply H500; reflexivity | ].
  split.
  { apply H404; [ reflexivity | reflexivity | ].
    intros g Hg. cbn [goals db Sample.store Sample.someGoals In] in Hg.
    repeat (destruct Hg as [ <- | Hg ]; [ discriminate | ]). destruct Hg. }
  split; [ apply (H403 Sample.bike); [ reflexivity | discriminate ] | ].
  destruct (H204 Sample.bike eq_refl eq_refl)
    as (Hstatus & _ & _ & _ & _ & _ & _ & Hkept & _).
  split; [ exact Hstatus | exact Hkept ].
Defined.

(* ================================================================= *)
(** ** The two listings of goals *)

Lemma filter_filter_sub {A : Type} (keep within : A -> bool) (l : list A) :
  (forall a : A, keep a = true -> within a = true) ->
  filter keep (filter within l) = filter keep l.
Proof.
  intro Hsub. induction l as [ | a l IH ]; simpl; trivial.
  destruct (within a) eqn:Hw; simpl.
  - now rewrite IH.
  - destruct (keep a) eqn:Hk; [ | exact IH ].
    apply Hsub in Hk. congruence.
Qed.

Lemma filter_Permutation {A : Type} (p : A -> bool) (l l' : list A) :
  Permutation l l' -> Permutation (filter p l) (filter p l').
Proof.
  induction 1 as [ | a l l' H IH | a b l | l l' l'' H IH H' IH' ]; simpl.
  - constructor.
  - destruct (p a); [ now constructor | exact IH ].
  - destruct (p a), (p b); try reflexivity. apply perm_swap.
  - now transitivity (filter p l').
Qed.

Lemma filter_StronglySorted {A : Type} (R : A -> A -> Prop) (p : A -> bool)
    (l : list A) :
  StronglySorted R l -> StronglySorted R (filter p l).
Proof.
  induction 1 as [ | a l Hsorted IH Hall ]; simpl; [ constructor | ].
  destruct (p a); [ | exact IH ]. constructor; [ exact IH | ].
  apply Forall_forall. intros b Hb. apply filter_In in Hb.
  rewrite Forall_forall in Hall. now apply Hall.
Qed.

(** Rows that do not agree on a column still do not when some are left
    out. *)
Lemma filter_NoDup_map {A : Type} (keep : A -> bool) (column : A -> Z)
    (rows : list A) :
  NoDup (map column rows) -> NoDup (map column (filter keep rows)).
Proof.
  intro Hdistinct. induction rows as [ | row rows IH ]; cbn [filter]; trivial.
  cbn [map] in Hdistinct. apply NoDup_cons_iff in Hdistinct.
  destruct Hdistinct as [Hrow Hrows].
  destruct (keep row); [ cbn [map]; constructor | ]; try now apply IH.
  intro Hin. apply Hrow. apply in_map_iff in Hin. destruct Hin as (b & Hb & Hin).
  apply filter_In in Hin. apply in_map_iff. exists b. tauto.
Qed.

(** X15.  When the store serves the goals, the listing of the active goals
    holds the rows of the listing of the goals that are active, each as
    often, none added, newest first; when no two goals of the caller were
    created at the same instant, it is the listing of the goals with the
    goals that are not active left out: the same rows in the same order. *)
Theorem activeGoals_sublist_of_goals :
  forall (now : Z) (user : JwtPayload.t) (db : Db),
    failure db Goals = None ->
    exists (all active : list Goal.t) (keep : Goal.t -> bool),
      get_goals user db = json (JGoals all)
      /\ get_goals_active now user db = json (JGoals active)
      /\ Permutation active (filter keep all)
      /\ Spec.newestFirst active
      /\ (NoDup (map Goal.createdAt all) -> active = filter keep all)
      /\ (forall g : Goal.t,
            In g all ->
            (keep g = true
             <-> Spec.active (JwtPayload.userId user) (Js.dayNumber now) g)).
Proof.
  intros now user db Hdb.
  unfold get_goals, get_goals_active, Storage.getUserGoals, Storage.getActiveGoals,
    statement.
  rewrite Hdb.
  eexists. eexists.
  exists (fun g =>
            (Goal.userId g =? JwtPayload.userId user)
            && Js.lt (Goal.currentSaved g) (Goal.targetAmount g)
            && match Goal.targetDate g with
               | None => true
               | Some targetDate => Js.dayNumber now <=? Js.dayNumber targetDate
               end).
  split; [ reflexivity | ]. split; [ reflexivity | ].
  match goal with
  | |- Permutation (orderBy_desc _ (filter ?keep _))
         (filter _ (orderBy_desc _ (filter ?own _))) /\ _ =>
      assert (Hperm : Permutation
                        (orderBy_desc Goal.createdAt (filter keep (goals db)))
                        (filter keep
                           (orderBy_desc Goal.createdAt (filter own (goals db)))))
  end.
  { rewrite orderBy_desc_perm.
    rewrite (filter_Permutation _ (orderBy_desc_perm _ _)).
    rewrite filter_filter_sub; [ reflexivity | ].
    intros g H. now apply andb_true_iff in H as [H%andb_true_iff _]. }
  split; [ exact Hperm | ].
  split; [ apply orderBy_desc_sorted | ].
  split.
  - intro Hdistinct. apply (@sorted_unique _ Goal.createdAt).
    + apply orderBy_desc_sorted.
    + apply filter_StronglySorted, orderBy_desc_sorted.
    + exact Hperm.
    + now apply filter_NoDup_map.
  - intros g _. unfold Spec.active.
    rewrite !andb_true_iff, Z.eqb_eq.
    destruct (lt_reflect (Goal.currentSaved g) (Goal.targetAmount g));
      destruct (Goal.targetDate g) as [ d | ].
    + rewrite Z.leb_le. split.
      * intros [[Hu _] Hd]. repeat split; trivial.
        intros d' [= <-]. lia.
      * intros (Hu & _ & Hd). repeat split; trivial.
        specialize (Hd d eq_refl). lia.
    + split.
      * intros [[Hu _] _]. repeat split; trivial. discriminate.
      * intros (Hu & _ & _). repeat split; trivial.
    + split; [ intros [[_ Hf] _]; discriminate | tauto ].
    + split; [ intros [[_ Hf] _]; discriminate | tauto ].
Qed.

Lemma activeGoals_sublist_of_goals_witness :
  let db :=
    Sample.store []
      [Sample.bike; Sample.trip; Sample.laptop; Sample.drill; Sample.camera] in
  exists (all active : list Goal.t) (keep : Goal.t -> bool),
    get_goals Sample.asAlice db = json (JGoals all)
    /\ get_goals_active Sample.now Sample.asAlice db = json (JGoals active)
    /\ active = filter keep all
    /\ map Goal.name all = ["Camera"; "Laptop"; "Trip"; "Bike"]
    /\ map Goal.name active = ["Camera"; "Bike"].
Proof.
  intro db.
  destruct (@activeGoals_sublist_of_goals Sample.now Sample.asAlice db eq_refl)
    as (all & active & keep & Hall & Hactive & _ & _ & Hsame & _).
  exists all, active, keep. split; [ exact Hall | ]. split; [ exact Hactive | ].
  vm_compute in Hall. injection Hall as <-.
  vm_compute in Hactive. injection Hactive as <-.
  split; [ | split; reflexivity ].
  apply Hsame. repeat constructor; cbn [In]; intro H;
    repeat (destruct H as [ H | H ]; [ discriminate | ]); exact H.
Defined.

(* ================================================================= *)
(** ** The statistics of a user, the dashboard and the report *)

Lemma hd_error_filter {A : Type} (f : A -> bool) (l : list A) :
  hd_error (filter f l) = find f l.
Proof.
  induction l as [ | a l IH ]; simpl; trivial.
  destruct (f a); [ reflexivity | exact IH ].
Qed.

Lemma Qfloor_div (a : Z) (p : positive) :
  Qfloor (inject_Z a / inject_Z (Zpos p)) = a / Zpos p.
Proof.
  unfold Qdiv, Qmult, Qinv, inject_Z, Qfloor. cbn [Qnum Qden].
  now rewrite Z.mul_1_r.
Qed.

(** X16.  The statistics of a user, when the store serves the users and
    the transactions: the count is the number of the user's transactions of
    all time; the age of the account is the number of whole days between
    the creation of the user's row and the clock (negative for a row
    created after the clock), and 0 for a user without a row. *)
Theorem userStats_counts_whole_days :
  forall (now : Z) (user : JwtPayload.t) (db : Db),
    failure db Transactions = None ->
    failure db Users = None ->
    exists stats : UserStats,
      get_user_stats now user db = {| code := 200; content := OfStats stats |}
      /\ us_totalTransactions stats
         = Z.of_nat
             (List.length
                (filter (fun t => Transaction.userId t =? JwtPayload.userId user)
                   (transactions db)))
      /\ (forall u : User.t,
            DatabaseStorage.getUser db (JwtPayload.userId user) = Ok (Some u) ->
            exists days : Z,
              accountAge stats = inject_Z days
              /\ days * Js.msPerDay <= now - User.createdAt u
                 < (days + 1) * Js.msPerDay)
      /\ (DatabaseStorage.getUser db (JwtPayload.userId user) = Ok None ->
          accountAge stats = 0%Q).
Proof.
  intros now user db Htransactions Husers.
  unfold get_user_stats, Storage.getUserStats, DatabaseStorage.getUser, statement.
  rewrite Htransactions, Husers.
  cbn [bind]. eexists. split; [ reflexivity | ].
  cbn [us_totalTransactions accountAge]. split; [ reflexivity | ].
  rewrite hd_error_filter. split.
  - intros u [= Hfind]. rewrite Hfind.
    exists ((now - User.createdAt u) / Js.msPerDay). split.
    + unfold Js.Math_floor. f_equal. apply Qfloor_div.
    + unfold Js.msPerDay. Z.to_euclidean_division_equations. lia.
  - intros [= Hfind]. now rewrite Hfind.
Qed.

Lemma userStats_counts_whole_days_witness :
  exists stats : UserStats,
    get_user_stats Sample.now Sample.asAlice (Sample.store Sample.march [])
    = {| code := 200; content := OfStats stats |}
    /\ us_totalTransactions stats = 4
    /\ exists days : Z,
         accountAge stats = inject_Z days
         /\ days * Js.msPerDay <= Sample.now - User.createdAt Sample.alice
            < (days + 1) * Js.msPerDay.
Proof.
  destruct (@userStats_counts_whole_days Sample.now Sample.asAlice
              (Sample.store Sample.march []) eq_refl eq_refl)
    as (stats & Hstats & Hcount & Hage & _).
  exists stats. split; [ exact Hstats | ]. split; [ exact Hcount | ].
  exact (Hage Sample.alice eq_refl).
Defined.

Lemma ecoRating_C (totalCo2 : Q) :
  Storage.ecoRating totalCo2 = "C" -> (500 <= totalCo2)%Q.
Proof.
  unfold Storage.ecoRating.
  destruct (lt_reflect totalCo2 50); [ discriminate | ].
  destruct (lt_reflect totalCo2 100); [ discriminate | ].
  destruct (lt_reflect totalCo2 200); [ discriminate | ].
  destruct (lt_reflect totalCo2 300); [ discriminate | ].
  destruct (lt_reflect totalCo2 500) as [ | H ]; [ discriminate | ].
  intros _. now apply Qnot_lt_le.
Qed.

Lemma ecoRating_Aplus (totalCo2 : Q) :
  Storage.ecoRating totalCo2 = "A+" -> (totalCo2 < 50)%Q.
Proof.
  unfold Storage.ecoRating.
  destruct (lt_reflect totalCo2 50); [ trivial | ].
  destruct (lt_reflect totalCo2 100); [ discriminate | ].
  destruct (lt_reflect totalCo2 200); [ discriminate | ].
  destruct (lt_reflect totalCo2 300); [ discriminate | ].
  destruct (lt_reflect totalCo2 500); discriminate.
Qed.

(** X17.  The CO2 reduction of the dashboard is a whole number that is
    never negative; it is at most 100 when no eco impact of the store is
    negative; and it agrees with the rating: it is 0 under the rating "C"
    and at least 90 under the rating "A+". *)
Theorem dashboard_co2Reduction_range :
  forall (now : Z) (db : Db) (userId : Z) (stats : DashboardStats),
    Storage.getDashboardStats now db userId = Ok stats ->
    (exists percent : Z, co2Reduction stats = inject_Z percent /\ 0 <= percent)
    /\ ((forall t : Transaction.t,
           In t (transactions db) -> (0 <= Storage.ecoImpactOrZero t)%Q) ->
        (co2Reduction stats <= 100)%Q)
    /\ (ds_ecoRating stats = "C" -> co2Reduction stats = 0%Q)
    /\ (ds_ecoRating stats = "A+" -> (90 <= co2Reduction stats)%Q).
Proof.
  intros now db userId stats.
  unfold Storage.getDashboardStats, statement.
  destruct (failure db Transactions); [ discriminate | ].
  cbn [bind]. intros [= <-]. cbn [co2Reduction ds_ecoRating].
  rewrite reduce_ecoImpacts, Math_max_0_round. unfold Spec.roundedOrZero.
  match goal with
  | |- context [Spec.added (Spec.ecoImpacts ?rows)] => set (monthly := rows)
  end.
  set (totalCo2 := Spec.added (Spec.ecoImpacts monthly)).
  set (y := Js.times (Js.over (Js.minus 500 totalCo2) 500) 100).
  split; [ | split; [ | split ] ].
  - eexists. split; [ reflexivity | lia ].
  - intro Hpositive.
    assert (Hsum : (0 <= totalCo2)%Q).
    { apply addedTo_nonneg; [ apply Qle_refl | ].
      unfold Spec.ecoImpacts. rewrite Forall_map. apply Forall_forall.
      intros t Ht. unfold monthly in Ht. apply filter_In in Ht.
      destruct Ht as [Ht _]. apply Hpositive in Ht.
      unfold Storage.ecoImpactOrZero in Ht.
      destruct (Transaction.ecoImpact t); [ exact Ht | apply Qle_refl ]. }
    pose proof (reduction_antitone Hsum) as Hy. fold y in Hy.
    assert (H100 : (Js.times (Js.over (Js.minus 500 0) 500) 100 == 100)%Q)
      by (vm_compute; reflexivity).
    change 100%Q with (inject_Z 100). rewrite <- Zle_Qle.
    apply Z.max_lub; [ lia | ]. apply floor_half_le.
    change (inject_Z 100) with 100%Q. lra.
  - intro Hrating. apply ecoRating_C in Hrating. fold totalCo2 in Hrating.
    pose proof (reduction_antitone Hrating) as Hy. fold y in Hy.
    assert (H0 : (Js.times (Js.over (Js.minus 500 500) 500) 100 == 0)%Q)
      by (vm_compute; reflexivity).
    assert (Hfloor : Qfloor (y + (1 # 2)) <= 0).
    { apply floor_half_le. change (inject_Z 0) with 0%Q. lra. }
    rewrite Z.max_l by lia. reflexivity.
  - intro Hrating. apply ecoRating_Aplus in Hrating. fold totalCo2 in Hrating.
    assert (Hle : (totalCo2 <= 50)%Q) by lra.
    pose proof (reduction_antitone Hle) as Hy. fold y in Hy.
    assert (H90 : (Js.times (Js.over (Js.minus 500 50) 500) 100 == 90)%Q)
      by (vm_compute; reflexivity).
    change 90%Q with (inject_Z 90). rewrite <- Zle_Qle.
    apply Z.le_trans with (Qfloor (y + (1 # 2))); [ | apply Z.le_max_r ].
    apply floor_half_ge. change (inject_Z 90) with 90%Q. lra.
Qed.

Lemma dashboard_co2Reduction_range_witness :
  exists stats : DashboardStats,
    Storage.getDashboardStats Sample.now (Sample.store Sample.march []) 1 = Ok stats
    /\ ds_ecoRating stats = "A+"
    /\ (90 <= co2Reduction stats)%Q
    /\ (co2Reduction stats <= 100)%Q.
Proof.
  eexists. split; [ reflexivity | ].
  destruct (@dashboard_co2Reduction_range Sample.now (Sample.store Sample.march []) 1
              _ eq_refl) as (_ & Hmost & _ & Hleast).
  split; [ reflexivity | ]. split; [ exact (Hleast eq_refl) | ].
  apply Hmost. intros t Ht.
  cbn [transactions Sample.store Sample.march In] in Ht.
  repeat (destruct Ht as [ <- | Ht ]; [ vm_compute; discriminate | ]). destruct Ht.
Defined.

Lemma month_range (t : Z) : 0 <= Js.getMonth t <= 11.
Proof.
  unfold Js.getMonth, Js.civil. cbn [fst snd].
  set (z := Js.dayNumber t + 719468).
  set (era := z / 146097).
  set (doe := z - era * 146097).
  assert (Hdoe : 0 <= doe < 146097).
  { subst doe era. pose proof (Z.mod_pos_bound z 146097 ltac:(lia)) as H.
    rewrite Z.mod_eq in H by lia. lia. }
  clearbody doe. clear z era.
  set (yoe := (doe - doe / 1460 + doe / 36524 - doe / 146096) / 365).
  set (doy := doe - (365 * yoe + yoe / 4 - yoe / 100)).
  assert (Hdoy : 0 <= doy <= 365).
  { subst doy yoe. Z.to_euclidean_division_equations. lia. }
  clearbody doy.
  set (mp := (5 * doy + 2) / 153).
  assert (0 <= mp <= 11) by (subst mp; Z.to_euclidean_division_equations; lia).
  destruct (mp <? 10) eqn:E; [ apply Z.ltb_lt in E | apply Z.ltb_ge in E ]; lia.
Qed.

Section Reports.

Variable parseInt : string -> option Z.

(** X18.  A report asked for without a month and a year, or with ones that
    read as [NaN] or as 0, is the report of the month of the clock, and its
    totals are those of the dashboard: the same income, expenses and
    rating, and a balance that is their difference, formed in binary64. *)
Theorem monthly_report_defaults_to_dashboard :
  forall (now : Z) (user : JwtPayload.t) (monthQuery yearQuery : option string) (db : Db),
    Terms.defaulted parseInt monthQuery ->
    Terms.defaulted parseInt yearQuery ->
    get_reports_monthly parseInt now user monthQuery yearQuery db
    = get_reports_monthly parseInt now user None None db
    /\ (failure db Transactions = None ->
        exists (report : MonthlyReport) (stats : DashboardStats),
          get_reports_monthly parseInt now user monthQuery yearQuery db
          = {| code := 200; content := OfReport report |}
          /\ get_dashboard_stats now user db = json (JDashboardStats stats)
          /\ month report = Js.getMonth now + 1
          /\ year report = Js.getFullYear now
          /\ totalIncome report = monthlyIncome stats
          /\ totalExpenses report = monthlyExpenses stats
          /\ totalBalance stats
             = Js.minus (totalIncome report) (totalExpenses report)
          /\ rating (ecoMetrics report) = ds_ecoRating stats).
Proof.
  intros now user monthQuery yearQuery db Hmonth Hyear.
  assert (Hm : parseInt_or parseInt monthQuery (Js.getMonth now + 1) = Js.getMonth now + 1).
  { destruct monthQuery as [ text | ]; [ | reflexivity ].
    simpl in *. destruct Hmonth as [ -> | -> ]; reflexivity. }
  assert (Hy : parseInt_or parseInt yearQuery (Js.getFullYear now) = Js.getFullYear now).
  { destruct yearQuery as [ text | ]; [ | reflexivity ].
    simpl in *. destruct Hyear as [ -> | -> ]; reflexivity. }
  unfold get_reports_monthly. rewrite Hm, Hy. split; [ reflexivity | ].
  intro Hdb.
  unfold get_dashboard_stats, Storage.getMonthlyReport, Storage.getDashboardStats,
    statement.
  rewrite Hdb. cbn [bind].
  eexists. eexists. split; [ reflexivity | ]. split; [ reflexivity | ].
  repeat split.
Qed.

(** X19.  A month outside 1..12 is not refused: when the store serves the
    transactions the report is the empty one, with no income, no expenses,
    no categories and the best rating, whatever the store holds. *)
Theorem monthly_report_of_no_month :
  forall (now : Z) (user : JwtPayload.t) (monthQuery : string) (yearQuery : option string)
         (db : Db) (n : Z),
    parseInt monthQuery = Some n ->
    n < 0 \/ 12 < n ->
    failure db Transactions = None ->
    get_reports_monthly parseInt now user (Some monthQuery) yearQuery db
    = {| code := 200;
         content :=
           OfReport
             {| month := n;
                year := parseInt_or parseInt yearQuery (Js.getFullYear now);
                totalIncome := 0;
                totalExpenses := 0;
                topCategories := [];
                ecoMetrics :=
                  {| totalCo2 := 0;
                     rating := "A+";
                     recommendations := Storage.ecoRecommendations |} |} |}.
Proof.
  intros now user monthQuery yearQuery db n Hmonth Hrange Hdb.
  unfold get_reports_monthly. cbn [parseInt_or]. rewrite Hmonth.
  assert (Hn : (n =? 0) = false) by (apply Z.eqb_neq; lia). rewrite Hn.
  unfold Storage.getMonthlyReport, statement. rewrite Hdb. cbn [bind].
  rewrite (@filter_none _ _ (transactions db)); [ reflexivity | ].
  intros t _. unfold Storage.EXTRACT_MONTH.
  pose proof (month_range (Transaction.date t)) as Hrange'.
  assert (Hne : (Js.getMonth (Transaction.date t) + 1 =? n) = false)
    by (apply Z.eqb_neq; lia).
  rewrite Hne, andb_false_r. reflexivity.
Qed.

End Reports.

Lemma monthly_report_defaults_to_dashboard_witness :
  exists (report : MonthlyReport) (stats : DashboardStats),
    get_reports_monthly Sample.parseInt Sample.now Sample.asAlice (Some "march")
      (Some "0") (Sample.store Sample.march [])
    = {| code := 200; content := OfReport report |}
    /\ get_dashboard_stats Sample.now Sample.asAlice (Sample.store Sample.march [])
       = json (JDashboardStats stats)
    /\ month report = 3
    /\ year report = 2025
    /\ totalIncome report = monthlyIncome stats.
Proof.
  destruct (@monthly_report_defaults_to_dashboard Sample.parseInt Sample.now
              Sample.asAlice (Some "march") (Some "0")
              (Sample.store Sample.march [])
              (or_introl eq_refl) (or_intror eq_refl)) as [_ H].
  destruct (H eq_refl)
    as (report & stats & Hreport & Hstats & Hmonth & Hyear & Hincome & _).
  exists report, stats. split; [ exact Hreport | ]. split; [ exact Hstats | ].
  split; [ exact Hmonth | ]. split; [ exact Hyear | exact Hincome ].
Defined.

Lemma monthly_report_of_no_month_witness :
  exists report : MonthlyReport,
    get_reports_monthly Sample.parseInt Sample.now Sample.asAlice (Some "13")
      (Some "2025") (Sample.store Sample.march [])
    = {| code := 200; content := OfReport report |}
    /\ month report = 13
    /\ topCategories report = []
    /\ rating (ecoMetrics report) = "A+".
Proof.
  eexists. split.
  - apply (@monthly_report_of_no_month Sample.parseInt Sample.now Sample.asAlice
             "13" (Some "2025") (Sample.store Sample.march []) 13 eq_refl).
    + right. reflexivity.
    + reflexivity.
  - repeat split.
Defined.

(* ================================================================= *)
(** ** Categories *)

Section Categories.

Variable parseInt : string -> option Z.
Variable nextval : relation -> Db -> Z.
Variable schema : CategoryBody.t -> result ValidatedCategory.t.

Local Abbreviation create := (post_categories nextval schema).

(** X20.  Creating a category.  Every answer other than 200 leaves the
    store as it was; an answer of 200 has added one category at the end of
    the categories and nothing else, owned by the caller, with the name and
    the type that the schema returned.  The listing of the caller then
    ends with it when it is asked without a type or with the type of the
    category, no other listing of the caller changes, and no listing of
    another user does. *)
Theorem category_created_listed :
  forall (user : JwtPayload.t) (body : CategoryBody.t) (db : Db),
    let answer := create user body db in
    (code (fst answer) <> 200 -> snd answer = db)
    /\ (code (fst answer) = 200 ->
        exists (category : Category.t) (validated : ValidatedCategory.t),
          schema body = Ok validated
          /\ answer
             = ({| code := 200; content := OfCategory category |},
                with_categories db (categories db ++ [category])%list)
          /\ Category.userId category = JwtPayload.userId user
          /\ Category.name category = ValidatedCategory.name validated
          /\ Category.type category = ValidatedCategory.type validated
          /\ (forall (type : option TransactionType) (rows : list Category.t),
                DatabaseStorage.getUserCategories db (JwtPayload.userId user) type
                = Ok rows ->
                DatabaseStorage.getUserCategories (snd answer)
                  (JwtPayload.userId user) type
                = Ok (match type with
                      | Some type =>
                          if TransactionType_eqb (Category.type category) type
                          then (rows ++ [category])%list else rows
                      | None => (rows ++ [category])%list
                      end))
          /\ (forall (other : Z) (type : option TransactionType),
                other <> JwtPayload.userId user ->
                DatabaseStorage.getUserCategories (snd answer) other type
                = DatabaseStorage.getUserCategories db other type)).
Proof.
  intros user body db answer. subst answer. unfold post_categories.
  destruct (schema body) as [ validated | [ first others | m ] ];
    try (split; [ reflexivity | discriminate ]).
  unfold DatabaseStorage.createCategory, statement.
  destruct (failure db Categories) as [ m | ] eqn:Hdb;
    [ split; [ reflexivity | discriminate ] | ].
  split; [ intro H; now contradiction H | ].
  intros _. eexists. exists validated.
  split; [ reflexivity | ]. split; [ reflexivity | ].
  cbn [Category.userId Category.name Category.type InsertCategory.userId
       InsertCategory.name InsertCategory.type fst snd].
  do 3 (split; [ reflexivity | ]).
  unfold DatabaseStorage.getUserCategories, statement.
  cbn [failure categories with_categories]. rewrite Hdb.
  split.
  - intros [ type | ] rows [= <-]; rewrite filter_app; cbn [filter Category.userId
      Category.type]; rewrite Z.eqb_refl; cbn [andb].
    + destruct (TransactionType_eqb (ValidatedCategory.type validated) type);
        [ reflexivity | now rewrite app_nil_r ].
    + reflexivity.
  - intros other type Hother.
    assert (Hne : (JwtPayload.userId user =? other) = false)
      by (apply Z.eqb_neq; congruence).
    destruct type as [ type | ]; rewrite filter_app; cbn [filter Category.userId];
      rewrite Hne; cbn [andb]; now rewrite app_nil_r.
Qed.

(** X21.  The outcomes of deleting a category.  For an id that [parseInt]
    reads as [n]: when [n] does not fit the key of the store the answer is
    500 and the store is as it was; when it fits, the store serves the
    categories and no category has the id, the answer is 404; when the
    category belongs to another user the answer is 403 and the store is as
    it was; otherwise the answer is 204, the category is gone (deleting it
    again is a 404), every category with another id is kept, and the
    transactions, those under the label of the category among them, are
    as they were. *)
Theorem deleteCategory_outcomes :
  forall (user : JwtPayload.t) (id : string) (db : Db) (n : Z),
    parseInt id = Some n ->
    let answer := delete_categories_id parseInt user id db in
    (key db n = false ->
     answer = (status_json 500 (JMessage "Ошибка сервера"), db))
    /\ (key db n = true ->
        failure db Categories = None ->
        (forall c : Category.t, In c (categories db) -> Category.id c <> n) ->
        answer = (status_json 404 (JMessage "Категория не найдена"), db))
    /\ (forall c : Category.t,
          DatabaseStorage.getCategory db n = Ok (Some c) ->
          Category.userId c <> JwtPayload.userId user ->
          answer = (status_json 403 (JMessage "Доступ запрещен"), db))
    /\ (forall c : Category.t,
          DatabaseStorage.getCategory db n = Ok (Some c) ->
          Category.userId c = JwtPayload.userId user ->
          fst answer = status_send 204
          /\ fst (delete_categories_id parseInt user id (snd answer))
             = status_json 404 (JMessage "Категория не найдена")
          /\ (forall c' : Category.t,
                In c' (categories (snd answer))
                <-> In c' (categories db) /\ Category.id c' <> n)
          /\ users (snd answer) = users db
          /\ goals (snd answer) = goals db
          /\ transactions (snd answer) = transactions db
          /\ transactions_id_seq (snd answer) = transactions_id_seq db).
Proof.
  intros user id db n Hid answer. subst answer.
  unfold delete_categories_id. rewrite Hid.
  unfold DatabaseStorage.getCategory, DatabaseStorage.deleteCategory, statementOn,
    statement.
  split; [ | split ].
  - intros ->. destruct (failure db Categories); reflexivity.
  - intros -> -> Hnone.
    now rewrite (@find_none_key _ Category.id n (categories db) Hnone).
  - destruct (failure db Categories) as [ message | ] eqn:Hdb;
      [ split; intros; discriminate | ].
    destruct (key db n) eqn:Hkey; [ | split; intros; discriminate ].
    destruct (find (fun c => Category.id c =? n) (categories db)) as [ c0 | ];
      split; try (intros; discriminate);
      intros c H; injection H as <-.
    + intros Hother. apply Z.eqb_neq in Hother. now rewrite Hother.
    + intros Hown. apply Z.eqb_eq in Hown. rewrite Hown.
      cbn [negb fst snd with_categories goals failure key users categories
           transactions transactions_id_seq].
      rewrite Hdb, Hkey, find_filter_out_key.
      do 2 (split; [ reflexivity | ]).
      split; [ | repeat split ].
      intro c'. rewrite filter_In, negb_true_iff, Z.eqb_neq. reflexivity.
Qed.

End Categories.

Lemma category_created_listed_witness :
  let db := with_categories (Sample.store Sample.march [])
              [Sample2.groceries; Sample2.wages; Sample2.tools] in
  let answer :=
    post_categories Sample2.nextval Sample2.insertCategorySchema_parse Sample.asBob
      {| CategoryBody.name := "Rent"; CategoryBody.type := "expense" |} db in
  exists category : Category.t,
    DatabaseStorage.getUserCategories (snd answer) 2 (Some expense)
    = Ok [Sample2.tools; category]
    /\ DatabaseStorage.getUserCategories (snd answer) 2 (Some income) = Ok []
    /\ DatabaseStorage.getUserCategories (snd answer) 1 None
       = Ok [Sample2.groceries; Sample2.wages]
    /\ Category.userId category = 2.
Proof.
  intros db answer.
  destruct (@category_created_listed Sample2.nextval
              Sample2.insertCategorySchema_parse Sample.asBob
              {| CategoryBody.name := "Rent"; CategoryBody.type := "expense" |} db)
    as [_ H].
  destruct (H eq_refl)
    as (category & validated & Hschema & _ & Howner & _ & Htype & Hown & Hothers).
  injection Hschema as <-. simpl in Htype.
  exists category.
  split; [ | split; [ | split ] ].
  - pose proof (Hown (Some expense) [Sample2.tools] eq_refl) as Hlisted.
    rewrite Htype in Hlisted. exact Hlisted.
  - pose proof (Hown (Some income) [] eq_refl) as Hlisted.
    rewrite Htype in Hlisted. exact Hlisted.
  - exact (Hothers 1 None ltac:(discriminate)).
  - exact Howner.
Defined.

Lemma deleteCategory_outcomes_witness :
  let db := with_categories (Sample.store Sample.march [])
              [Sample2.groceries; Sample2.wages; Sample2.tools] in
  delete_categories_id Sample.parseInt Sample.asAlice "99999999999" db
  = (status_json 500 (JMessage "Ошибка сервера"), db)
  /\ delete_categories_id Sample.parseInt Sample.asAlice "7" db
     = (status_json 404 (JMessage "Категория не найдена"), db)
  /\ delete_categories_id Sample.parseInt Sample.asAlice "3" db
     = (status_json 403 (JMessage "Доступ запрещен"), db)
  /\ fst (delete_categories_id Sample.parseInt Sample.asBob "3" db) = status_send 204
  /\ transactions (snd (delete_categories_id Sample.parseInt Sample.asBob "3" db))
     = Sample.march.
Proof.
  intro db.
  destruct (@deleteCategory_outcomes Sample.parseInt Sample.asAlice "99999999999" db
              99999999999 eq_refl) as (H500 & _).
  destruct (@deleteCategory_outcomes Sample.parseInt Sample.asAlice "7" db 7 eq_refl)
    as (_ & H404 & _).
  destruct (@deleteCategory_outcomes Sample.parseInt Sample.asAlice "3" db 3 eq_refl)
    as (_ & _ & H403 & _).
  destruct (@deleteCategory_outcomes Sample.parseInt Sample.asBob "3" db 3 eq_refl)
    as (_ & _ & _ & H204).
  split; [ apply H500; reflexivity | ].
  split.
  { apply H404; [ reflexivity | reflexivity | ].
    intros c Hc. cbn [categories db with_categories In] in Hc.
    repeat (destruct Hc as [ <- | Hc ]; [ discriminate | ]). destruct Hc. }
  split; [ apply (H403 Sample2.tools); [ reflexivity | discriminate ] | ].
  destruct (H204 Sample2.tools eq_refl eq_refl) as (Hstatus & _ & _ & _ & _ & Hkept & _).
  split; [ exact Hstatus | exact Hkept ].
Defined.

(* ================================================================= *)
(** ** The profile *)

Lemma map_unchanged {A : Type} (differs : A -> bool) (f : A -> A) (l : list A) :
  find differs l = None -> map (fun a => if differs a then f a else a) l = l.
Proof.
  induction l as [ | a l IH ]; simpl; trivial.
  destruct (differs a); [ discriminate | ]. intro H. now rewrite IH.
Qed.

(** X22.  Updating the profile.  Every answer other than 200 leaves the
    rows of the users as they were.  An answer of 200 carries the public
    fields of the caller's row as the store now has it, which are what
    reading the profile then returns: the id of the caller, and for each
    key of the body its text, for each absent key the column as it was.
    The rows are the same rows in the same places with their id, password
    and time of creation, and a row with another id is untouched; the
    transactions, categories and goals are as they were. *)
Theorem profile_update_round_trip :
  forall (now : Z) (user : JwtPayload.t) (body : ProfileBody.t) (db : Db),
    let answer := patch_user_profile now user body db in
    (code (fst answer) <> 200 -> users (snd answer) = users db)
    /\ transactions (snd answer) = transactions db
    /\ categories (snd answer) = categories db
    /\ goals (snd answer) = goals db
    /\ (code (fst answer) = 200 ->
        exists (public : PublicUser) (row : User.t),
          fst answer = {| code := 200; content := OfUser public |}
          /\ get_user_profile user (snd answer)
             = {| code := 200; content := OfUser public |}
          /\ DatabaseStorage.getUser db (JwtPayload.userId user) = Ok (Some row)
          /\ pu_id public = JwtPayload.userId user
          /\ pu_email public = orElse (ProfileBody.email body) (User.email row)
          /\ pu_firstName public
             = orElse (ProfileBody.firstName body) (User.firstName row)
          /\ pu_lastName public
             = orElse (ProfileBody.lastName body) (User.lastName row)
          /\ (forall (n : nat) (u : User.t),
                nth_error (users db) n = Some u ->
                exists u' : User.t,
                  nth_error (users (snd answer)) n = Some u'
                  /\ User.id u' = User.id u
                  /\ User.password u' = User.password u
                  /\ User.createdAt u' = User.createdAt u
                  /\ (User.id u <> JwtPayload.userId user -> u' = u))).
Proof.
  intros now user body db answer. subst answer.
  unfold patch_user_profile, DatabaseStorage.updateUser, statement.
  destruct (failure db Users) as [ m | ] eqn:Hdb;
    [ repeat split; discriminate | ].
  destruct (DatabaseStorage.emailTaken db (JwtPayload.userId user) _);
    [ repeat split; discriminate | ].
  set (f := fun u : User.t =>
              if User.id u =? JwtPayload.userId user
              then DatabaseStorage.setUser now
                     {| PartialUser.email := ProfileBody.email body;
                        PartialUser.password := None;
                        PartialUser.firstName := ProfileBody.firstName body;
                        PartialUser.lastName := ProfileBody.lastName body |} u
              else u).
  assert (Hid : forall u, (User.id (f u) =? JwtPayload.userId user)
                          = (User.id u =? JwtPayload.userId user)).
  { intro u. unfold f.
    destruct (User.id u =? JwtPayload.userId user) eqn:E; exact E. }
  rewrite (find_map_same (fun u => User.id u =? JwtPayload.userId user) f
             (users db) Hid).
  destruct (find (fun u => User.id u =? JwtPayload.userId user) (users db))
    as [ row | ] eqn:Hfind; cbn [option_map fst snd code users transactions
                                 categories goals with_users].
  - split; [ intro H; now contradiction H | ].
    do 3 (split; [ reflexivity | ]).
    intros _. eexists. exists row. split; [ reflexivity | ].
    destruct (find_some _ _ Hfind) as [_ Hrow].
    unfold get_user_profile, DatabaseStorage.getUser, statement.
    cbn [failure users with_users]. rewrite Hdb.
    rewrite (find_map_same (fun u => User.id u =? JwtPayload.userId user) f
               (users db) Hid).
    rewrite Hfind. cbn [option_map].
    do 2 (split; [ reflexivity | ]).
    unfold f. rewrite Hrow.
    cbn [pu_id pu_email pu_firstName pu_lastName DatabaseStorage.setUser User.id
         User.email User.firstName User.lastName PartialUser.email
         PartialUser.firstName PartialUser.lastName].
    split; [ now apply Z.eqb_eq | ]. do 3 (split; [ reflexivity | ]).
    intros n u Hnth. rewrite nth_error_map, Hnth. cbn [option_map].
    eexists. split; [ reflexivity | ].
    destruct (User.id u =? JwtPayload.userId user) eqn:E.
    + apply Z.eqb_eq in E. repeat split. intro H. contradiction.
    + repeat split.
  - split; [ | repeat split; discriminate ].
    intros _. apply map_unchanged. exact Hfind.
Qed.

Lemma profile_update_round_trip_witness :
  let answer :=
    patch_user_profile Sample.now Sample.asAlice
      {| ProfileBody.firstName := None; ProfileBody.lastName := Some "Hargreaves";
         ProfileBody.email := None |}
      (Sample.store Sample.march []) in
  exists public : PublicUser,
    get_user_profile Sample.asAlice (snd answer)
    = {| code := 200; content := OfUser public |}
    /\ pu_firstName public = "Alice"
    /\ pu_lastName public = "Hargreaves"
    /\ pu_email public = "alice@example.com".
Proof.
  intro answer.
  destruct (@profile_update_round_trip Sample.now Sample.asAlice
              {| ProfileBody.firstName := None;
                 ProfileBody.lastName := Some "Hargreaves";
                 ProfileBody.email := None |}
              (Sample.store Sample.march [])) as (_ & _ & _ & _ & H).
  destruct (H eq_refl)
    as (public & row & _ & Hread & Hrow & _ & Hemail & Hfirst & Hlast & _).
  injection Hrow as <-.
  exists public. split; [ exact Hread | ].
  split; [ exact Hfirst | ]. split; [ exact Hlast | exact Hemail ].
Defined.

(* ================================================================= *)
(** ** A creation seen from the dashboard *)

Section CreateThenDashboard.

Variable parseInt : string -> option Z.
Variable parseFloat : string -> option Q.
Variable Date_parse : string -> option Z.
Variable schema : TransactionBody.t -> result ValidatedTransaction.t.

Local Abbreviation create := (post_transactions parseInt parseFloat Date_parse schema).

(** The row that a creation stores when the schema accepts the body, its
    date text is a date and the store takes the insertion, whatever
    happens to the goal. *)
Lemma post_transactions_stored (now : Z) (user : JwtPayload.t)
    (body : TransactionBody.t) (db : Db) (validated : ValidatedTransaction.t)
    (date : Z) :
  schema (TransactionBody.with_amount body
            (coerceAmount parseFloat (TransactionBody.amount body)))
  = Ok validated ->
  Date_parse (ValidatedTransaction.date validated) = Some date ->
  failure db Transactions = None ->
  exists row : Transaction.t,
    transactions (snd (create now user body db)) = (transactions db ++ [row])%list
    /\ failure (snd (create now user body db)) = failure db
    /\ Transaction.userId row = JwtPayload.userId user
    /\ Transaction.type row = ValidatedTransaction.type validated
    /\ Transaction.amount row = ValidatedTransaction.amount validated
    /\ Transaction.date row = date.
Proof.
  intros Hschema Hdate Hdb. unfold post_transactions. rewrite Hschema.
  unfold Storage.createTransaction. cbn [InsertTransaction.date]. rewrite Hdate.
  unfold statement. rewrite Hdb. eexists.
  destruct (truthy (TransactionBody.goalId body)
            && TransactionType_eqb (ValidatedTransaction.type validated) income).
  - unfold Storage.updateGoalProgress.
    destruct (parseInt_goalId parseInt (TransactionBody.goalId body)) as [ id | ];
      [ destruct (statementOn _ Goals id tt) | ];
      cbn [fst snd transactions failure with_goals with_transactions];
      repeat split; reflexivity.
  - cbn [fst snd transactions failure with_transactions]. repeat split; reflexivity.
Qed.

(** X23.  A creation seen from the dashboard of the caller, read at the
    same clock.  When the schema accepts the body, its date text is a date
    and the store takes the insertion, a transaction dated outside the
    month of the clock leaves the dashboard as it was; one dated in it
    raises the count by one and adds its amount, in binary64, to the
    income of the month, or to the expenses, according to its type, and to
    nothing else. *)
Theorem created_transaction_on_dashboard :
  forall (now : Z) (user : JwtPayload.t) (body : TransactionBody.t) (db : Db)
         (validated : ValidatedTransaction.t) (date : Z),
    schema (TransactionBody.with_amount body
              (coerceAmount parseFloat (TransactionBody.amount body)))
    = Ok validated ->
    Date_parse (ValidatedTransaction.date validated) = Some date ->
    failure db Transactions = None ->
    let amount := ValidatedTransaction.amount validated in
    exists before after : DashboardStats,
      get_dashboard_stats now user db = json (JDashboardStats before)
      /\ get_dashboard_stats now user (snd (create now user body db))
         = json (JDashboardStats after)
      /\ (Js.getMonth date <> Js.getMonth now
          \/ Js.getFullYear date <> Js.getFullYear now ->
          after = before)
      /\ (Js.getMonth date = Js.getMonth now ->
          Js.getFullYear date = Js.getFullYear now ->
          ds_totalTransactions after = ds_totalTransactions before + 1
          /\ (ValidatedTransaction.type validated = income ->
              monthlyIncome after
              = Js.plus (monthlyIncome before) (Js.number amount)
              /\ monthlyExpenses after = monthlyExpenses before)
          /\ (ValidatedTransaction.type validated = expense ->
              monthlyExpenses after
              = Js.plus (monthlyExpenses before) (Js.number amount)
              /\ monthlyIncome after = monthlyIncome before)).
Proof.
  intros now user body db validated date Hschema Hparsed Hdb amount.
  destruct (@post_transactions_stored now user body db validated date Hschema
              Hparsed Hdb)
    as (row & Hrows & Hfailure & Huser & Htype & Hamount & Hdate).
  unfold get_dashboard_stats, Storage.getDashboardStats, statement.
  rewrite Hfailure, Hdb, Hrows. cbn [bind].
  eexists. eexists. split; [ reflexivity | ]. split; [ reflexivity | ].
  rewrite filter_app. cbn [filter]. rewrite Huser, Hdate, Z.eqb_refl.
  unfold Storage.EXTRACT_MONTH, Storage.EXTRACT_YEAR. cbn [andb].
  split.
  - intro Hother.
    assert (Hout : ((Js.getMonth date + 1 =? Js.getMonth now + 1)
                    && (Js.getFullYear date =? Js.getFullYear now)) = false).
    { apply andb_false_iff.
      destruct Hother as [ H | H ]; [ left | right ]; apply Z.eqb_neq; lia. }
    rewrite Hout, app_nil_r. reflexivity.
  - intros Hmonth Hyear. rewrite Hmonth, Hyear, !Z.eqb_refl. cbn [andb].
    cbn [ds_totalTransactions monthlyIncome monthlyExpenses].
    rewrite !filter_app, length_app. cbn [filter List.length].
    rewrite Htype. unfold Js.reduce.
    split; [ lia | ].
    split; intro Hkind; rewrite Hkind; cbn [TransactionType_eqb];
      rewrite app_nil_r, fold_left_app; cbn [fold_left];
      unfold Storage.amountOf at 2; rewrite Hamount;
      split; reflexivity.
Qed.

End CreateThenDashboard.

Lemma created_transaction_on_dashboard_witness :
  exists before after : DashboardStats,
    get_dashboard_stats Sample.now Sample.asAlice (Sample.store Sample.march [])
    = json (JDashboardStats before)
    /\ get_dashboard_stats Sample.now Sample.asAlice
         (snd (post_transactions Sample.parseInt Sample.parseFloat Sample.Date_parse
                 Sample.insertTransactionSchema_parse Sample.now Sample.asAlice
                 (Sample.purchase "food" (AmountString "12"))
                 (Sample.store Sample.march [])))
       = json (JDashboardStats after)
    /\ ds_totalTransactions after = ds_totalTransactions before + 1
    /\ monthlyExpenses before = 40%Q
    /\ monthlyExpenses after = 52%Q
    /\ monthlyIncome after = monthlyIncome before.
Proof.
  destruct (@created_transaction_on_dashboard Sample.parseInt Sample.parseFloat
              Sample.Date_parse Sample.insertTransactionSchema_parse Sample.now
              Sample.asAlice (Sample.purchase "food" (AmountString "12"))
              (Sample.store Sample.march [])
              {| ValidatedTransaction.type := expense;
                 ValidatedTransaction.amount := 12;
                 ValidatedTransaction.category := "food";
                 ValidatedTransaction.description := None;
                 ValidatedTransaction.date := "2025-03-15" |}
              1741996800000 eq_refl eq_refl eq_refl)
    as (before & after & Hbefore & Hafter & _ & Hin).
  destruct (Hin eq_refl eq_refl) as (Hcount & _ & Hexpense).
  destruct (Hexpense eq_refl) as (Hexpenses & Hincome).
  exists before, after. split; [ exact Hbefore | ]. split; [ exact Hafter | ].
  split; [ exact Hcount | ].
  assert (H40 : monthlyExpenses before = 40%Q).
  { vm_compute in Hbefore. injection Hbefore as <-. reflexivity. }
  split; [ exact H40 | ].
  split; [ | exact Hincome ].
  rewrite Hexpenses, H40. vm_compute. reflexivity.
Defined.
